(** * Stay-Fit: biometric adaptation, metabolism and meal optimisation

    A shallow embedding of the numerical core of the repository
    ([adaptation.py], [metabolism.py], [ml_models.py], [models.py],
    [config.py], and the planner and engine functions of [meal_planner.py]
    and [engine.py] around them) together with the properties its
    specification states and further properties of the code.

    Conventions of the embedding.
    - Python [int] and [float] values are exact rationals ([Q]); a decimal
      literal such as [0.85] denotes the rational 85/100.  Rounding, NaN and
      infinities of IEEE doubles are outside the model.
    - [np.std] is a square root; every use of it in the sources is a
      comparison against a non-negative bound, which is stated on the
      variance ([np.var]) against the squared bound.
    - A meal or food [dict] is a finite map from strings to Python values;
      meal dictionaries live in a store of objects addressed by location,
      so that in-place mutation and [dict.copy()] keep their meaning.
    - Exceptions are results: a computation either returns or raises.
    - [datetime.now()] is an argument ([now]), timestamps are integers
      (microseconds).
    - f-strings are kept as a tag with the interpolated quantities. *)

From Stdlib Require Import QArith Qminmax Qabs Lqa ZArith Lia Ascii String Sorted.
From stdpp Require Import gmap strings list.

Open Scope Q_scope.

(** ** The Python runtime fragment *)

Module Py.

Inductive exn : Set :=
| KeyError
| TypeError
| AttributeError
| ZeroDivisionError
| IndexError
| DanglingReference.

Inductive result (A : Type) : Type :=
| Ok (a : A)
| Raise (e : exn).
Arguments Ok {A} a.
Arguments Raise {A} e.

Definition rbind {A B} (c : result A) (k : A -> result B) : result B :=
  match c with
  | Ok a => k a
  | Raise e => Raise e
  end.

#[global] Instance result_ret : MRet result := fun _ a => Ok a.
#[global] Instance result_bind : MBind result := fun _ _ k c => rbind c k.

(** Values stored in dictionaries. *)
Inductive value : Type :=
| VNum (q : Q)
| VStr (s : string)
| VList (l : list string).

Abbreviation dict := (gmap string value).

(** Rational comparisons as booleans: [a < b], [a <= b]. *)
Definition Qlt_bool (a b : Q) : bool := negb (Qle_bool b a).

(** [max(a, b)] and [min(a, b)]: the first argument wins ties. *)
Definition max (a b : Q) : Q := if Qlt_bool a b then b else a.
Definition min (a b : Q) : Q := if Qlt_bool b a then b else a.
Definition abs (a : Q) : Q := Qabs a.
Arguments max : simpl never.
Arguments min : simpl never.
Arguments abs : simpl never.
Arguments Qlt_bool : simpl never.

(** [a / b] on floats. *)
Definition div (a b : Q) : result Q :=
  if Qeq_bool b 0 then Raise ZeroDivisionError else Ok (a / b).

Fixpoint sum (l : list Q) : Q :=
  match l with
  | [] => 0
  | x :: l' => x + sum l'
  end.

Definition len {A} (l : list A) : Q := inject_Z (Z.of_nat (length l)).

(** [np.mean], [np.max], [np.min], [np.var] of a non-empty list. *)
Definition mean (l : list Q) : Q := sum l / len l.

Definition np_max (l : list Q) : Q :=
  match l with
  | [] => 0
  | x :: l' => foldl Qmax x l'
  end.

Definition np_min (l : list Q) : Q :=
  match l with
  | [] => 0
  | x :: l' => foldl Qmin x l'
  end.

Definition var (l : list Q) : Q :=
  let m := mean l in mean (map (fun x => (x - m) * (x - m)) l).

Fixpoint prod (l : list Q) : Q :=
  match l with
  | [] => 1
  | x :: l' => x * prod l'
  end.

(** [l[-n:]] and [l[:n]]. *)
Definition last_n {A} (n : nat) (l : list A) : list A :=
  drop (length l - n) l.
Definition first_n {A} (n : nat) (l : list A) : list A := take n l.

(** [sorted(l, key=key)] and [sorted(l, key=key, reverse=True)]: stable,
    comparing keys with [<] only. *)
Section Sorted.
Context {A K : Type} (ltb : K -> K -> bool) (key : A -> K).

Fixpoint insert_asc (x : A) (l : list A) : list A :=
  match l with
  | [] => [x]
  | y :: l' =>
      if ltb (key y) (key x) then y :: insert_asc x l' else x :: y :: l'
  end.

Fixpoint insert_desc (x : A) (l : list A) : list A :=
  match l with
  | [] => [x]
  | y :: l' =>
      if ltb (key x) (key y) then y :: insert_desc x l' else x :: y :: l'
  end.

Definition sorted (reverse : bool) (l : list A) : list A :=
  foldr (if reverse then insert_desc else insert_asc) [] l.
End Sorted.

(** [s.lower()] on ASCII text. *)
Definition lower_ascii (c : ascii) : ascii :=
  let n := nat_of_ascii c in
  if ((65 <=? n)%nat && (n <=? 90)%nat)%bool then ascii_of_nat (n + 32) else c.

Fixpoint lower (s : string) : string :=
  match s with
  | EmptyString => EmptyString
  | String c s' => String (lower_ascii c) (lower s')
  end.

(** [sub in s] on strings. *)
Fixpoint is_prefix (p s : string) : bool :=
  match p, s with
  | EmptyString, _ => true
  | String a p', String b s' => (if decide (a = b) then is_prefix p' s' else false)
  | String _ _, EmptyString => false
  end.

Fixpoint contains (s sub : string) : bool :=
  is_prefix sub s ||
  match s with
  | EmptyString => false
  | String _ s' => contains s' sub
  end.

Definition str_eqb (a b : string) : bool := bool_decide (a = b).

(** *** Arithmetic on dictionary values *)

Fixpoint repeat_app {A} (n : nat) (l : list A) : list A :=
  match n with
  | O => []
  | S n' => l ++ repeat_app n' l
  end.

Fixpoint repeat_str (n : nat) (s : string) : string :=
  match n with
  | O => EmptyString
  | S n' => String.append s (repeat_str n' s)
  end.

(** [v * f] for a float [f]: only numbers can be multiplied by a float. *)
Definition mul_float (v : value) (f : Q) : result value :=
  match v with
  | VNum q => Ok (VNum (q * f))
  | _ => Raise TypeError
  end.

(** [v * n] for an int literal [n]: sequences are repeated. *)
Definition mul_int (v : value) (n : nat) : result value :=
  match v with
  | VNum q => Ok (VNum (q * inject_Z (Z.of_nat n)))
  | VStr s => Ok (VStr (repeat_str n s))
  | VList l => Ok (VList (repeat_app n l))
  end.

(** [v + w] *)
Definition add (v w : value) : result value :=
  match v, w with
  | VNum a, VNum b => Ok (VNum (a + b))
  | VStr a, VStr b => Ok (VStr (String.append a b))
  | VList a, VList b => Ok (VList (a ++ b))
  | _, _ => Raise TypeError
  end.

(** *** Operations on one dictionary object

    A statement sequence that only touches one dictionary is a state
    transformer on that dictionary which may raise; what was mutated before
    the exception stays mutated. *)

Definition D (A : Type) : Type := dict -> dict * result A.

#[global] Instance D_ret : MRet D := fun _ a d => (d, Ok a).
#[global] Instance D_bind : MBind D := fun _ _ k c d =>
  match c d with
  | (d', Ok a) => k a d'
  | (d', Raise e) => (d', Raise e)
  end.

Definition lift {A} (r : result A) : D A := fun d => (d, r).

(** [k in d] *)
Definition contains_key (k : string) : D bool :=
  fun d => (d, Ok (match d !! k with Some _ => true | None => false end)).

(** [d[k]] *)
Definition getitem (k : string) : D value :=
  fun d => (d, match d !! k with Some v => Ok v | None => Raise KeyError end).

(** [d.get(k, default)] *)
Definition get (k : string) (dflt : value) : D value :=
  fun d => (d, Ok (default dflt (d !! k))).

(** [d[k] = v] *)
Definition setitem (k : string) (v : value) : D unit :=
  fun d => (<[k := v]> d, Ok tt).

(** [d[k] *= f] for a float [f] *)
Definition imul (k : string) (f : Q) : D unit :=
  v ← getitem k; w ← lift (mul_float v f); setitem k w.

(** [if k in d: d[k] *= f] *)
Definition imul_if_present (f : Q) (k : string) : D unit :=
  c ← contains_key k;
  if c : bool then imul k f else mret tt.

(** [for x in l: body] within one dictionary *)
Fixpoint for_in {A} (l : list A) (body : A -> D unit) : D unit :=
  match l with
  | [] => mret tt
  | x :: l' => body x ;; for_in l' body
  end.

(** *** The object store

    Dictionaries are objects: a list of meals holds their locations, and two
    lists may share a dictionary. *)

Abbreviation store := (list dict).
Abbreviation loc := nat.

Definition M (A : Type) : Type := store -> store * result A.

#[global] Instance M_ret : MRet M := fun _ a h => (h, Ok a).
#[global] Instance M_bind : MBind M := fun _ _ k c h =>
  match c h with
  | (h', Ok a) => k a h'
  | (h', Raise e) => (h', Raise e)
  end.

Definition raise {A} (e : exn) : M A := fun h => (h, Raise e).
Definition lift_result {A} (r : result A) : M A := fun h => (h, r).

(** Run statements on the dictionary at [r]. *)
Definition at_loc {A} (r : loc) (op : D A) : M A :=
  fun h =>
    match h !! r with
    | Some d => let '(d', x) := op d in (<[r := d']> h, x)
    | None => (h, Raise DanglingReference)
    end.

(** [d.copy()]: a new object with the same entries. *)
Definition copy (r : loc) : M loc :=
  fun h =>
    match h !! r with
    | Some d => (h ++ [d], Ok (length h))
    | None => (h, Raise DanglingReference)
    end.

(** [for x in l: body] *)
Fixpoint for_each {A} (l : list A) (body : A -> M unit) : M unit :=
  match l with
  | [] => mret tt
  | x :: l' => body x ;; for_each l' body
  end.

(** [[f(x) for x in l]] *)
Fixpoint list_comp {A B} (f : A -> M B) (l : list A) : M (list B) :=
  match l with
  | [] => mret []
  | x :: l' => y ← f x; ys ← list_comp f l'; mret (y :: ys)
  end.

End Py.

Import Py.

(** ** [config.py] *)

Module Config.

Definition MEAL_CALORIE_DISTRIBUTION : gmap string Q :=
  <["breakfast" := 0.25]> (<["lunch" := 0.40]> (<["dinner" := 0.35]> ∅)).

Definition HIGH_GLUCOSE_THRESHOLD : Q := 140.
Definition LOW_ACTIVITY_THRESHOLD : Q := 5000.
Definition POOR_SLEEP_THRESHOLD : Q := 6.

End Config.

(** ** [models.py] *)

Inductive ActivityLevel : Set :=
| SEDENTARY
| LIGHTLY_ACTIVE
| MODERATELY_ACTIVE
| VERY_ACTIVE
| EXTREMELY_ACTIVE.

(** [ActivityLevel.value] *)
Definition activity_value (a : ActivityLevel) : Q :=
  match a with
  | SEDENTARY => 1.2
  | LIGHTLY_ACTIVE => 1.375
  | MODERATELY_ACTIVE => 1.55
  | VERY_ACTIVE => 1.725
  | EXTREMELY_ACTIVE => 1.9
  end.

Inductive DietaryRestriction : Set :=
| VEGETARIAN
| VEGAN
| PESCATARIAN
| KETO
| PALEO
| LOW_CARB
| LOW_FAT
| GLUTEN_FREE
| DAIRY_FREE.

Record BiometricData : Type := {
  timestamp : Z;
  steps : option Z;
  heart_rate : option Z;
  sleep_hours : option Q;
  glucose_mg_dl : option Q;
  blood_pressure_systolic : option Z;
  blood_pressure_diastolic : option Z;
  weight_kg : option Q;
  body_fat_percentage : option Q
}.

Record DietaryPreferences : Type := {
  allergies : list string;
  dislikes : list string;
  dietary_restrictions : list DietaryRestriction
}.

(** The fields the calculations read; [profile_weight_kg] is the profile's
    [weight_kg], told apart from the field of that name of a sample. *)
Record UserProfile : Type := {
  name : string;
  age : Z;
  sex : string;
  profile_weight_kg : Q;
  height_cm : Q;
  activity_level : ActivityLevel;
  dietary_preferences : DietaryPreferences
}.

Module UserProfileMethods.

(** [UserProfile.calculate_bmr] *)
Definition calculate_bmr (self : UserProfile) : Q :=
  if str_eqb (lower (sex self)) "male"
  then 10 * profile_weight_kg self + 6.25 * height_cm self - 5 * inject_Z (age self) + 5
  else 10 * profile_weight_kg self + 6.25 * height_cm self - 5 * inject_Z (age self) - 161.

(** [UserProfile.calculate_tdee] *)
Definition calculate_tdee (self : UserProfile) : Q :=
  let bmr := calculate_bmr self in
  bmr * activity_value (activity_level self).

End UserProfileMethods.

(** ** [adaptation.py]: the biometric analyzer *)

Inductive AdaptationReason : Set :=
| HIGH_GLUCOSE
| LOW_ACTIVITY
| POOR_SLEEP
| HIGH_STRESS
| WEIGHT_CHANGE
| ILLNESS_RECOVERY
| EXERCISE_SESSION
| MEAL_TIMING.

#[global] Instance AdaptationReason_eq_dec : EqDecision AdaptationReason.
Proof. solve_decision. Defined.

(** The alert texts, with the quantities their f-strings interpolate. *)
Inductive alert : Type :=
| AlertHighGlucose (max_glucose : Q)
| AlertLowGlucose (avg_glucose : Q)
| AlertLowActivity (avg_steps : Q)
| AlertInconsistentActivity
| AlertInsufficientSleep (avg_sleep : Q)
| AlertSleepDebt (sleep_debt : Q)
| AlertElevatedHeartRate (avg_hr : Q)
| AlertHeartRateVariability
| AlertWeightChange (direction : string) (abs_change : Q).

(** One per-metric trend dictionary: its numeric entries by key, its
    ['trend'] and ['status'] strings when present, its alerts and
    adaptation tags.  The entries ['consistency_score'] and
    ['variability'], which hold a standard deviation, are not represented. *)
Record metric_trends : Type := {
  numbers : gmap string Q;
  trend : option string;
  status : option string;
  alerts : list alert;
  adaptations : list AdaptationReason
}.

(** The dictionary returned by [analyze_biometric_trends]; [all_alerts] is
    its ['alerts'] entry. *)
Record analysis : Type := {
  trends : gmap string metric_trends;
  all_alerts : list alert;
  adaptations_needed : list AdaptationReason;
  analysis_period : option Z;
  data_points : option nat
}.

Module BiometricAnalyzer.

(** [self.adaptation_thresholds] *)
Definition glucose_high : Q := Config.HIGH_GLUCOSE_THRESHOLD.
Definition glucose_low : Q := 70.
Definition steps_low : Q := Config.LOW_ACTIVITY_THRESHOLD.
Definition steps_high : Q := 15000.
Definition sleep_poor : Q := Config.POOR_SLEEP_THRESHOLD.
Definition sleep_excessive : Q := 10.
Definition heart_rate_high : Q := 100.
Definition heart_rate_low : Q := 50.
Definition weight_change_significant : Q := 2.0.

(** [[f(d) for d in data if f(d) is not None]] *)
Definition present {A} (f : BiometricData -> option A) (data : list BiometricData) : list A :=
  omap f data.

Definition no_data (st : string) : metric_trends :=
  {| numbers := ∅; trend := None; status := Some st; alerts := []; adaptations := [] |}.

(** Slope of the least-squares line through [(0, v0), (1, v1), ...]:
    [np.polyfit(np.arange(len(values)), values, 1)[0]]. *)
Definition polyfit_slope (values : list Q) : Q :=
  let n := len values in
  let xs := map (fun i => inject_Z (Z.of_nat i)) (seq 0 (length values)) in
  let sx := sum xs in
  let sy := sum values in
  let sxy := sum (zip_with Qmult xs values) in
  let sxx := sum (map (fun x => x * x) xs) in
  (n * sxy - sx * sy) / (n * sxx - sx * sx).

Definition _calculate_trend_direction (values : list Q) : string :=
  if (length values <? 2)%nat then "stable"
  else
    let slope := polyfit_slope values in
    if Qlt_bool 0.1 slope then "increasing"
    else if Qlt_bool slope (-0.1) then "decreasing"
    else "stable".

Definition _glucose_status_classification (avg_glucose : Q) : string :=
  if Qlt_bool avg_glucose 70 then "low"
  else if Qle_bool 70 avg_glucose && Qle_bool avg_glucose 100 then "normal"
  else if Qlt_bool 100 avg_glucose && Qle_bool avg_glucose 125 then "elevated"
  else "high".

Definition _activity_status_classification (avg_steps : Q) : string :=
  if Qlt_bool avg_steps 3000 then "sedentary"
  else if Qle_bool 3000 avg_steps && Qle_bool avg_steps 7000 then "low"
  else if Qlt_bool 7000 avg_steps && Qle_bool avg_steps 12000 then "moderate"
  else "high".

Definition _sleep_status_classification (avg_sleep : Q) : string :=
  if Qlt_bool avg_sleep 6 then "insufficient"
  else if Qle_bool 6 avg_sleep && Qle_bool avg_sleep 7 then "borderline"
  else if Qlt_bool 7 avg_sleep && Qle_bool avg_sleep 9 then "adequate"
  else "excessive".

Definition _heart_rate_status_classification (avg_hr : Q) : string :=
  if Qlt_bool avg_hr 60 then "low"
  else if Qle_bool 60 avg_hr && Qle_bool avg_hr 80 then "normal"
  else if Qlt_bool 80 avg_hr && Qle_bool avg_hr 100 then "elevated"
  else "high".

Definition _analyze_glucose_trends (data : list BiometricData) : metric_trends :=
  let glucose_values := present glucose_mg_dl data in
  match glucose_values with
  | [] => no_data "no_data"
  | _ =>
      let avg_glucose := mean glucose_values in
      let max_glucose := np_max glucose_values in
      let trend_direction := _calculate_trend_direction glucose_values in
      let high := Qlt_bool glucose_high max_glucose in
      let alerts1 := if high then [AlertHighGlucose max_glucose] else [] in
      let adaptations1 := if high then [HIGH_GLUCOSE] else [] in
      let alerts2 :=
        if Qlt_bool avg_glucose glucose_low
        then alerts1 ++ [AlertLowGlucose avg_glucose] else alerts1 in
      {| numbers := <["average" := avg_glucose]> (<["maximum" := max_glucose]> ∅);
         trend := Some trend_direction;
         status := Some (_glucose_status_classification avg_glucose);
         alerts := alerts2;
         adaptations := adaptations1 |}
  end.

Definition _analyze_activity_trends (data : list BiometricData) : metric_trends :=
  let step_values := map inject_Z (present steps data) in
  match step_values with
  | [] => no_data "no_data"
  | _ =>
      let avg_steps := mean step_values in
      let min_steps := np_min step_values in
      (* consistency = 1 - std / max(avg_steps, 1);
         consistency < 0.5  iff  var > (0.5 * max(avg_steps, 1))^2 *)
      let bound := 0.5 * Py.max avg_steps 1 in
      let inconsistent := Qlt_bool (bound * bound) (var step_values) in
      let low := Qlt_bool avg_steps steps_low in
      let alerts1 := if low then [AlertLowActivity avg_steps] else [] in
      let adaptations1 := if low then [LOW_ACTIVITY] else [] in
      let alerts2 :=
        if inconsistent then alerts1 ++ [AlertInconsistentActivity] else alerts1 in
      {| numbers := <["average_steps" := avg_steps]> (<["minimum_steps" := min_steps]> ∅);
         trend := None;
         status := Some (_activity_status_classification avg_steps);
         alerts := alerts2;
         adaptations := adaptations1 |}
  end.

Definition _analyze_sleep_trends (data : list BiometricData) : metric_trends :=
  let sleep_values := present sleep_hours data in
  match sleep_values with
  | [] => no_data "no_data"
  | _ =>
      let avg_sleep := mean sleep_values in
      let min_sleep := np_min sleep_values in
      let sleep_debt := Py.max 0 (7.5 - avg_sleep) * len sleep_values in
      let poor := Qlt_bool avg_sleep sleep_poor in
      let alerts1 := if poor then [AlertInsufficientSleep avg_sleep] else [] in
      let adaptations1 := if poor then [POOR_SLEEP] else [] in
      let alerts2 :=
        if Qlt_bool 5 sleep_debt then alerts1 ++ [AlertSleepDebt sleep_debt] else alerts1 in
      {| numbers :=
           <["average_hours" := avg_sleep]>
             (<["minimum_hours" := min_sleep]> (<["sleep_debt" := sleep_debt]> ∅));
         trend := None;
         status := Some (_sleep_status_classification avg_sleep);
         alerts := alerts2;
         adaptations := adaptations1 |}
  end.

Definition _analyze_heart_rate_trends (data : list BiometricData) : metric_trends :=
  let hr_values := map inject_Z (present heart_rate data) in
  match hr_values with
  | [] => no_data "no_data"
  | _ =>
      let avg_hr := mean hr_values in
      (* hr_variability = std; std > 20  iff  var > 20^2 *)
      let variable := Qlt_bool (20 * 20) (var hr_values) in
      let trend_direction := _calculate_trend_direction hr_values in
      let high := Qlt_bool heart_rate_high avg_hr in
      let alerts1 := if high then [AlertElevatedHeartRate avg_hr] else [] in
      let adaptations1 := if high then [HIGH_STRESS] else [] in
      let alerts2 := if variable then alerts1 ++ [AlertHeartRateVariability] else alerts1 in
      let adaptations2 := if variable then adaptations1 ++ [HIGH_STRESS] else adaptations1 in
      {| numbers := <["average_bpm" := avg_hr]> ∅;
         trend := Some trend_direction;
         status := Some (_heart_rate_status_classification avg_hr);
         alerts := alerts2;
         adaptations := adaptations2 |}
  end.

Definition _analyze_weight_trends (data : list BiometricData) : metric_trends :=
  let weight_values := present weight_kg data in
  if (length weight_values <? 2)%nat then no_data "insufficient_data"
  else
    let weight_change := default 0 (last weight_values) - default 0 (head weight_values) in
    let trend_direction := _calculate_trend_direction weight_values in
    let significant := Qlt_bool weight_change_significant (Py.abs weight_change) in
    let direction := if Qlt_bool 0 weight_change then "gained" else "lost" in
    {| numbers :=
         <["total_change_kg" := weight_change]>
           (<["rate_per_day" := weight_change / Py.max (len weight_values) 1]> ∅);
       trend := Some trend_direction;
       status := None;
       alerts :=
         if significant then [AlertWeightChange direction (Py.abs weight_change)] else [];
       adaptations := if significant then [WEIGHT_CHANGE] else [] |}.

Definition empty_analysis : analysis :=
  {| trends := ∅; all_alerts := []; adaptations_needed := [];
     analysis_period := None; data_points := None |}.

Definition microseconds_per_day : Z := 86400000000.

(** One metric of [analyze_biometric_trends]: record its trends, and take
    its alerts and tags when it raised an alert. *)
Definition record_metric (key : string) (t : metric_trends)
    (acc : gmap string metric_trends * list alert * list AdaptationReason)
    : gmap string metric_trends * list alert * list AdaptationReason :=
  let '(trs, als, ads) := acc in
  match alerts t with
  | [] => (<[key := t]> trs, als, ads)
  | _ => (<[key := t]> trs, als ++ alerts t, ads ++ adaptations t)
  end.

(** The samples of the last [days_back] days, oldest first:
    [sorted_data] filtered to [recent_data]. *)
Definition recent_data (now : Z) (biometric_data : list BiometricData)
    (days_back : Z) : list BiometricData :=
  let sorted_data := sorted Z.ltb timestamp false biometric_data in
  let cutoff_date := (now - days_back * microseconds_per_day)%Z in
  filter (fun d => (cutoff_date <= timestamp d)%Z) sorted_data.

(** The five analyses of [analyze_biometric_trends], in order. *)
Definition analyze_recent (recent : list BiometricData)
    : gmap string metric_trends * list alert * list AdaptationReason :=
  let acc0 := (∅, [], []) in
  let acc1 := record_metric "glucose" (_analyze_glucose_trends recent) acc0 in
  let acc2 := record_metric "activity" (_analyze_activity_trends recent) acc1 in
  let acc3 := record_metric "sleep" (_analyze_sleep_trends recent) acc2 in
  let acc4 := record_metric "heart_rate" (_analyze_heart_rate_trends recent) acc3 in
  record_metric "weight" (_analyze_weight_trends recent) acc4.

Definition analyze_biometric_trends (now : Z) (biometric_data : list BiometricData)
    (days_back : Z) : analysis :=
  match biometric_data with
  | [] => empty_analysis
  | _ =>
      match recent_data now biometric_data days_back with
      | [] => empty_analysis
      | recent =>
          let '(trs, als, ads) := analyze_recent recent in
          {| trends := trs; all_alerts := als; adaptations_needed := ads;
             analysis_period := Some days_back;
             data_points := Some (length recent) |}
      end
  end.

End BiometricAnalyzer.

(** ** [adaptation.py]: the meal adaptation engine *)

(** The explanation texts, with the quantities their f-strings interpolate;
    [ExplEmpty] is the empty string. *)
Inductive explanation : Type :=
| ExplHighGlucose (reduction_factor max_glucose : Q)
| ExplLowActivity (avg_steps : Q)
| ExplPoorSleep (avg_sleep : Q)
| ExplHighStress (avg_hr : Q)
| ExplWeightGain (weight_change : Q)
| ExplWeightLoss (abs_change : Q)
| ExplEmpty.

(** Truth value of an explanation string. *)
Definition truthy (e : explanation) : bool :=
  match e with
  | ExplEmpty => false
  | _ => true
  end.

Module MealAdaptationEngine.

(** [analysis['trends'][key]] *)
Definition trends_getitem (a : analysis) (key : string) : M metric_trends :=
  lift_result (match trends a !! key with Some t => Ok t | None => Raise KeyError end).

(** [info[key]] for a numeric entry of a trend dictionary *)
Definition info_getitem (info : metric_trends) (key : string) : M Q :=
  lift_result (match numbers info !! key with Some q => Ok q | None => Raise KeyError end).

Definition nutrients : list string := ["calories"; "protein"; "carbs"; "fat"].

(** [for nutrient in ['calories', 'protein', 'carbs', 'fat']:
       if nutrient in meal: meal[nutrient] *= factor] *)
Definition scale_nutrients (factor : Q) : D unit :=
  for_in nutrients (imul_if_present factor).

(** Loop body of [_adapt_for_high_glucose]. *)
Definition high_glucose_body (reduction_factor : Q) : D unit :=
  has_carbs ← contains_key "carbs";
  if has_carbs : bool then
    original_carbs ← getitem "carbs";
    imul "carbs" reduction_factor;;
    imul_if_present 1.1 "protein";;
    p ← get "protein" (VNum 0);
    p4 ← lift (mul_int p 4);
    c ← getitem "carbs";
    c4 ← lift (mul_int c 4);
    pc ← lift (add p4 c4);
    f ← get "fat" (VNum 0);
    f9 ← lift (mul_int f 9);
    total ← lift (add pc f9);
    setitem "calories" total
  else mret tt.

Definition _adapt_for_high_glucose (meals : list loc) (a : analysis)
    (profile : UserProfile) : M (list loc * explanation) :=
  glucose_info ← trends_getitem a "glucose";
  maximum ← info_getitem glucose_info "maximum";
  let reduction_factor := if Qlt_bool 160 maximum then 0.7 else 0.8 in
  for_each meals (fun meal => at_loc meal (high_glucose_body reduction_factor));;
  max_glucose ← info_getitem glucose_info "maximum";
  mret (meals, ExplHighGlucose reduction_factor max_glucose).

Definition _adapt_for_low_activity (meals : list loc) (a : analysis)
    (profile : UserProfile) : M (list loc * explanation) :=
  activity_info ← trends_getitem a "activity";
  let reduction_factor := 0.85 in
  for_each meals (fun meal => at_loc meal (scale_nutrients reduction_factor));;
  avg_steps ← info_getitem activity_info "average_steps";
  mret (meals, ExplLowActivity avg_steps).

(** Loop body of [_adapt_for_poor_sleep]. *)
Definition poor_sleep_body : D unit :=
  imul_if_present 1.15 "protein";;
  imul_if_present 0.95 "carbs";;
  p ← get "protein" (VNum 0);
  p4 ← lift (mul_int p 4);
  c ← get "carbs" (VNum 0);
  c4 ← lift (mul_int c 4);
  pc ← lift (add p4 c4);
  f ← get "fat" (VNum 0);
  f9 ← lift (mul_int f 9);
  total ← lift (add pc f9);
  setitem "calories" total.

Definition _adapt_for_poor_sleep (meals : list loc) (a : analysis)
    (profile : UserProfile) : M (list loc * explanation) :=
  sleep_info ← trends_getitem a "sleep";
  for_each meals (fun meal => at_loc meal poor_sleep_body);;
  avg_sleep ← info_getitem sleep_info "average_hours";
  mret (meals, ExplPoorSleep avg_sleep).

Definition _adapt_for_high_stress (meals : list loc) (a : analysis)
    (profile : UserProfile) : M (list loc * explanation) :=
  hr_info ← trends_getitem a "heart_rate";
  for_each meals (fun meal => at_loc meal (scale_nutrients 0.95));;
  avg_hr ← info_getitem hr_info "average_bpm";
  mret (meals, ExplHighStress avg_hr).

(** Loop body of the weight-loss branch of [_adapt_for_weight_change]. *)
Definition weight_loss_body : D unit :=
  imul "protein" 1.1;;
  imul "calories" 1.05;;
  imul "carbs" 1.02;;
  imul "fat" 1.02.

Definition _adapt_for_weight_change (meals : list loc) (a : analysis)
    (profile : UserProfile) : M (list loc * explanation) :=
  weight_info ← trends_getitem a "weight";
  weight_change ← info_getitem weight_info "total_change_kg";
  if Qlt_bool 1 weight_change then
    let reduction_factor := 0.9 in
    for_each meals (fun meal => at_loc meal (scale_nutrients reduction_factor));;
    mret (meals, ExplWeightGain weight_change)
  else if Qlt_bool weight_change (-1) then
    for_each meals (fun meal => at_loc meal weight_loss_body);;
    mret (meals, ExplWeightLoss (Py.abs weight_change))
  else mret (meals, ExplEmpty).

Definition strategy : Type :=
  list loc -> analysis -> UserProfile -> M (list loc * explanation).

(** [self.adaptation_strategies]: the reserved tags have no entry. *)
Definition adaptation_strategies (reason : AdaptationReason) : option strategy :=
  match reason with
  | HIGH_GLUCOSE => Some _adapt_for_high_glucose
  | LOW_ACTIVITY => Some _adapt_for_low_activity
  | POOR_SLEEP => Some _adapt_for_poor_sleep
  | HIGH_STRESS => Some _adapt_for_high_stress
  | WEIGHT_CHANGE => Some _adapt_for_weight_change
  | ILLNESS_RECOVERY | EXERCISE_SESSION | MEAL_TIMING => None
  end.

(** The loop [for adaptation_reason in analysis['adaptations_needed']]. *)
Fixpoint apply_adaptations (reasons : list AdaptationReason) (a : analysis)
    (profile : UserProfile) (adapted_meals : list loc)
    (adaptations_made : list explanation) : M (list loc * list explanation) :=
  match reasons with
  | [] => mret (adapted_meals, adaptations_made)
  | adaptation_reason :: rest =>
      match adaptation_strategies adaptation_reason with
      | Some strat =>
          res ← strat adapted_meals a profile;
          let '(adapted_meals', expl) := res in
          apply_adaptations rest a profile adapted_meals'
            (if truthy expl then adaptations_made ++ [expl] else adaptations_made)
      | None => apply_adaptations rest a profile adapted_meals adaptations_made
      end
  end.

Definition adapt_meal_plan (now : Z) (meals : list loc) (profile : UserProfile)
    (biometric_data : list BiometricData) : M (list loc * list explanation) :=
  let a := BiometricAnalyzer.analyze_biometric_trends now biometric_data 7 in
  match adaptations_needed a with
  | [] => mret (meals, [])
  | _ =>
      adapted_meals ← list_comp copy meals;
      apply_adaptations (adaptations_needed a) a profile adapted_meals []
  end.

End MealAdaptationEngine.

(** ** [metabolism.py] *)

Inductive BMRFormula : Set :=
| MIFFLIN_ST_JEOR
| HARRIS_BENEDICT
| KATCH_MCARDLE
| CUNNINGHAM.

(** The dictionary of adaptive factors, in insertion order. *)
Record adaptive_factors : Type := {
  sleep_quality : Q;
  stress_level : Q;
  glucose_regulation : Q;
  activity_consistency : Q;
  recovery_status : Q
}.

(** [list(adaptive_factors.values())] *)
Definition factor_values (f : adaptive_factors) : list Q :=
  [sleep_quality f; stress_level f; glucose_regulation f;
   activity_consistency f; recovery_status f].

(** The dictionary returned by [calculate_tdee]; [tdee_adaptive_factors] is
    its ['adaptive_factors'] entry, and ['adaptive_multiplier'] is present on
    the adaptive path only. *)
Record tdee_data : Type := {
  bmr : Q;
  base_tdee : Q;
  adaptive_tdee : Q;
  tdee_adaptive_factors : adaptive_factors;
  adaptive_multiplier : option Q
}.

(** The dictionary returned by [calculate_calorie_needs_by_goal]. *)
Record calorie_needs : Type := {
  maintenance : Q;
  weight_loss : Q;
  weight_gain : Q;
  min_safe_calories : Q;
  max_safe_calories : Q;
  tdee_breakdown : tdee_data
}.

Module MetabolismCalculator.

(** [self.adaptive_factors] *)
Definition default_adaptive_factors : adaptive_factors :=
  {| sleep_quality := 1.0; stress_level := 1.0; glucose_regulation := 1.0;
     activity_consistency := 1.0; recovery_status := 1.0 |}.

Definition is_male (profile : UserProfile) : bool :=
  str_eqb (lower (sex profile)) "male".

Definition _mifflin_st_jeor (profile : UserProfile) : Q :=
  if is_male profile
  then 10 * profile_weight_kg profile + 6.25 * height_cm profile
       - 5 * inject_Z (age profile) + 5
  else 10 * profile_weight_kg profile + 6.25 * height_cm profile
       - 5 * inject_Z (age profile) - 161.

Definition _harris_benedict (profile : UserProfile) : Q :=
  if is_male profile
  then 88.362 + (13.397 * profile_weight_kg profile) + (4.799 * height_cm profile)
       - (5.677 * inject_Z (age profile))
  else 447.593 + (9.247 * profile_weight_kg profile) + (3.098 * height_cm profile)
       - (4.330 * inject_Z (age profile)).

Definition _katch_mcardle (profile : UserProfile) (body_fat_percentage : Q) : Q :=
  let lean_mass_kg := profile_weight_kg profile * (1 - body_fat_percentage / 100) in
  370 + (21.6 * lean_mass_kg).

Definition _cunningham (profile : UserProfile) (body_fat_percentage : Q) : Q :=
  let lean_mass_kg := profile_weight_kg profile * (1 - body_fat_percentage / 100) in
  500 + (22 * lean_mass_kg).

Definition calculate_bmr (profile : UserProfile) (formula : BMRFormula)
    (body_fat_percentage : option Q) : Q :=
  match formula with
  | MIFFLIN_ST_JEOR => _mifflin_st_jeor profile
  | HARRIS_BENEDICT => _harris_benedict profile
  | KATCH_MCARDLE =>
      match body_fat_percentage with
      | None => _mifflin_st_jeor profile
      | Some bf => _katch_mcardle profile bf
      end
  | CUNNINGHAM =>
      match body_fat_percentage with
      | None => _mifflin_st_jeor profile
      | Some bf => _cunningham profile bf
      end
  end.

(** [sorted(recent_biometrics, key=lambda x: x.timestamp, reverse=True)] *)
Definition most_recent_first (recent_biometrics : list BiometricData) : list BiometricData :=
  sorted Z.ltb timestamp true recent_biometrics.

Definition _estimate_body_fat_percentage (profile : UserProfile)
    (recent_biometrics : option (list BiometricData)) : result Q :=
  match omap body_fat_percentage (most_recent_first (default [] recent_biometrics)) with
  | bf :: _ => Ok bf
  | [] =>
      let h := height_cm profile / 100 in
      bmi ← div (profile_weight_kg profile) (h * h);
      let body_fat :=
        if is_male profile
        then (1.20 * bmi) + (0.23 * inject_Z (age profile)) - 16.2
        else (1.20 * bmi) + (0.23 * inject_Z (age profile)) - 5.4 in
      Ok (Py.max 5 (Py.min body_fat 50))
  end.

Definition _calculate_sleep_factor (biometrics : list BiometricData) : Q :=
  let sleep := omap sleep_hours (last_n 7 biometrics) in
  match sleep with
  | [] => 1.0
  | _ =>
      let avg_sleep := mean sleep in
      if Qle_bool 7 avg_sleep && Qle_bool avg_sleep 9 then 1.0
      else if Qlt_bool avg_sleep 6 then 0.95 - (6 - avg_sleep) * 0.02
      else if Qlt_bool 10 avg_sleep then 0.98
      else 1.0
  end.

Definition _calculate_glucose_factor (biometrics : list BiometricData) : Q :=
  let glucose_readings := omap glucose_mg_dl (last_n 5 biometrics) in
  match glucose_readings with
  | [] => 1.0
  | _ =>
      let avg_glucose := mean glucose_readings in
      if Qlt_bool 140 avg_glucose then 0.92
      else if Qlt_bool 120 avg_glucose then 0.96
      else if Qle_bool 70 avg_glucose && Qle_bool avg_glucose 100 then 1.02
      else 1.0
  end.

(** [np.std(l) / avg < bound if avg > 0 else 0 < bound], for [0 <= bound]. *)
Definition variability_below (l : list Q) (avg bound : Q) : bool :=
  if Qlt_bool 0 avg
  then Qlt_bool (var l) ((bound * avg) * (bound * avg))
  else Qlt_bool 0 bound.

Definition _calculate_activity_factor (biometrics : list BiometricData) : Q :=
  let step_list := map inject_Z (omap steps (last_n 7 biometrics)) in
  if (length step_list <? 3)%nat then 1.0
  else
    let avg_steps := mean step_list in
    if Qlt_bool 10000 avg_steps && variability_below step_list avg_steps 0.3 then 1.05
    else if Qlt_bool 8000 avg_steps && variability_below step_list avg_steps 0.4 then 1.02
    else if Qlt_bool avg_steps 3000 then 0.95
    else 1.0.

Definition _calculate_stress_factor (biometrics : list BiometricData) : Q :=
  let hr_readings := map inject_Z (omap heart_rate (last_n 5 biometrics)) in
  if (length hr_readings <? 3)%nat then 1.0
  else
    let avg_hr := mean hr_readings in
    let variance := var hr_readings in
    (* std > 15 iff var > 15^2; std < 10 iff var < 10^2 *)
    if Qlt_bool 80 avg_hr || Qlt_bool (15 * 15) variance then 0.96
    else if Qle_bool 60 avg_hr && Qle_bool avg_hr 70 && Qlt_bool variance (10 * 10) then 1.02
    else 1.0.

(** Score and indicator count of one sample in [_calculate_recovery_factor]. *)
Definition recovery_score (bio : BiometricData) : Z * Z :=
  let '(s1, i1) :=
    match sleep_hours bio with
    | Some sl => (if Qle_bool 7 sl && Qle_bool sl 9 then 1 else 0, 1)%Z
    | None => (0, 0)%Z
    end in
  let '(s2, i2) :=
    match heart_rate bio with
    | Some hr => (if (60 <=? hr)%Z && (hr <=? 75)%Z then s1 + 1 else s1, i1 + 1)%Z
    | None => (s1, i1)
    end in
  match steps bio with
  | Some st => (if (5000 <=? st)%Z then s2 + 1 else s2, i2 + 1)%Z
  | None => (s2, i2)
  end.

Definition _calculate_recovery_factor (biometrics : list BiometricData) : Q :=
  let recent := if (3 <=? length biometrics)%nat then first_n 3 biometrics else biometrics in
  let recovery_indicators :=
    omap (fun bio =>
            let '(score, indicators) := recovery_score bio in
            if (0 <? indicators)%Z
            then Some (inject_Z score / inject_Z indicators) else None) recent in
  match recovery_indicators with
  | [] => 1.0
  | _ =>
      let avg_recovery := mean recovery_indicators in
      if Qlt_bool 0.8 avg_recovery then 1.03
      else if Qlt_bool 0.6 avg_recovery then 1.01
      else if Qlt_bool avg_recovery 0.3 then 0.94
      else 1.0
  end.

Definition _calculate_adaptive_factors (profile : UserProfile)
    (recent_biometrics : list BiometricData) : adaptive_factors :=
  match recent_biometrics with
  | [] => default_adaptive_factors
  | _ =>
      let sorted_biometrics := most_recent_first recent_biometrics in
      {| sleep_quality := _calculate_sleep_factor sorted_biometrics;
         stress_level := _calculate_stress_factor sorted_biometrics;
         glucose_regulation := _calculate_glucose_factor sorted_biometrics;
         activity_consistency := _calculate_activity_factor sorted_biometrics;
         recovery_status := _calculate_recovery_factor sorted_biometrics |}
  end.

Definition calculate_tdee (profile : UserProfile)
    (recent_biometrics : option (list BiometricData)) (adaptive : bool)
    : result tdee_data :=
  body_fat ← _estimate_body_fat_percentage profile recent_biometrics;
  let bmr := calculate_bmr profile MIFFLIN_ST_JEOR (Some body_fat) in
  let base_tdee := bmr * activity_value (activity_level profile) in
  match adaptive, default [] recent_biometrics with
  | true, (_ :: _) as biometrics =>
      let factors := _calculate_adaptive_factors profile biometrics in
      let multiplier := prod (factor_values factors) in
      Ok {| bmr := bmr; base_tdee := base_tdee;
            adaptive_tdee := base_tdee * multiplier;
            tdee_adaptive_factors := factors;
            adaptive_multiplier := Some multiplier |}
  | _, _ =>
      Ok {| bmr := bmr; base_tdee := base_tdee; adaptive_tdee := base_tdee;
            tdee_adaptive_factors := default_adaptive_factors;
            adaptive_multiplier := None |}
  end.

Definition calculate_calorie_needs_by_goal (profile : UserProfile) (goal : string)
    (rate_kg_per_week : Q) : result calorie_needs :=
  tdee ← calculate_tdee profile None true;
  let base_calories := adaptive_tdee tdee in
  let calories_per_kg := 7700 in
  let daily_calorie_adjustment := (rate_kg_per_week * calories_per_kg) / 7 in
  let maintain := base_calories in
  let lose := base_calories - Py.abs daily_calorie_adjustment in
  let gain := base_calories + Py.abs daily_calorie_adjustment in
  let min_calories := Py.max (UserProfileMethods.calculate_bmr profile * 1.1) 1200 in
  let max_calories := base_calories * 1.5 in
  let clamp g := Py.max min_calories (Py.min g max_calories) in
  Ok {| maintenance := clamp maintain;
        weight_loss := clamp lose;
        weight_gain := clamp gain;
        min_safe_calories := min_calories;
        max_safe_calories := max_calories;
        tdee_breakdown := tdee |}.

End MetabolismCalculator.

(** ** [models.py]: food admissibility *)

(** A value used as a number ([TypeError] otherwise) or through [.lower()]
    ([AttributeError] otherwise). *)
Definition as_num (v : value) : result Q :=
  match v with
  | VNum q => Ok q
  | _ => Raise TypeError
  end.

Definition str_lower (v : value) : result string :=
  match v with
  | VStr s => Ok (lower s)
  | _ => Raise AttributeError
  end.

(** [x in v] *)
Definition value_contains (v : value) (x : string) : result bool :=
  match v with
  | VList l => Ok (bool_decide (x ∈ l))
  | VStr s => Ok (contains s x)
  | VNum _ => Raise TypeError
  end.

(** [any(keyword in s for keyword in keywords)] *)
Definition any_in (keywords : list string) (s : string) : bool :=
  existsb (contains s) keywords.

Module FoodRules.

Definition _check_dietary_restriction (self : UserProfile) (food_data : dict)
    (restriction : DietaryRestriction) : result bool :=
  food_name ← str_lower (default (VStr "") (food_data !! "name"));
  category ← str_lower (default (VStr "") (food_data !! "category"));
  match restriction with
  | VEGETARIAN =>
      Ok (negb (any_in ["chicken"; "beef"; "pork"; "turkey"; "fish"; "salmon";
                        "tuna"; "meat"] food_name))
  | VEGAN =>
      Ok (negb (any_in ["chicken"; "beef"; "pork"; "turkey"; "fish"; "salmon";
                        "tuna"; "meat"; "milk"; "cheese"; "yogurt"; "egg";
                        "butter"; "honey"] food_name))
  | GLUTEN_FREE =>
      Ok (negb (any_in ["wheat"; "bread"; "pasta"; "oat"; "barley"; "rye"] food_name))
  | DAIRY_FREE =>
      Ok (negb (any_in ["milk"; "cheese"; "yogurt"; "butter"; "cream"] food_name))
  | KETO =>
      carbs ← as_num (default (VNum 0) (food_data !! "carbs_g"));
      Ok (Qlt_bool carbs 5)
  | LOW_CARB =>
      carbs ← as_num (default (VNum 0) (food_data !! "carbs_g"));
      Ok (Qlt_bool carbs 15)
  | PESCATARIAN | PALEO | LOW_FAT => Ok true
  end.

(** A loop that returns [False] at the first element for which [hit]
    holds, and otherwise goes on with [rest]. *)
Fixpoint unless_any {A} (hit : A -> result bool) (l : list A)
    (rest : result bool) : result bool :=
  match l with
  | [] => rest
  | x :: l' =>
      b ← hit x;
      if b : bool then Ok false else unless_any hit l' rest
  end.

Definition is_food_allowed (self : UserProfile) (food_data : dict) : result bool :=
  food_name ← str_lower (default (VStr "") (food_data !! "name"));
  let allergens := default (VList []) (food_data !! "allergens") in
  let prefs := dietary_preferences self in
  unless_any
    (fun allergy =>
       in_allergens ← value_contains allergens (lower allergy);
       if in_allergens : bool then Ok true else Ok (contains food_name (lower allergy)))
    (allergies prefs)
    (unless_any
       (fun dislike => Ok (contains food_name (lower dislike)))
       (dislikes prefs)
       (unless_any
          (fun restriction =>
             ok ← _check_dietary_restriction self food_data restriction;
             Ok (negb ok))
          (dietary_restrictions prefs)
          (Ok true))).

End FoodRules.

(** ** [ml_models.py]: the meal optimizer *)

Record nutrition_totals : Type := {
  total_calories : Q;
  total_protein : Q;
  total_carbs : Q;
  total_fat : Q
}.

(** The dictionary returned by [optimize_meal_plan]. *)
Inductive optimize_result : Type :=
| OptFailure (error : string)
| OptSuccess (meals : list dict) (total_nutrition : nutrition_totals) (total_cost : Q).

(** [result['success']] *)
Definition success (r : optimize_result) : bool :=
  match r with
  | OptFailure _ => false
  | OptSuccess _ _ _ => true
  end.

Module MealOptimizer.

(** The satisfaction predictor: untrained ([None]), or the fitted
    regressor together with its feature extraction. *)
Definition predictor : Type := option (UserProfile -> dict -> result Q).

Definition predict_satisfaction (self : predictor) (profile : UserProfile)
    (food_data : dict) : result Q :=
  match self with
  | None => Ok 3.0
  | Some model =>
      prediction ← model profile food_data;
      Ok (Py.max 1.0 (Py.min 5.0 prediction))
  end.

Definition get_num (food : dict) (key : string) (dflt : Q) : result Q :=
  as_num (default (VNum dflt) (food !! key)).

Definition _calculate_nutrition_density (food : dict) : result Q :=
  c ← get_num food "calories_per_100g" 1;
  let calories := Py.max c 1 in
  protein ← get_num food "protein_g" 0;
  fiber ← get_num food "fiber_g" 0;
  let density_score := (protein * 4 + fiber * 2) / calories in
  Ok (Py.min density_score 2.0).

Definition _calculate_meal_type_fit (food : dict) (meal_type : string) : result Q :=
  category ← str_lower (default (VStr "") (food !! "category"));
  name ← str_lower (default (VStr "") (food !! "name"));
  let category_in l := bool_decide (category ∈ (l : list string)) in
  if str_eqb meal_type "breakfast" then
    if any_in ["oat"; "egg"; "yogurt"; "milk"] name then Ok 1.0
    else if category_in ["dairy"; "fruit"] then Ok 0.8
    else Ok 0.5
  else if str_eqb meal_type "lunch" then
    if category_in ["protein"; "carbohydrate"; "vegetable"] then Ok 1.0
    else Ok 0.7
  else if str_eqb meal_type "dinner" then
    if category_in ["protein"; "vegetable"] then Ok 1.0
    else if category_in ["carbohydrate"] then Ok 0.8
    else Ok 0.6
  else Ok 0.5.

(** [[f(x) for x in l]] for a function that may raise *)
Fixpoint try_map {A B} (f : A -> result B) (l : list A) : result (list B) :=
  match l with
  | [] => Ok []
  | x :: l' => y ← f x; ys ← try_map f l'; Ok (y :: ys)
  end.

(** [[x for x in l if f(x)]] for a test that may raise *)
Fixpoint try_filter {A} (f : A -> result bool) (l : list A) : result (list A) :=
  match l with
  | [] => Ok []
  | x :: l' => b ← f x; xs ← try_filter f l'; Ok (if b : bool then x :: xs else xs)
  end.

Definition score_food (self : predictor) (profile : UserProfile) (meal_type : string)
    (food : dict) : result (dict * Q) :=
  satisfaction_score ← predict_satisfaction self profile food;
  nutrition_density ← _calculate_nutrition_density food;
  cost ← get_num food "cost_per_100g" 1;
  let cost_efficiency := 1.0 / Py.max cost 0.1 in
  meal_fit ← _calculate_meal_type_fit food meal_type;
  let combined_score :=
    satisfaction_score * 0.4 + nutrition_density * 0.3
    + cost_efficiency * 0.2 + meal_fit * 0.1 in
  Ok (food, combined_score).

(** One iteration of the loop over [meal_types]: the meal and its cost. *)
Definition plan_meal (self : predictor) (profile : UserProfile) (allowed_foods : list dict)
    (total_target_calories : Q) (meal_type : string) : result (dict * Q) :=
  let meal_target_calories :=
    total_target_calories * default 0.33 (Config.MEAL_CALORIE_DISTRIBUTION !! meal_type) in
  food_scores ← try_map (score_food self profile meal_type) allowed_foods;
  match sorted Qlt_bool snd true food_scores with
  | [] => Raise IndexError
  | (selected_food, _) :: _ =>
      c100 ← get_num selected_food "calories_per_100g" 100;
      let portion_size := Py.min (meal_target_calories / Py.max c100 1 * 100) 400 in
      c0 ← get_num selected_food "calories_per_100g" 0;
      let actual_calories := c0 * portion_size / 100 in
      food_name ← match selected_food !! "name" with
               | Some (VStr s) => Ok s
               | Some _ => Raise AttributeError
               | None => Raise KeyError
               end;
      protein ← get_num selected_food "protein_g" 0;
      carbs ← get_num selected_food "carbs_g" 0;
      fat ← get_num selected_food "fat_g" 0;
      let meal : dict :=
        <["meal_type" := VStr meal_type]>
          (<["items" := VList [food_name]]>
             (<["calories" := VNum actual_calories]>
                (<["protein" := VNum (protein * portion_size / 100)]>
                   (<["carbs" := VNum (carbs * portion_size / 100)]>
                      (<["fat" := VNum (fat * portion_size / 100)]> ∅))))) in
      cost ← get_num selected_food "cost_per_100g" 1;
      Ok (meal, cost * portion_size / 100)
  end.

Definition meal_num (meal : dict) (key : string) : Q :=
  match meal !! key with
  | Some (VNum q) => q
  | _ => 0
  end.

Definition optimize_meal_plan (self : predictor) (profile : UserProfile)
    (available_foods : list dict) (target_calories : gmap string Q)
    (meal_types : option (list string)) : result optimize_result :=
  let meal_types := default ["breakfast"; "lunch"; "dinner"] meal_types in
  allowed_foods ← try_filter (FoodRules.is_food_allowed profile) available_foods;
  match allowed_foods with
  | [] => Ok (OptFailure "No allowed foods available")
  | _ =>
      let total_target_calories :=
        default (UserProfileMethods.calculate_tdee profile) (target_calories !! "calories") in
      planned ← try_map (plan_meal self profile allowed_foods total_target_calories) meal_types;
      let optimized_meals := map fst planned in
      let total_cost := foldl (fun acc p => acc + snd p) 0 planned in
      let total_nutrition :=
        foldl (fun t meal =>
                 {| total_calories := total_calories t + meal_num meal "calories";
                    total_protein := total_protein t + meal_num meal "protein";
                    total_carbs := total_carbs t + meal_num meal "carbs";
                    total_fat := total_fat t + meal_num meal "fat" |})
              {| total_calories := 0; total_protein := 0; total_carbs := 0; total_fat := 0 |}
              optimized_meals in
      Ok (OptSuccess optimized_meals total_nutrition total_cost)
  end.

End MealOptimizer.


(** ** [metabolism.py]: metabolic insights *)

(** The dictionary returned by [get_metabolic_insights]; its
    ['health_indicators'] entry holds the multiplier and the five factors. *)
Record metabolic_insights : Type := {
  metabolic_rate : string;
  recommendations : list string;
  adaptations_active : list string;
  metabolic_flexibility : Q;
  indicator_factors : adaptive_factors
}.

Module MetabolicInsights.
Import MetabolismCalculator.

(** The four checks on the adaptive factors: each one that fires appends
    one recommendation and one active adaptation. *)
Definition factor_notes (factors : adaptive_factors) : list (string * string) :=
  (if Qlt_bool (sleep_quality factors) 0.95
   then [("Improve sleep quality and duration", "Sleep-adjusted metabolism")]
   else [])
  ++ (if Qlt_bool (glucose_regulation factors) 0.95
      then [("Focus on blood sugar stability", "Glucose-regulated adjustments")]
      else [])
  ++ (if Qlt_bool (activity_consistency factors) 0.98
      then [("Maintain consistent daily activity", "Activity-based adjustments")]
      else [])
  ++ (if Qlt_bool (stress_level factors) 0.98
      then [("Implement stress management techniques", "Stress-response adjustments")]
      else []).

Definition get_metabolic_insights (profile : UserProfile)
    (recent_biometrics : option (list BiometricData)) : result metabolic_insights :=
  tdee ← calculate_tdee profile recent_biometrics true;
  calorie_needs ← calculate_calorie_needs_by_goal profile "maintain" 0.5;
  let factors := tdee_adaptive_factors tdee in
  let notes := factor_notes factors in
  multiplier ← match adaptive_multiplier tdee with
               | Some m => Ok m
               | None => Raise KeyError
               end;
  let rate :=
    if Qlt_bool 1.05 multiplier then "high"
    else if Qlt_bool multiplier 0.95 then "low"
    else "normal" in
  Ok {| metabolic_rate := rate;
        recommendations := map fst notes;
        adaptations_active := map snd notes;
        metabolic_flexibility := multiplier;
        indicator_factors := factors |}.

End MetabolicInsights.

(** ** [models.py]: the histories and preferences of a profile *)

Module ProfileHistory.

(** [max(l, key=key)]: the first element with the largest key;
    [None] stands for the [ValueError] of an empty sequence. *)
Definition max_by {A} (key : A -> Z) (l : list A) : option A :=
  match l with
  | [] => None
  | x :: l' => Some (foldl (fun best y => if (key best <? key y)%Z then y else best) x l')
  end.

(** [UserProfile.get_latest_biometrics] on the profile's [biometric_data] *)
Definition get_latest_biometrics (biometric_data : list BiometricData)
    : option BiometricData :=
  match biometric_data with
  | [] => None
  | _ => max_by timestamp biometric_data
  end.

(** [UserProfile.add_biometric_data]: the new value of [biometric_data] *)
Definition add_biometric_data (now : Z) (biometric_data : list BiometricData)
    (data : BiometricData) : list BiometricData :=
  let cutoff_date := (now - 30 * BiometricAnalyzer.microseconds_per_day)%Z in
  filter (fun b => (cutoff_date <= timestamp b)%Z) (biometric_data ++ [data]).

(** [l.remove(x)]: drops the first occurrence ([ValueError] when there is
    none; the callers below test membership first). *)
Fixpoint remove_first (x : string) (l : list string) : list string :=
  match l with
  | [] => []
  | y :: l' => if decide (y = x) then l' else y :: remove_first x l'
  end.

(** [UserProfile.update_food_preferences]: the new values of
    [(preferred_foods, avoided_foods)]. *)
Definition update_food_preferences (preferred_foods avoided_foods : list string)
    (food_name : string) (liked : bool) (strength : Q) : list string * list string :=
  if liked then
    let preferred :=
      if bool_decide (food_name ∈ preferred_foods) then preferred_foods
      else preferred_foods ++ [food_name] in
    let avoided :=
      if bool_decide (food_name ∈ avoided_foods)
      then remove_first food_name avoided_foods else avoided_foods in
    (preferred, avoided)
  else
    let avoided :=
      if bool_decide (food_name ∈ avoided_foods) then avoided_foods
      else avoided_foods ++ [food_name] in
    let preferred :=
      if bool_decide (food_name ∈ preferred_foods)
      then remove_first food_name preferred_foods else preferred_foods in
    (preferred, avoided).

End ProfileHistory.

(** ** [meal_planner.py]: the planner's own adaptations and totals *)

Module MealPlanGenerator.

(** [x and x > t], [x and x < t] for an optional number: an absent value
    and the value 0 are both false. *)
Definition measured_above (x : option Q) (t : Q) : bool :=
  match x with
  | Some v => negb (Qeq_bool v 0) && Qlt_bool t v
  | None => false
  end.

Definition measured_below (x : option Q) (t : Q) : bool :=
  match x with
  | Some v => negb (Qeq_bool v 0) && Qlt_bool v t
  | None => false
  end.

(** [calories = protein*4 + carbs*4 + fat*9] with [.get(k, 0)] for
    protein and fat, and [get_carbs] for the carbs operand. *)
Definition recompute_calories (get_carbs : D value) : D unit :=
  p ← get "protein" (VNum 0);
  p4 ← lift (mul_int p 4);
  c ← get_carbs;
  c4 ← lift (mul_int c 4);
  pc ← lift (add p4 c4);
  f ← get "fat" (VNum 0);
  f9 ← lift (mul_int f 9);
  total ← lift (add pc f9);
  setitem "calories" total.

(** Loop body of the high-glucose branch. *)
Definition glucose_body : D unit :=
  has_carbs ← contains_key "carbs";
  if has_carbs : bool then
    imul "carbs" 0.8;;
    recompute_calories (getitem "carbs")
  else mret tt.

(** Loop body of the poor-sleep branch. *)
Definition sleep_body : D unit :=
  has_protein ← contains_key "protein";
  if has_protein : bool then
    imul "protein" 1.1;;
    recompute_calories (get "carbs" (VNum 0))
  else mret tt.

Definition when (b : bool) (c : M unit) : M unit := if b then c else mret tt.

Definition _apply_biometric_adaptations (meals : list loc) (profile : UserProfile)
    (biometric_data : list BiometricData) : M (list loc * string) :=
  match ProfileHistory.max_by timestamp biometric_data with
  | None => mret (meals, EmptyString)
  | Some latest_bio =>
      let adapted_meals := meals in
      let high_glucose :=
        measured_above (glucose_mg_dl latest_bio) Config.HIGH_GLUCOSE_THRESHOLD in
      let low_activity :=
        measured_below (inject_Z <$> steps latest_bio) Config.LOW_ACTIVITY_THRESHOLD in
      let poor_sleep :=
        measured_below (sleep_hours latest_bio) Config.POOR_SLEEP_THRESHOLD in
      when high_glucose
        (for_each adapted_meals (fun meal => at_loc meal glucose_body));;
      when low_activity
        (for_each adapted_meals
           (fun meal => at_loc meal (MealAdaptationEngine.scale_nutrients 0.85)));;
      when poor_sleep
        (for_each adapted_meals (fun meal => at_loc meal sleep_body));;
      let adaptations :=
        (if high_glucose
         then ["Reduced carbohydrate portions due to elevated glucose"] else [])
        ++ (if low_activity
            then ["Reduced portion sizes due to low activity level"] else [])
        ++ (if poor_sleep
            then ["Increased protein portions to support recovery from poor sleep"]
            else []) in
      mret (adapted_meals, String.concat "; " adaptations)
  end.

(** [totals[nutrient] += meal.get(nutrient, 0)] for the four nutrients of
    one meal. *)
Definition add_meal (totals : nutrition_totals) (meal : dict) : result nutrition_totals :=
  let plus (t : Q) (key : string) : result Q :=
    v ← add (VNum t) (default (VNum 0) (meal !! key));
    as_num v in
  c ← plus (total_calories totals) "calories";
  p ← plus (total_protein totals) "protein";
  cb ← plus (total_carbs totals) "carbs";
  f ← plus (total_fat totals) "fat";
  Ok {| total_calories := c; total_protein := p; total_carbs := cb; total_fat := f |}.

Fixpoint add_meals (totals : nutrition_totals) (meals : list dict) : result nutrition_totals :=
  match meals with
  | [] => Ok totals
  | meal :: rest => t ← add_meal totals meal; add_meals t rest
  end.

Definition _calculate_total_nutrition (meals : list dict) : result nutrition_totals :=
  add_meals {| total_calories := 0; total_protein := 0; total_carbs := 0; total_fat := 0 |}
            meals.

End MealPlanGenerator.

(** ** [engine.py]: the meal types of a day *)

Module PersonalizedNutritionEngine.

Definition _determine_meal_types (meal_count : Z) : list string :=
  if (meal_count =? 1)%Z then ["lunch"]
  else if (meal_count =? 2)%Z then ["breakfast"; "dinner"]
  else if (meal_count =? 3)%Z then ["breakfast"; "lunch"; "dinner"]
  else if (meal_count =? 4)%Z then ["breakfast"; "morning_snack"; "lunch"; "dinner"]
  else if (meal_count =? 5)%Z
       then ["breakfast"; "morning_snack"; "lunch"; "afternoon_snack"; "dinner"]
  else ["breakfast"; "lunch"; "dinner"].

End PersonalizedNutritionEngine.
(** ** Scenarios and specification-level definitions *)

Definition no_preferences : DietaryPreferences :=
  {| allergies := []; dislikes := []; dietary_restrictions := [] |}.

(** The profile of the specification's TDEE scenario. *)
Definition scenario_profile : UserProfile :=
  {| name := "scenario"; age := 32; sex := "male"; profile_weight_kg := 75;
     height_cm := 180; activity_level := MODERATELY_ACTIVE;
     dietary_preferences := no_preferences |}.

(** A small, elderly, sedentary profile. *)
Definition frail_profile : UserProfile :=
  {| name := "frail"; age := 90; sex := "female"; profile_weight_kg := 35;
     height_cm := 140; activity_level := SEDENTARY;
     dietary_preferences := no_preferences |}.

Definition with_sex (s : string) (p : UserProfile) : UserProfile :=
  {| name := name p; age := age p; sex := s; profile_weight_kg := profile_weight_kg p;
     height_cm := height_cm p; activity_level := activity_level p;
     dietary_preferences := dietary_preferences p |}.

(** A sample that carries only a glucose reading. *)
Definition glucose_sample (t : Z) (g : Q) : BiometricData :=
  {| timestamp := t; steps := None; heart_rate := None; sleep_hours := None;
     glucose_mg_dl := Some g; blood_pressure_systolic := None;
     blood_pressure_diastolic := None; weight_kg := None;
     body_fat_percentage := None |}.

(** Six daily glucose readings, oldest first: one old peak, then five
    normal days. *)
Definition glucose_history : list BiometricData :=
  [glucose_sample 1 350; glucose_sample 2 90; glucose_sample 3 90;
   glucose_sample 4 90; glucose_sample 5 90; glucose_sample 6 90].

(** The glucose-regulation buckets, as the specification words them. *)
Definition glucose_bucket (avg : Q) : Q :=
  if Qlt_bool 140 avg then 0.92
  else if Qlt_bool 120 avg then 0.96
  else if Qle_bool 70 avg && Qle_bool avg 100 then 1.02
  else 1.0.

(** The glucose-regulation factor as the specification words it: the
    bucket of the average over the five most recent glucose readings. *)
Definition glucose_factor_most_recent (history : list BiometricData) : Q :=
  let readings :=
    first_n 5 (omap glucose_mg_dl (MetabolismCalculator.most_recent_first history)) in
  match readings with
  | [] => 1.0
  | _ => glucose_bucket (mean readings)
  end.

(** A meal as the optimizer builds it: the calories are the food's
    portion-scaled raw calories, not derived from the macros. *)
Definition sample_meal : dict :=
  <["meal_type" := VStr "lunch"]>
    (<["items" := VList ["rice"]]>
       (<["calories" := VNum 100]>
          (<["protein" := VNum 10]>
             (<["carbs" := VNum 10]> (<["fat" := VNum 10]> ∅))))).

(** A sample that carries only a step count. *)
Definition steps_sample (t : Z) (s : Z) : BiometricData :=
  {| timestamp := t; steps := Some s; heart_rate := None; sleep_hours := None;
     glucose_mg_dl := None; blood_pressure_systolic := None;
     blood_pressure_diastolic := None; weight_kg := None;
     body_fat_percentage := None |}.

(** A sample that carries only a heart rate. *)
Definition heart_rate_sample (t : Z) (hr : Z) : BiometricData :=
  {| timestamp := t; steps := None; heart_rate := Some hr; sleep_hours := None;
     glucose_mg_dl := None; blood_pressure_systolic := None;
     blood_pressure_diastolic := None; weight_kg := None;
     body_fat_percentage := None |}.

(** One day with 1000 steps, analysed the day after. *)
Definition sedentary_day : list BiometricData := [steps_sample 0 1000].
Definition the_day_after : Z := BiometricAnalyzer.microseconds_per_day.

(** A profile with a peanut allergy, and a pool holding only peanut butter. *)
Definition peanut_allergic : UserProfile :=
  {| name := "allergic"; age := 30; sex := "female"; profile_weight_kg := 60;
     height_cm := 165; activity_level := LIGHTLY_ACTIVE;
     dietary_preferences :=
       {| allergies := ["Peanut"]; dislikes := []; dietary_restrictions := [] |} |}.

Definition peanut_butter : dict :=
  <["name" := VStr "Peanut butter"]>
    (<["calories_per_100g" := VNum 588]>
       (<["allergens" := VList ["peanut"]]> ∅)).

(** [sample_meal] after a flat cut of 15%. *)
Definition sample_meal_cut : dict :=
  <["meal_type" := VStr "lunch"]>
    (<["items" := VList ["rice"]]>
       (<["calories" := VNum (100 * 0.85)]>
          (<["protein" := VNum (10 * 0.85)]>
             (<["carbs" := VNum (10 * 0.85)]> (<["fat" := VNum (10 * 0.85)]> ∅))))).

(** A sample that carries only a night's sleep. *)
Definition sleep_sample (t : Z) (hours : Q) : BiometricData :=
  {| timestamp := t; steps := None; heart_rate := None; sleep_hours := Some hours;
     glucose_mg_dl := None; blood_pressure_systolic := None;
     blood_pressure_diastolic := None; weight_kg := None;
     body_fat_percentage := None |}.

(** One night of five hours. *)
Definition short_night : list BiometricData := [sleep_sample 0 5].

(** Two heart-rate readings, 90 and 150 bpm: average 120, deviation 30. *)
Definition stressed_day : list BiometricData :=
  [heart_rate_sample 0 90; heart_rate_sample 1 150].

(** Two glucose readings peaking at 150, and at 170. *)
Definition peak_150 : list BiometricData := [glucose_sample 0 95; glucose_sample 1 150].
Definition peak_170 : list BiometricData := [glucose_sample 0 95; glucose_sample 1 170].

(** [sample_meal] after two flat cuts of 5%. *)
Definition sample_meal_stressed : dict :=
  <["meal_type" := VStr "lunch"]>
    (<["items" := VList ["rice"]]>
       (<["calories" := VNum (100 * 0.95 * 0.95)]>
          (<["protein" := VNum (10 * 0.95 * 0.95)]>
             (<["carbs" := VNum (10 * 0.95 * 0.95)]>
                (<["fat" := VNum (10 * 0.95 * 0.95)]> ∅))))).

(** A meal without a carbs entry. *)
Definition carbless_meal : dict :=
  <["meal_type" := VStr "dinner"]>
    (<["items" := VList ["salmon"]]>
       (<["calories" := VNum 100]>
          (<["protein" := VNum 10]> (<["fat" := VNum 10]> ∅)))).

(** A profile whose height was entered as 0. *)
Definition zero_height_profile : UserProfile :=
  {| name := "zero"; age := 32; sex := "male"; profile_weight_kg := 75;
     height_cm := 0; activity_level := MODERATELY_ACTIVE;
     dietary_preferences := no_preferences |}.

(** A meal whose calories are derived from its macros. *)
Definition derived_meal : dict :=
  <["meal_type" := VStr "lunch"]>
    (<["items" := VList ["lentils"]]>
       (<["calories" := VNum 170]>
          (<["protein" := VNum 10]>
             (<["carbs" := VNum 10]> (<["fat" := VNum 10]> ∅))))).

(** ** Predicates on stores and meals used in the statements *)

(** [h'] keeps every object of [h] below location [n] as it was, and no
    object disappears. *)
Definition extends (n : nat) (h h' : store) : Prop :=
  (length h <= length h')%nat /\ take n h' = take n h.

(** A computation that leaves the objects below [n] alone and whose
    result, when it returns, satisfies [post]. *)
Definition frame {A} (n : nat) (c : M A) (post : A -> Prop) : Prop :=
  forall h, (n <= length h)%nat ->
    extends n h (c h).1 /\
    match (c h).2 with
    | Ok a => post a
    | Raise _ => True
    end.

(** The store after the statements [op] ran on a dictionary, and whether
    they ran to the end. *)
Definition effect (op : D unit) (d : dict) : dict := (op d).1.
Definition succeeds (op : D unit) (d : dict) : Prop := (op d).2 = Ok tt.

(** Every nutrient entry that is present holds a number. *)
Definition numeric_at (d : dict) (k : string) : Prop :=
  match d !! k with
  | Some (VNum _) | None => True
  | Some _ => False
  end.

Definition numeric (d : dict) : Prop :=
  Forall (numeric_at d) MealAdaptationEngine.nutrients.

(** The number under [k], 0 when the key is absent: [meal.get(k, 0)]. *)
Definition num_or_zero (d : dict) (k : string) : Q :=
  match d !! k with
  | Some (VNum q) => q
  | _ => 0
  end.

(** [calories == protein*4 + carbs*4 + fat*9] *)
Definition macro_consistent (d : dict) : Prop :=
  exists cal, d !! "calories" = Some (VNum cal)
              /\ cal == num_or_zero d "protein" * 4 + num_or_zero d "carbs" * 4
                        + num_or_zero d "fat" * 9.

(** All meals of a list are allocated and satisfy [P]. *)
Definition all_meals (P : dict -> Prop) (h : store) (meals : list loc) : Prop :=
  forall r, r ∈ meals -> exists d, h !! r = Some d /\ P d.

(** All four nutrient entries are present and hold numbers, as in the meals
    the optimizer builds. *)
Definition complete (d : dict) : Prop :=
  forall k, k ∈ MealAdaptationEngine.nutrients -> exists q, d !! k = Some (VNum q).

(** [v * f] on a number; other values are left alone. *)
Definition scale_value (f : Q) (v : value) : value :=
  match v with
  | VNum q => VNum (q * f)
  | _ => v
  end.

(** From [h] to [h'], every nutrient entry of every meal of the list was
    multiplied by [f]. *)
Definition all_scaled (f : Q) (h h' : store) (meals : list loc) : Prop :=
  forall r d, r ∈ meals -> h !! r = Some d ->
    exists d', h' !! r = Some d'
      /\ forall k q, k ∈ MealAdaptationEngine.nutrients ->
           d !! k = Some (VNum q) -> d' !! k = Some (VNum (q * f)).

(** The number under [key] of the trend dictionary [metric] of an analysis,
    0 when there is none. *)
Definition trend_number (a : analysis) (metric key : string) : Q :=
  match trends a !! metric with
  | Some info => default 0 (numbers info !! key)
  | None => 0
  end.

(** The trend dictionary [metric] of an analysis holds a number under [key]. *)
Definition has_number (a : analysis) (metric key : string) : Prop :=
  exists info q, trends a !! metric = Some info /\ numbers info !! key = Some q.

(** The entries the strategy of a tag reads from the analysis. *)
Definition has_entries (a : analysis) (tag : AdaptationReason) : Prop :=
  match tag with
  | HIGH_GLUCOSE => has_number a "glucose" "maximum"
  | LOW_ACTIVITY => has_number a "activity" "average_steps"
  | POOR_SLEEP => has_number a "sleep" "average_hours"
  | HIGH_STRESS => has_number a "heart_rate" "average_bpm"
  | WEIGHT_CHANGE => has_number a "weight" "total_change_kg"
  | ILLNESS_RECOVERY | EXERCISE_SESSION | MEAL_TIMING => True
  end.

(** The carbohydrate factor of the HIGH_GLUCOSE strategy. *)
Definition glucose_reduction_factor (a : analysis) : Q :=
  if Qlt_bool 160 (trend_number a "glucose" "maximum") then 0.7 else 0.8.

(** The statements the strategy of a tag runs on each meal. *)
Definition strategy_body (a : analysis) (tag : AdaptationReason) : D unit :=
  match tag with
  | HIGH_GLUCOSE =>
      MealAdaptationEngine.high_glucose_body (glucose_reduction_factor a)
  | LOW_ACTIVITY => MealAdaptationEngine.scale_nutrients 0.85
  | POOR_SLEEP => MealAdaptationEngine.poor_sleep_body
  | HIGH_STRESS => MealAdaptationEngine.scale_nutrients 0.95
  | WEIGHT_CHANGE =>
      let weight_change := trend_number a "weight" "total_change_kg" in
      if Qlt_bool 1 weight_change then MealAdaptationEngine.scale_nutrients 0.9
      else if Qlt_bool weight_change (-1) then MealAdaptationEngine.weight_loss_body
      else mret tt
  | ILLNESS_RECOVERY | EXERCISE_SESSION | MEAL_TIMING => mret tt
  end.

(** What the strategy of a tag makes of one meal, and what the strategies
    of a list of tags, applied in order, make of it. *)
Definition meal_effect (a : analysis) (tag : AdaptationReason) (d : dict) : dict :=
  effect (strategy_body a tag) d.

Definition meal_effects (a : analysis) (tags : list AdaptationReason) (d : dict) : dict :=
  foldl (fun d tag => meal_effect a tag d) d tags.

(** A metric that raised no alert raised no tag; then the tags of an
    analysis are the tags of its five metrics, in order. *)
Definition tags_need_alerts (t : metric_trends) : Prop :=
  alerts t = [] -> adaptations t = [].

(** ** Further statement-level definitions *)

(** Orderings of samples by time. *)
Definition newer_first (a b : BiometricData) : Prop := (timestamp b <= timestamp a)%Z.
Definition older_first (a b : BiometricData) : Prop := (timestamp a <= timestamp b)%Z.

(** Some sample of the history carries a body-fat measurement. *)
Definition body_fat_measured (recent_biometrics : option (list BiometricData)) : Prop :=
  exists l s, recent_biometrics = Some l /\ s ∈ l /\ is_Some (body_fat_percentage s).

(** A sample that carries only a body-fat measurement. *)
Definition body_fat_sample (t : Z) (bf : Q) : BiometricData :=
  {| timestamp := t; steps := None; heart_rate := None; sleep_hours := None;
     glucose_mg_dl := None; blood_pressure_systolic := None;
     blood_pressure_diastolic := None; weight_kg := None;
     body_fat_percentage := Some bf |}.

(** The samples of a history that are at most [days] days old at [now]. *)
Definition fresh_samples (now days : Z) (bio : list BiometricData) : list BiometricData :=
  filter (fun d => (now - days * BiometricAnalyzer.microseconds_per_day <= timestamp d)%Z) bio.

(** The explanation the strategy of a tag returns, from the numbers of the
    analysis. *)
Definition explanation_of (a : analysis) (tag : AdaptationReason) : explanation :=
  match tag with
  | HIGH_GLUCOSE =>
      ExplHighGlucose (glucose_reduction_factor a) (trend_number a "glucose" "maximum")
  | LOW_ACTIVITY => ExplLowActivity (trend_number a "activity" "average_steps")
  | POOR_SLEEP => ExplPoorSleep (trend_number a "sleep" "average_hours")
  | HIGH_STRESS => ExplHighStress (trend_number a "heart_rate" "average_bpm")
  | WEIGHT_CHANGE =>
      let weight_change := trend_number a "weight" "total_change_kg" in
      if Qlt_bool 1 weight_change then ExplWeightGain weight_change
      else if Qlt_bool weight_change (-1) then ExplWeightLoss (Py.abs weight_change)
      else ExplEmpty
  | ILLNESS_RECOVERY | EXERCISE_SESSION | MEAL_TIMING => ExplEmpty
  end.

(** Statements that write no key outside [keys], whether they run to the
    end or raise. *)
Definition writes_only {A} (keys : list string) (op : D A) : Prop :=
  forall d k, k ∉ keys -> (op d).1 !! k = d !! k.

(** The position [i] as a number, and the series [a, a + s, a + 2 s, ...]
    of [n] values. *)
Definition index (i : nat) : Q := inject_Z (Z.of_nat i).

Definition linear_series (a s : Q) (n : nat) : list Q :=
  map (fun i => a + s * index i) (seq 0 n).

(** The explanation of a tag, from the samples of the analysis window. *)
Definition window_explanation (rd : list BiometricData) (tag : AdaptationReason)
    : explanation :=
  match tag with
  | HIGH_GLUCOSE =>
      let peak := np_max (BiometricAnalyzer.present glucose_mg_dl rd) in
      ExplHighGlucose (if Qlt_bool 160 peak then 0.7 else 0.8) peak
  | LOW_ACTIVITY =>
      ExplLowActivity (mean (map inject_Z (BiometricAnalyzer.present steps rd)))
  | POOR_SLEEP => ExplPoorSleep (mean (BiometricAnalyzer.present sleep_hours rd))
  | HIGH_STRESS =>
      ExplHighStress (mean (map inject_Z (BiometricAnalyzer.present heart_rate rd)))
  | WEIGHT_CHANGE =>
      let weights := BiometricAnalyzer.present weight_kg rd in
      let change := default 0 (last weights) - default 0 (head weights) in
      if Qlt_bool 0 change then ExplWeightGain change
      else ExplWeightLoss (Py.abs change)
  | ILLNESS_RECOVERY | EXERCISE_SESSION | MEAL_TIMING => ExplEmpty
  end.

(** The planner's three rules, read off the latest sample: a reading that
    is absent or 0 fires no rule. *)
Definition glucose_rule_fires (latest : BiometricData) : bool :=
  match glucose_mg_dl latest with
  | Some g => Qlt_bool 140 g
  | None => false
  end.

Definition activity_rule_fires (latest : BiometricData) : bool :=
  match steps latest with
  | Some s => bool_decide (s <> 0 /\ s < 5000)%Z
  | None => false
  end.

Definition sleep_rule_fires (latest : BiometricData) : bool :=
  match sleep_hours latest with
  | Some hours => negb (Qeq_bool hours 0) && Qlt_bool hours 6
  | None => false
  end.

(** The notes of the rules that fired, in the order of the rules. *)
Definition planner_notes (latest : BiometricData) : list string :=
  (if glucose_rule_fires latest
   then ["Reduced carbohydrate portions due to elevated glucose"%string] else [])
  ++ (if activity_rule_fires latest
      then ["Reduced portion sizes due to low activity level"%string] else [])
  ++ (if sleep_rule_fires latest
      then ["Increased protein portions to support recovery from poor sleep"%string]
      else []).

(** The four nutrient entries of a meal hold these numbers. *)
Definition nutrient_values (d : dict) (calories protein carbs fat : Q) : Prop :=
  d !! "calories" = Some (VNum calories) /\ d !! "protein" = Some (VNum protein)
  /\ d !! "carbs" = Some (VNum carbs) /\ d !! "fat" = Some (VNum fat).

(** The calories, protein, carbs and fat the planner leaves in a meal that
    held [calories], [protein], [carbs] and [fat]: the glucose rule cuts the
    carbs and re-derives the calories, then the activity rule cuts all
    four, then the sleep rule raises the protein and re-derives the
    calories. *)
Definition planned_nutrients (latest : BiometricData) (calories protein carbs fat : Q)
    : Q * Q * Q * Q :=
  let '(calories1, carbs1) :=
    if glucose_rule_fires latest
    then (protein * 4 + carbs * 0.8 * 4 + fat * 9, carbs * 0.8)
    else (calories, carbs) in
  let '(calories2, protein2, carbs2, fat2) :=
    if activity_rule_fires latest
    then (calories1 * 0.85, protein * 0.85, carbs1 * 0.85, fat * 0.85)
    else (calories1, protein, carbs1, fat) in
  if sleep_rule_fires latest
  then (protein2 * 1.1 * 4 + carbs2 * 4 + fat2 * 9, protein2 * 1.1, carbs2, fat2)
  else (calories2, protein2, carbs2, fat2).

(** A sample of a day with a glucose reading of 150, 1000 steps and five
    hours of sleep. *)
Definition rough_day_sample (t : Z) : BiometricData :=
  {| timestamp := t; steps := Some 1000%Z; heart_rate := None; sleep_hours := Some 5;
     glucose_mg_dl := Some 150; blood_pressure_systolic := None;
     blood_pressure_diastolic := None; weight_kg := None;
     body_fat_percentage := None |}.

(** A sample of a day without any step and without any sleep. *)
Definition idle_sample (t : Z) : BiometricData :=
  {| timestamp := t; steps := Some 0%Z; heart_rate := None; sleep_hours := Some 0;
     glucose_mg_dl := None; blood_pressure_systolic := None;
     blood_pressure_diastolic := None; weight_kg := None;
     body_fat_percentage := None |}.

(** One step of the running totals: [totals[nutrient] += meal.get(nutrient, 0)]
    on numbers. *)
Definition add_numbers (t : nutrition_totals) (meal : dict) : nutrition_totals :=
  {| total_calories := total_calories t + num_or_zero meal "calories";
     total_protein := total_protein t + num_or_zero meal "protein";
     total_carbs := total_carbs t + num_or_zero meal "carbs";
     total_fat := total_fat t + num_or_zero meal "fat" |}.

(** A food record as the databases hold them: a name, and where present a
    textual category, a list of allergens and numeric nutrient and cost
    fields. *)
Definition text_or_absent (d : dict) (k : string) : Prop :=
  match d !! k with
  | Some (VStr _) | None => True
  | Some _ => False
  end.

Definition number_or_absent (d : dict) (k : string) : Prop :=
  match d !! k with
  | Some (VNum _) | None => True
  | Some _ => False
  end.

Definition list_or_absent (d : dict) (k : string) : Prop :=
  match d !! k with
  | Some (VList _) | None => True
  | Some _ => False
  end.

(** [food.get('allergens', [])] when it is a list. *)
Definition food_allergens (food : dict) : list string :=
  match food !! "allergens" with
  | Some (VList l) => l
  | _ => []
  end.

Definition food_fields : list string :=
  ["calories_per_100g"; "protein_g"; "carbs_g"; "fat_g"; "fiber_g"; "cost_per_100g"].

Definition well_formed_food (food : dict) : Prop :=
  (exists name, food !! "name" = Some (VStr name))
  /\ text_or_absent food "category"
  /\ list_or_absent food "allergens"
  /\ Forall (number_or_absent food) food_fields.

(** A satisfaction predictor that is untrained, or whose model returns a
    prediction for every profile and food. *)
Definition predictor_returns (self : MealOptimizer.predictor) : Prop :=
  match self with
  | None => True
  | Some model => forall profile food, exists p, model profile food = Ok p
  end.

(** [food.get(key, default)] on a well-formed food. *)
Definition num_or (dflt : Q) (food : dict) (key : string) : Q :=
  match food !! key with
  | Some (VNum q) => q
  | _ => dflt
  end.

(** A meal whose protein entry is text, and a meal without a fat entry. *)
Definition mistyped_meal : dict :=
  <["calories" := VNum 100]> (<["protein" := VStr "10 g"]> ∅).

Definition fatless_meal : dict :=
  <["calories" := VNum 100]> (<["protein" := VNum 10]> (<["carbs" := VNum 10]> ∅)).

(** One sample, taken long before [the_day_after]. *)
Definition last_year : Z := (- 365 * BiometricAnalyzer.microseconds_per_day)%Z.

(** Two foods of a pool. *)
Definition oatmeal : dict :=
  <["name" := VStr "Oatmeal"]>
    (<["category" := VStr "grain"]>
       (<["calories_per_100g" := VNum 380]>
          (<["protein_g" := VNum 13]>
             (<["carbs_g" := VNum 67]>
                (<["fat_g" := VNum 7]>
                   (<["fiber_g" := VNum 10]> (<["cost_per_100g" := VNum 0.5]> ∅))))))).

Definition chicken_breast : dict :=
  <["name" := VStr "Chicken breast"]>
    (<["category" := VStr "protein"]>
       (<["calories_per_100g" := VNum 165]>
          (<["protein_g" := VNum 31]>
             (<["carbs_g" := VNum 0]>
                (<["fat_g" := VNum 3.6]> (<["cost_per_100g" := VNum 1.2]> ∅)))))).

(** The part of the daily calorie target that the meals of a day are
    planned for: the sum of the shares of their meal types. *)
Definition planned_share (meal_types : list string) : Q :=
  sum (map (fun meal_type => default 0.33 (Config.MEAL_CALORIE_DISTRIBUTION !! meal_type))
         meal_types).
(** * Properties *)

(** ** Rational comparisons *)

Lemma Qlt_bool_iff (a b : Q) : Qlt_bool a b = true <-> a < b.
Proof.
  unfold Qlt_bool. rewrite negb_true_iff.
  destruct (Qle_bool b a) eqn:E.
  - apply Qle_bool_iff in E. split; [discriminate | intros H; lra].
  - split; [intros _ | reflexivity].
    destruct (Qlt_le_dec a b) as [H | H]; [exact H |].
    apply Qle_bool_iff in H. congruence.
Qed.

Lemma Qlt_bool_false_iff (a b : Q) : Qlt_bool a b = false <-> b <= a.
Proof.
  destruct (Qlt_bool a b) eqn:E.
  - apply Qlt_bool_iff in E. split; [discriminate | intros H; lra].
  - split; [intros _ | reflexivity].
    destruct (Qlt_le_dec a b) as [H | H]; [| exact H].
    apply Qlt_bool_iff in H. congruence.
Qed.

Lemma max_cases (a b : Q) :
  (a < b /\ Py.max a b = b) \/ (b <= a /\ Py.max a b = a).
Proof.
  unfold Py.max. destruct (Qlt_bool a b) eqn:E.
  - left. split; [by apply Qlt_bool_iff | done].
  - right. split; [by apply Qlt_bool_false_iff | done].
Qed.

Lemma min_cases (a b : Q) :
  (b < a /\ Py.min a b = b) \/ (a <= b /\ Py.min a b = a).
Proof.
  unfold Py.min. destruct (Qlt_bool b a) eqn:E.
  - left. split; [by apply Qlt_bool_iff | done].
  - right. split; [by apply Qlt_bool_false_iff | done].
Qed.

(** Decide a closed comparison of rationals. *)
Ltac q_decide :=
  vm_compute;
  repeat match goal with
         | |- _ /\ _ => split
         | |- ~ _ => let H := fresh in intros H; vm_compute in H
         | H : Lt = Gt |- _ => discriminate H
         | H : Gt = Lt |- _ => discriminate H
         | H : Eq = Gt |- _ => discriminate H
         | H : Eq = Lt |- _ => discriminate H
         | H : ?x = ?x -> False |- _ => exact (H eq_refl)
         | |- _ => reflexivity
         | |- _ => discriminate
         end.

(** ** Metabolism *)

Section Metabolism.
Import MetabolismCalculator.

Lemma calculate_bmr_mifflin (p : UserProfile) :
  UserProfileMethods.calculate_bmr p = _mifflin_st_jeor p.
Proof. reflexivity. Qed.

(** C9: a profile whose sex is not "male" (case-insensitively), such as
    "other", gets the Mifflin-St Jeor BMR with the constant -161, that is
    10 * weight + 6.25 * height - 5 * age - 161, the BMR of the female
    profile of the same age, weight and height; this holds for
    [_mifflin_st_jeor] and for [UserProfile.calculate_bmr]. *)
Theorem non_male_bmr_is_female_bmr (p : UserProfile) :
  lower (sex p) <> "male"%string ->
  _mifflin_st_jeor p
    = 10 * profile_weight_kg p + 6.25 * height_cm p - 5 * inject_Z (age p) - 161
  /\ _mifflin_st_jeor p = _mifflin_st_jeor (with_sex "female" p)
  /\ UserProfileMethods.calculate_bmr p
     = 10 * profile_weight_kg p + 6.25 * height_cm p - 5 * inject_Z (age p) - 161
  /\ UserProfileMethods.calculate_bmr p
     = UserProfileMethods.calculate_bmr (with_sex "female" p).
Proof.
  intros Hsex.
  assert (Hm : str_eqb (lower (sex p)) "male" = false).
  { unfold str_eqb. by apply bool_decide_eq_false. }
  unfold UserProfileMethods.calculate_bmr, _mifflin_st_jeor, is_male.
  rewrite Hm. repeat split; reflexivity.
Qed.

Lemma non_male_bmr_is_female_bmr_witness :
  lower (sex (with_sex "Other" scenario_profile)) <> "male"%string
  /\ _mifflin_st_jeor (with_sex "Other" scenario_profile)
     = _mifflin_st_jeor (with_sex "female" scenario_profile)
  /\ UserProfileMethods.calculate_bmr (with_sex "Other" scenario_profile)
     = 10 * 75 + 6.25 * 180 - 5 * inject_Z 32 - 161.
Proof.
  assert (H : lower (sex (with_sex "Other" scenario_profile)) <> "male"%string)
    by (vm_compute; discriminate).
  split; [exact H |].
  split; [exact (proj1 (proj2 (non_male_bmr_is_female_bmr _ H))) |].
  exact (proj1 (proj2 (proj2 (non_male_bmr_is_female_bmr _ H)))).
Defined.

(** C2, as stated, fails: for the scenario profile the BMR is not 1705 and
    the TDEE is not 2642.75, with or without an empty history. *)
Lemma spec_scenario_numbers_fail :
  ~ (exists t, calculate_tdee scenario_profile (Some []) true = Ok t
               /\ bmr t == 1705 /\ base_tdee t == 2642.75
               /\ adaptive_tdee t == 2642.75).
Proof.
  intros (t & Ht & Hb & _). vm_compute in Ht. injection Ht as <-.
  vm_compute in Hb. discriminate Hb.
Qed.

(** C2, amended: for the profile {age 32, male, 75 kg, 180 cm, moderately
    active} and an empty (or absent) biometric history, [calculate_tdee]
    returns bmr = 1720, base_tdee = adaptive_tdee = 1720 * 1.55 = 2666, and
    every adaptive factor equal to 1.0. *)
Theorem scenario_tdee :
  forall history, history = None \/ history = Some [] ->
  exists t, calculate_tdee scenario_profile history true = Ok t
            /\ bmr t == 1720
            /\ base_tdee t == 1720 * 1.55 /\ base_tdee t == 2666
            /\ adaptive_tdee t = base_tdee t
            /\ factor_values (tdee_adaptive_factors t) = [1.0; 1.0; 1.0; 1.0; 1.0].
Proof.
  intros history [-> | ->]; eexists; (split; [vm_compute; reflexivity |]);
    repeat split; reflexivity.
Qed.

Lemma scenario_tdee_witness :
  exists t, calculate_tdee scenario_profile (Some []) true = Ok t /\ bmr t == 1720.
Proof.
  destruct (scenario_tdee (Some []) (or_intror eq_refl)) as (t & Ht & Hb & _).
  exists t. split; assumption.
Defined.

Lemma estimate_body_fat_returns (p : UserProfile) :
  ~ height_cm p == 0 ->
  exists bf, _estimate_body_fat_percentage p None = Ok bf.
Proof.
  intros Hh. unfold _estimate_body_fat_percentage. simpl.
  unfold div.
  destruct (Qeq_bool (height_cm p / 100 * (height_cm p / 100)) 0) eqn:E.
  - apply Qeq_bool_iff in E. exfalso. apply Hh.
    destruct (Qmult_integral _ _ E) as [H | H];
      (apply (Qmult_inj_r _ _ (/ 100)); [discriminate | rewrite Qmult_0_l; exact H]).
  - eexists. reflexivity.
Qed.

(** With a height of 0 the body-fat estimate, whose value the Mifflin-St
    Jeor path never uses, divides by zero, and both entry points raise. *)
Lemma zero_height_raises :
  calculate_tdee zero_height_profile None true = Raise ZeroDivisionError
  /\ calculate_calorie_needs_by_goal zero_height_profile "maintain" 0.5
     = Raise ZeroDivisionError.
Proof. split; reflexivity. Qed.

(** C4, as stated, fails: for a small, elderly, sedentary profile the floor
    of 1200 kcal exceeds both the TDEE and the ceiling, and all three goal
    values collapse onto the floor. *)
Lemma frail_profile_breaks_goal_ordering :
  exists r, calculate_calorie_needs_by_goal frail_profile "maintain" 0.5 = Ok r
            /\ ~ maintenance r <= max_safe_calories r
            /\ ~ weight_loss r < maintenance r
            /\ ~ maintenance r < weight_gain r.
Proof.
  eexists. split; [vm_compute; reflexivity |].
  repeat split; intros H; vm_compute in H; congruence.
Qed.

(** C4, amended: for every profile of non-zero height and every
    rate_kg_per_week > 0, [calculate_calorie_needs_by_goal] returns a result
    with min_safe_calories = max(1.1 * BMR, 1200), max_safe_calories =
    1.5 * base TDEE, and min_safe_calories <= weight_loss <= maintenance <=
    weight_gain; weight_gain (hence maintenance) is at most
    max_safe_calories whenever min_safe_calories <= max_safe_calories; and
    weight_loss < maintenance < weight_gain whenever the base TDEE exceeds
    min_safe_calories. *)
Theorem calorie_needs_bounds (p : UserProfile) (goal : string) (rate : Q) :
  ~ height_cm p == 0 ->
  0 < rate ->
  exists r, calculate_calorie_needs_by_goal p goal rate = Ok r
    /\ min_safe_calories r == Qmax (1.1 * bmr (tdee_breakdown r)) 1200
    /\ max_safe_calories r == 1.5 * base_tdee (tdee_breakdown r)
    /\ min_safe_calories r <= weight_loss r
    /\ weight_loss r <= maintenance r
    /\ maintenance r <= weight_gain r
    /\ (min_safe_calories r <= max_safe_calories r ->
        weight_gain r <= max_safe_calories r)
    /\ (min_safe_calories r < base_tdee (tdee_breakdown r) ->
        weight_loss r < maintenance r /\ maintenance r < weight_gain r).
Proof.
  intros Hh Hrate.
  destruct (estimate_body_fat_returns p Hh) as [bf Hbf].
  unfold calculate_calorie_needs_by_goal, calculate_tdee.
  rewrite Hbf. simpl.
  eexists. split; [reflexivity |]. simpl.
  rewrite calculate_bmr_mifflin.
  set (B := _mifflin_st_jeor p).
  set (base := B * activity_value (activity_level p)).
  assert (Hd : 0 < Py.abs (rate * 7700 / 7)).
  { assert (He : rate * 7700 / 7 == rate * 1100) by field.
    unfold Py.abs. rewrite He, Qabs_pos; lra. }
  set (delta := Py.abs (rate * 7700 / 7)) in *.
  assert (Hmin : Py.max (B * 1.1) 1200 == Qmax (1.1 * B) 1200).
  { destruct (max_cases (B * 1.1) 1200) as [[H ->] | [H ->]].
    - rewrite Q.max_r; lra.
    - rewrite Q.max_l; lra. }
  assert (Hfloor : 1200 <= Py.max (B * 1.1) 1200).
  { destruct (max_cases (B * 1.1) 1200) as [[H ->] | [H ->]]; lra. }
  set (lo := Py.max (B * 1.1) 1200) in *.
  split; [exact Hmin |].
  split; [lra |].
  destruct (min_cases base (base * 1.5)) as [[H1 ->] | [H1 ->]];
  destruct (min_cases (base - delta) (base * 1.5)) as [[H2 ->] | [H2 ->]];
  destruct (min_cases (base + delta) (base * 1.5)) as [[H3 ->] | [H3 ->]];
  repeat match goal with
         | |- context [Py.max lo ?x] =>
             let H := fresh "Hm" in
             destruct (max_cases lo x) as [[H ->] | [H ->]]
         end;
  repeat split; intros; lra.
Qed.

Lemma calorie_needs_bounds_witness :
  exists r, calculate_calorie_needs_by_goal scenario_profile "lose" 0.5 = Ok r
            /\ weight_loss r <= maintenance r.
Proof.
  assert (Hh : ~ height_cm scenario_profile == 0) by (intros H; discriminate H).
  assert (Hr : 0 < 0.5) by reflexivity.
  destruct (calorie_needs_bounds scenario_profile "lose" 0.5 Hh Hr)
    as (r & Hr1 & _ & _ & _ & Hle & _).
  exists r. split; assumption.
Defined.

(** C3 on the code: with six daily glucose readings, an old peak of 350
    followed by five readings of 90, the computed glucose-regulation factor
    is 0.92, the bucket of the five oldest readings, whereas the bucket of
    the average over the five most recent readings is 1.02. *)
Theorem glucose_factor_uses_oldest_readings :
  glucose_regulation (_calculate_adaptive_factors scenario_profile glucose_history) = 0.92
  /\ _calculate_glucose_factor (most_recent_first glucose_history) = 0.92
  /\ glucose_factor_most_recent glucose_history = 1.02
  /\ omap glucose_mg_dl (last_n 5 (most_recent_first glucose_history))
     = [90; 90; 90; 90; 350].
Proof. repeat split; vm_compute; reflexivity. Qed.

End Metabolism.

(** ** The object store *)

Section Store.

Lemma extends_refl n h : extends n h h.
Proof. by split. Qed.

Lemma extends_trans n h1 h2 h3 :
  extends n h1 h2 -> extends n h2 h3 -> extends n h1 h3.
Proof. intros [? ?] [? ?]. split; [lia | congruence]. Qed.

Lemma bind_run {A B} (c : M A) (k : A -> M B) (h : store) :
  (c ≫= k) h =
  match c h with
  | (h', Ok a) => k a h'
  | (h', Raise e) => (h', Raise e)
  end.
Proof. reflexivity. Qed.

Lemma frame_ret {A} n (a : A) (post : A -> Prop) :
  post a -> frame n (mret a) post.
Proof. intros Ha h _. split; [apply extends_refl | exact Ha]. Qed.

Lemma frame_lift_result {A} n (r : result A) (post : A -> Prop) :
  (forall a, r = Ok a -> post a) -> frame n (lift_result r) post.
Proof.
  intros Hr h _. split; [apply extends_refl |].
  simpl. destruct r; [by apply Hr | done].
Qed.

Lemma frame_bind {A B} n (c : M A) (k : A -> M B) (mid : A -> Prop)
    (post : B -> Prop) :
  frame n c mid -> (forall a, mid a -> frame n (k a) post) ->
  frame n (c ≫= k) post.
Proof.
  intros Hc Hk h Hn. rewrite bind_run.
  destruct (Hc h Hn) as [Hext Hmid].
  destruct (c h) as [h1 [a | e]]; simpl in *.
  - destruct (Hk a Hmid h1) as [Hext' Hpost]; [destruct Hext; lia |].
    split; [by eapply extends_trans | exact Hpost].
  - by split.
Qed.

Lemma frame_weaken {A} n (c : M A) (post post' : A -> Prop) :
  frame n c post -> (forall a, post a -> post' a) -> frame n c post'.
Proof.
  intros Hc Hw h Hn. destruct (Hc h Hn) as [? Hp]. split; [done |].
  destruct ((c h).2); [by apply Hw | done].
Qed.

Lemma frame_at_loc {A} n r (op : D A) :
  (n <= r)%nat -> frame n (at_loc r op) (fun _ => True).
Proof.
  intros Hr h Hn. unfold at_loc.
  destruct (h !! r) as [d |]; [| split; [apply extends_refl | done]].
  destruct (op d) as [d' x]. simpl. split; [| by destruct x].
  split; [by rewrite length_insert | by apply take_insert_ge].
Qed.

Lemma frame_copy n r : frame n (copy r) (fun r' => (n <= r')%nat).
Proof.
  intros h Hn. unfold copy.
  destruct (h !! r) as [d |]; [| split; [apply extends_refl | done]].
  simpl. split; [| done].
  split; [rewrite length_app; lia | by rewrite take_app_le].
Qed.

Lemma frame_for_each {A} n (l : list A) (body : A -> M unit) :
  (forall x, x ∈ l -> frame n (body x) (fun _ => True)) ->
  frame n (for_each l body) (fun _ => True).
Proof.
  induction l as [| x l IH]; intros Hb; simpl.
  - by apply frame_ret.
  - eapply frame_bind; [apply Hb; by left |].
    intros _ _. apply IH. intros y Hy. apply Hb. by right.
Qed.

Lemma frame_list_comp {A B} n (f : A -> M B) (l : list A) (post : B -> Prop) :
  (forall x, frame n (f x) post) ->
  frame n (list_comp f l) (fun ys => Forall post ys /\ length ys = length l).
Proof.
  intros Hf. induction l as [| x l IH]; simpl.
  - by apply frame_ret.
  - eapply frame_bind; [apply Hf |]. intros y Hy.
    eapply frame_bind; [apply IH |]. intros ys [Hys Hlen].
    apply frame_ret. split; [by constructor | simpl; lia].
Qed.

End Store.

(** ** The adaptation engine: what it leaves alone *)

Section AdaptationFrame.
Import MealAdaptationEngine.

Lemma frame_trends_getitem n a key :
  frame n (trends_getitem a key) (fun _ => True).
Proof. by apply frame_lift_result. Qed.

Lemma frame_info_getitem n info key :
  frame n (info_getitem info key) (fun _ => True).
Proof. by apply frame_lift_result. Qed.

Lemma frame_meal_loop n (meals : list loc) (op : D unit) :
  Forall (fun r => (n <= r)%nat) meals ->
  frame n (for_each meals (fun meal => at_loc meal op)) (fun _ => True).
Proof.
  intros Hm. apply frame_for_each. intros r Hr.
  apply frame_at_loc. by eapply Forall_forall in Hm.
Qed.

Ltac frame_steps :=
  repeat first
    [ by apply frame_ret
    | eapply frame_bind;
      [ first [ apply frame_trends_getitem | apply frame_info_getitem
              | by apply frame_meal_loop ]
      | intros ? _; simpl ] ].

Lemma strategy_frame n reason strat (meals : list loc) a profile :
  adaptation_strategies reason = Some strat ->
  Forall (fun r => (n <= r)%nat) meals ->
  frame n (strat meals a profile) (fun res => res.1 = meals).
Proof.
  intros Hs Hm.
  destruct reason; simplify_eq/=.
  - unfold _adapt_for_high_glucose. frame_steps.
  - unfold _adapt_for_low_activity. frame_steps.
  - unfold _adapt_for_poor_sleep. frame_steps.
  - unfold _adapt_for_high_stress. frame_steps.
  - unfold _adapt_for_weight_change. frame_steps.
    repeat case_match; frame_steps.
Qed.

Lemma apply_adaptations_frame n reasons a profile (meals : list loc) made :
  Forall (fun r => (n <= r)%nat) meals ->
  frame n (apply_adaptations reasons a profile meals made)
    (fun res => res.1 = meals).
Proof.
  intros Hm. revert made.
  induction reasons as [| reason reasons IH]; intros made; simpl.
  - by apply frame_ret.
  - destruct (adaptation_strategies reason) as [strat |] eqn:Hs; [| apply IH].
    eapply frame_bind; [by eapply strategy_frame |].
    intros [ms expl] Hms. simpl in Hms. subst ms. apply IH.
Qed.

Lemma adapt_meal_plan_frame now (meals : list loc) profile bio (h : store) :
  frame (length h) (adapt_meal_plan now meals profile bio)
    (fun res =>
       adaptations_needed (BiometricAnalyzer.analyze_biometric_trends now bio 7) <> [] ->
       Forall (fun r => (length h <= r)%nat) res.1 /\ length res.1 = length meals).
Proof.
  unfold adapt_meal_plan.
  destruct (adaptations_needed _) as [| tag tags] eqn:Ha.
  - by apply frame_ret.
  - eapply frame_bind; [apply frame_list_comp, frame_copy |].
    intros ms [Hms Hlen]. simpl in Hms.
    eapply frame_weaken; [by apply apply_adaptations_frame |].
    intros [ms' expl] Heq _. simpl in *. by subst.
Qed.

(** C10: [adapt_meal_plan] mutates copies only.  Whatever the call does
    (return or raise), every dictionary of the caller's store, the input
    meals among them, holds the entries it held before; and when at least
    one adaptation tag was raised, the meals it returns are objects
    allocated by the call, one per input meal, distinct from every object
    that existed before. *)
Theorem adapt_meal_plan_leaves_input_untouched
    now (meals : list loc) profile bio (h h' : store) res :
  adapt_meal_plan now meals profile bio h = (h', res) ->
  h `prefix_of` h'
  /\ (forall r d, h !! r = Some d -> h' !! r = Some d)
  /\ (forall adapted expl,
        res = Ok (adapted, expl) ->
        adaptations_needed (BiometricAnalyzer.analyze_biometric_trends now bio 7) <> [] ->
        Forall (fun r => (length h <= r)%nat) adapted
        /\ length adapted = length meals).
Proof.
  intros Hrun.
  destruct (adapt_meal_plan_frame now meals profile bio h h (le_n _)) as [[Hlen Htake] Hres].
  rewrite Hrun in *. simpl in *.
  rewrite firstn_all in Htake.
  assert (Hpre : h `prefix_of` h').
  { exists (drop (length h) h'). by rewrite <- Htake at 1; rewrite take_drop. }
  split; [exact Hpre |]. split.
  - intros r d Hd. by eapply prefix_lookup_Some.
  - intros adapted expl -> Hne. by apply Hres.
Qed.

Lemma sedentary_day_run :
  adapt_meal_plan the_day_after [0%nat] scenario_profile sedentary_day [sample_meal]
  = ([sample_meal; sample_meal_cut], Ok ([1%nat], [ExplLowActivity 1000])).
Proof. vm_compute. reflexivity. Qed.

Lemma adapt_meal_plan_leaves_input_untouched_witness :
  adapt_meal_plan the_day_after [0%nat] scenario_profile sedentary_day [sample_meal]
  = ([sample_meal; sample_meal_cut], Ok ([1%nat], [ExplLowActivity 1000]))
  /\ [sample_meal; sample_meal_cut] !! 0%nat = Some sample_meal.
Proof.
  split; [exact sedentary_day_run |].
  pose proof (adapt_meal_plan_leaves_input_untouched _ _ _ _ _ _ _ sedentary_day_run)
    as (_ & Hold & _).
  exact (Hold 0%nat sample_meal eq_refl).
Defined.

(** C7: with an empty list of biometric samples [adapt_meal_plan] returns
    the input meal list itself and an empty explanation list, raises
    nothing, and leaves the store as it was. *)
Theorem adapt_without_samples now (meals : list loc) profile (h : store) :
  adapt_meal_plan now meals profile [] h = (h, Ok (meals, [])).
Proof. reflexivity. Qed.

End AdaptationFrame.

(** ** The meal optimizer *)

Section Optimizer.
Import MealOptimizer.

(** C8: whenever the allowance filter leaves no candidate food,
    [optimize_meal_plan] returns (it raises nothing) the failure result
    with success = False and the message "No allowed foods available", for
    every predictor, profile, calorie target and list of meal types. *)
Theorem empty_pool_is_structured_failure (self : predictor) (profile : UserProfile)
    (available_foods : list dict) (target_calories : gmap string Q)
    (meal_types : option (list string)) :
  try_filter (FoodRules.is_food_allowed profile) available_foods = Ok [] ->
  exists r,
    optimize_meal_plan self profile available_foods target_calories meal_types = Ok r
    /\ success r = false
    /\ r = OptFailure "No allowed foods available".
Proof.
  intros Hfilter. unfold optimize_meal_plan.
  rewrite Hfilter. simpl. eexists. repeat split.
Qed.

Lemma empty_pool_is_structured_failure_witness :
  try_filter (FoodRules.is_food_allowed peanut_allergic) [peanut_butter] = Ok []
  /\ exists r,
       optimize_meal_plan None peanut_allergic [peanut_butter] ∅ None = Ok r
       /\ success r = false.
Proof.
  assert (H : try_filter (FoodRules.is_food_allowed peanut_allergic) [peanut_butter]
              = Ok []) by (vm_compute; reflexivity).
  split; [exact H |].
  destruct (empty_pool_is_structured_failure None peanut_allergic [peanut_butter] ∅ None H)
    as (r & Hr & Hs & _).
  exists r. split; assumption.
Defined.

End Optimizer.

(** ** Meals: what the statements of each strategy do to one dictionary *)

Section Meals.
Import MealAdaptationEngine.

Lemma bindD_run {A B} (c : D A) (k : A -> D B) (d : dict) :
  (c ≫= k) d =
  match c d with
  | (d', Ok a) => k a d'
  | (d', Raise e) => (d', Raise e)
  end.
Proof. reflexivity. Qed.

Ltac dict_step :=
  cbv beta iota zeta delta
    [mbind mret D_bind D_ret contains_key imul imul_if_present getitem get lift
     setitem mul_float mul_int add for_in default from_option id
     scale_nutrients nutrients poor_sleep_body high_glucose_body weight_loss_body].

Ltac dict_lookup :=
  repeat first
    [ rewrite lookup_insert_eq
    | rewrite lookup_insert_ne by done
    | match goal with
      | H : ?d !! ?k = _ |- context [?d !! ?k] => rewrite H
      end ].

Ltac dict_run := repeat (progress (dict_step; dict_lookup)).

Lemma imul_if_present_run f k (d : dict) :
  numeric_at d k ->
  imul_if_present f k d =
  (match d !! k with Some v => <[k := scale_value f v]> d | None => d end, Ok tt).
Proof.
  unfold numeric_at. intros Hn.
  destruct (d !! k) as [[q | s | l] |] eqn:E; try done; by dict_run.
Qed.

Lemma scale_keys_run f (keys : list string) (d : dict) :
  NoDup keys -> Forall (numeric_at d) keys ->
  exists d', for_in keys (imul_if_present f) d = (d', Ok tt)
    /\ forall k, d' !! k =
         if decide (k ∈ keys) then scale_value f <$> d !! k else d !! k.
Proof.
  revert d. induction keys as [| k0 keys IH]; intros d Hnd Hnum.
  - exists d. split; [done |]. intros k. by rewrite decide_False by apply not_elem_of_nil.
  - apply NoDup_cons in Hnd as [Hk0 Hnd].
    apply Forall_cons in Hnum as [Hn0 Hnum].
    set (d1 := match d !! k0 with Some v => <[k0 := scale_value f v]> d | None => d end).
    assert (Hd1 : forall k, k <> k0 -> d1 !! k = d !! k).
    { intros k Hk. unfold d1. destruct (d !! k0); [by rewrite lookup_insert_ne | done]. }
    assert (Hd10 : d1 !! k0 = scale_value f <$> d !! k0).
    { unfold d1. destruct (d !! k0) eqn:E; [by rewrite lookup_insert_eq | by rewrite E]. }
    destruct (IH d1 Hnd) as (d' & Hrun & Hlook).
    { apply Forall_forall. intros k Hk. unfold numeric_at.
      rewrite Hd1 by (intros ->; done).
      by eapply Forall_forall in Hnum. }
    exists d'. split.
    + simpl. rewrite bindD_run, imul_if_present_run by done. exact Hrun.
    + intros k. rewrite Hlook.
      destruct (decide (k = k0)) as [-> | Hne].
      * rewrite decide_False by done. rewrite decide_True by apply list_elem_of_here. done.
      * rewrite Hd1 by done.
        destruct (decide (k ∈ keys)).
        -- by rewrite decide_True by (by apply list_elem_of_further).
        -- by rewrite decide_False by (by apply not_elem_of_cons).
Qed.

Lemma numeric_lookup (d : dict) k :
  numeric d -> k ∈ nutrients -> d !! k = None \/ exists q, d !! k = Some (VNum q).
Proof.
  intros Hn Hk. eapply Forall_forall in Hn; [| exact Hk].
  unfold numeric_at in Hn.
  destruct (d !! k) as [[q | |] |]; try done; [right; by exists q | by left].
Qed.

Ltac in_nutrients :=
  unfold nutrients; repeat first [apply list_elem_of_here | apply list_elem_of_further].

Lemma nutrients_NoDup : NoDup nutrients.
Proof. compute_done. Qed.

(** Uniform scaling: every nutrient entry is multiplied, nothing else changes. *)
Lemma scale_nutrients_run f (d : dict) :
  numeric d ->
  succeeds (scale_nutrients f) d
  /\ forall k, effect (scale_nutrients f) d !! k =
       if decide (k ∈ nutrients) then scale_value f <$> d !! k else d !! k.
Proof.
  intros Hn.
  destruct (scale_keys_run f nutrients d nutrients_NoDup Hn) as (d' & Hrun & Hlook).
  unfold succeeds, effect, scale_nutrients. rewrite Hrun. by split.
Qed.

Lemma numeric_intro (d : dict) :
  (forall k, k ∈ nutrients -> d !! k = None \/ exists q, d !! k = Some (VNum q)) ->
  numeric d.
Proof.
  intros H. apply Forall_forall. intros k Hk. unfold numeric_at.
  destruct (H k Hk) as [-> | [q ->]]; done.
Qed.

Lemma scale_nutrients_numeric f (d : dict) :
  numeric d -> numeric (effect (scale_nutrients f) d).
Proof.
  intros Hn. apply numeric_intro. intros k Hk.
  rewrite (proj2 (scale_nutrients_run f d Hn)), decide_True by done.
  destruct (numeric_lookup d k Hn Hk) as [-> | [q ->]]; [by left | right; by eexists].
Qed.

Lemma num_or_zero_scaled f (d : dict) k :
  numeric d -> k ∈ nutrients ->
  num_or_zero (effect (scale_nutrients f) d) k = num_or_zero d k * f
  \/ (d !! k = None /\ num_or_zero (effect (scale_nutrients f) d) k = 0).
Proof.
  intros Hn Hk. unfold num_or_zero.
  rewrite (proj2 (scale_nutrients_run f d Hn)), decide_True by done.
  destruct (numeric_lookup d k Hn Hk) as [E | [q E]]; rewrite E; simpl; auto.
Qed.

Lemma scale_nutrients_consistent f (d : dict) :
  numeric d -> macro_consistent d -> macro_consistent (effect (scale_nutrients f) d).
Proof.
  intros Hn (cal & Hcal & Heq).
  exists (cal * f). split.
  - rewrite (proj2 (scale_nutrients_run f d Hn)), decide_True, Hcal; [done | in_nutrients].
  - assert (H : forall k, k ∈ nutrients ->
       num_or_zero (effect (scale_nutrients f) d) k == num_or_zero d k * f).
    { intros k Hk. destruct (num_or_zero_scaled f d k Hn Hk) as [-> | [E ->]]; [done |].
      unfold num_or_zero. rewrite E. ring. }
    rewrite !H by in_nutrients. rewrite Heq. ring.
Qed.

(** Case analysis on the nutrient entries of a numeric meal. *)
Ltac nutrient_cases d Hn :=
  let H := fresh in
  pose proof (numeric_lookup d "calories" Hn ltac:(in_nutrients)) as [? | [? ?]];
  pose proof (numeric_lookup d "protein" Hn ltac:(in_nutrients)) as [? | [? ?]];
  pose proof (numeric_lookup d "carbs" Hn ltac:(in_nutrients)) as [? | [? ?]];
  pose proof (numeric_lookup d "fat" Hn ltac:(in_nutrients)) as [? | [? ?]].

Ltac numeric_goal :=
  apply numeric_intro; intros ? [-> | [-> | [-> | [-> | []%elem_of_nil]%elem_of_cons]%elem_of_cons]%elem_of_cons]%elem_of_cons;
  dict_lookup; eauto.

Ltac consistent_goal :=
  eexists; split; [dict_lookup; reflexivity |];
  unfold num_or_zero; dict_lookup; simpl; ring.

Lemma poor_sleep_body_run (d : dict) :
  numeric d ->
  succeeds poor_sleep_body d
  /\ numeric (effect poor_sleep_body d)
  /\ macro_consistent (effect poor_sleep_body d).
Proof.
  intros Hn. unfold succeeds, effect.
  nutrient_cases d Hn; dict_run; simpl.
  all: split; [reflexivity |].
  all: split; [numeric_goal | consistent_goal].
Qed.

Lemma high_glucose_body_run rf (d : dict) :
  numeric d ->
  succeeds (high_glucose_body rf) d
  /\ numeric (effect (high_glucose_body rf) d)
  /\ (is_Some (d !! "carbs") -> macro_consistent (effect (high_glucose_body rf) d))
  /\ (d !! "carbs" = None -> effect (high_glucose_body rf) d = d).
Proof.
  intros Hn. unfold succeeds, effect.
  nutrient_cases d Hn; dict_run; simpl.
  all: split; [reflexivity |].
  all: split; [numeric_goal |].
  all: split; [intros [? ?]; try congruence; consistent_goal | try done; congruence].
Qed.

(** The entries of a meal after the HIGH_GLUCOSE statements. *)
Lemma high_glucose_body_entries rf (d : dict) c p f :
  d !! "carbs" = Some (VNum c) -> d !! "protein" = Some (VNum p) ->
  d !! "fat" = Some (VNum f) ->
  high_glucose_body rf d =
    (<["calories" := VNum (p * 1.1 * 4 + c * rf * 4 + f * 9)]>
       (<["protein" := VNum (p * 1.1)]> (<["carbs" := VNum (c * rf)]> d)), Ok tt).
Proof. intros Hc Hp Hf. dict_run. reflexivity. Qed.

Lemma complete_numeric (d : dict) : complete d -> numeric d.
Proof.
  intros Hc. apply numeric_intro. intros k Hk. right. by apply Hc.
Qed.

Ltac complete_cases d Hc :=
  pose proof (Hc "calories" ltac:(in_nutrients)) as [? ?];
  pose proof (Hc "protein" ltac:(in_nutrients)) as [? ?];
  pose proof (Hc "carbs" ltac:(in_nutrients)) as [? ?];
  pose proof (Hc "fat" ltac:(in_nutrients)) as [? ?].

Ltac complete_goal :=
  intros ? [-> | [-> | [-> | [-> | []%elem_of_nil]%elem_of_cons]%elem_of_cons]%elem_of_cons]%elem_of_cons;
  cbn [fst snd]; dict_lookup; eauto.

Lemma strategy_body_complete a tag (d : dict) :
  complete d ->
  succeeds (strategy_body a tag) d /\ complete (meal_effect a tag d).
Proof.
  intros Hc. unfold meal_effect.
  destruct tag; simpl; try (split; [reflexivity | exact Hc]).
  - unfold succeeds, effect. complete_cases d Hc. dict_run.
    split; [reflexivity | complete_goal].
  - pose proof (scale_nutrients_run 0.85 d (complete_numeric d Hc)) as [Hs Hl].
    split; [exact Hs |]. intros k Hk. rewrite Hl, decide_True by done.
    destruct (Hc k Hk) as [q ->]. by eexists.
  - unfold succeeds, effect. complete_cases d Hc. dict_run.
    split; [reflexivity | complete_goal].
  - pose proof (scale_nutrients_run 0.95 d (complete_numeric d Hc)) as [Hs Hl].
    split; [exact Hs |]. intros k Hk. rewrite Hl, decide_True by done.
    destruct (Hc k Hk) as [q ->]. by eexists.
  - repeat case_match.
    + pose proof (scale_nutrients_run 0.9 d (complete_numeric d Hc)) as [Hs Hl].
      split; [exact Hs |]. intros k Hk. rewrite Hl, decide_True by done.
      destruct (Hc k Hk) as [q ->]. by eexists.
    + unfold succeeds, effect. complete_cases d Hc. dict_run.
      split; [reflexivity | complete_goal].
    + split; [reflexivity | exact Hc].
Qed.

(** *** Loops over the meals of a store *)

Lemma at_loc_run (op : D unit) r (h : store) d :
  h !! r = Some d -> succeeds op d ->
  at_loc r op h = (<[r := effect op d]> h, Ok tt).
Proof.
  unfold at_loc, succeeds, effect. intros -> Hs.
  destruct (op d) as [d' x]. simpl in *. by subst.
Qed.

Lemma for_each_at_loc_exact (op : D unit) (refs : list loc) (h : store) :
  NoDup refs -> all_meals (succeeds op) h refs ->
  exists h', for_each refs (fun r => at_loc r op) h = (h', Ok tt)
    /\ length h' = length h
    /\ (forall r, r ∈ refs -> h' !! r = effect op <$> h !! r)
    /\ (forall r, r ∉ refs -> h' !! r = h !! r).
Proof.
  revert h. induction refs as [| r0 refs IH]; intros h Hnd Hall.
  - exists h. split; [done |]. split; [done |]. split; [| done].
    intros r Hr. by apply elem_of_nil in Hr.
  - apply NoDup_cons in Hnd as [Hr0 Hnd].
    destruct (Hall r0) as (d0 & Hd0 & Hs0); [by left |].
    pose proof (lookup_lt_Some _ _ _ Hd0) as Hlt.
    destruct (IH (<[r0 := effect op d0]> h) Hnd) as (h' & Hrun & Hlen & Hin & Hout).
    { intros r Hr. destruct (Hall r) as (d & Hd & Hs); [by right |].
      exists d. split; [| done].
      rewrite list_lookup_insert_ne by (by intros ->). done. }
    exists h'. split; [| split; [| split]].
    + simpl. rewrite bind_run, (at_loc_run op r0 h d0) by done. exact Hrun.
    + by rewrite Hlen, length_insert.
    + intros r [-> | Hr]%elem_of_cons.
      * rewrite Hout by done. by rewrite list_lookup_insert_eq, Hd0.
      * rewrite Hin by done. rewrite list_lookup_insert_ne by (by intros ->). done.
    + intros r Hr. apply not_elem_of_cons in Hr as [Hne Hr].
      rewrite Hout by done. by rewrite list_lookup_insert_ne.
Qed.

(** The invariant form, which tolerates meals that occur twice in the list. *)
Lemma for_each_at_loc_invariant (op : D unit) (I J : dict -> Prop)
    (refs : list loc) (h : store) :
  (forall d, I d -> succeeds op d /\ J (effect op d)) ->
  (forall d, J d -> I d) ->
  all_meals I h refs ->
  exists h', for_each refs (fun r => at_loc r op) h = (h', Ok tt)
    /\ all_meals J h' refs
    /\ (forall r, r ∉ refs -> h' !! r = h !! r).
Proof.
  intros Hop HJI. revert h. induction refs as [| r0 refs IH]; intros h Hall.
  - exists h. split; [done |]. split; [| done]. intros r Hr. by apply elem_of_nil in Hr.
  - destruct (Hall r0) as (d0 & Hd0 & HI0); [by left |].
    destruct (Hop d0 HI0) as [Hs0 HJ0].
    pose proof (lookup_lt_Some _ _ _ Hd0) as Hlt.
    destruct (IH (<[r0 := effect op d0]> h)) as (h' & Hrun & HallJ & Hout).
    { intros r Hr. destruct (Hall r) as (d & Hd & HI); [by right |].
      destruct (decide (r = r0)) as [-> | Hne].
      - exists (effect op d0). rewrite list_lookup_insert_eq by done. auto.
      - exists d. by rewrite list_lookup_insert_ne. }
    exists h'. split; [| split].
    + simpl. rewrite bind_run, (at_loc_run op r0 h d0) by done. exact Hrun.
    + intros r [-> | Hr]%elem_of_cons; [| by apply HallJ].
      destruct (decide (r0 ∈ refs)) as [Hin | Hnin]; [by apply HallJ |].
      exists (effect op d0). rewrite Hout by done.
      by rewrite list_lookup_insert_eq.
    + intros r Hr. apply not_elem_of_cons in Hr as [Hne Hr].
      rewrite Hout by done. by rewrite list_lookup_insert_ne.
Qed.

(** *** The strategies on a store *)

Lemma trends_getitem_run a metric info (h : store) :
  trends a !! metric = Some info -> trends_getitem a metric h = (h, Ok info).
Proof. unfold trends_getitem, lift_result. by intros ->. Qed.

Lemma info_getitem_run info key q (h : store) :
  numbers info !! key = Some q -> info_getitem info key h = (h, Ok q).
Proof. unfold info_getitem, lift_result. by intros ->. Qed.

Lemma trend_number_eq a metric key info q :
  trends a !! metric = Some info -> numbers info !! key = Some q ->
  trend_number a metric key = q.
Proof. unfold trend_number. by intros -> ->. Qed.

Lemma all_meals_impl (P P' : dict -> Prop) (h : store) (meals : list loc) :
  (forall d, P d -> P' d) -> all_meals P h meals -> all_meals P' h meals.
Proof. intros HP Hall r Hr. destruct (Hall r Hr) as (d & ? & ?). eauto. Qed.

Lemma all_meals_succeed a tag (h : store) (meals : list loc) :
  all_meals complete h meals -> all_meals (succeeds (strategy_body a tag)) h meals.
Proof. apply all_meals_impl. intros d Hd. by apply strategy_body_complete. Qed.

(** Each strategy runs the statements of its tag on every meal, returns
    the list it was given, and touches nothing else. *)
Lemma strategy_effect tag strat a profile (meals : list loc) (h : store) :
  adaptation_strategies tag = Some strat ->
  has_entries a tag ->
  NoDup meals -> all_meals complete h meals ->
  exists h' expl, strat meals a profile h = (h', Ok (meals, expl))
    /\ length h' = length h
    /\ (forall r, r ∈ meals -> h' !! r = meal_effect a tag <$> h !! r)
    /\ (forall r, r ∉ meals -> h' !! r = h !! r).
Proof.
  intros Hs He Hnd Hall.
  pose proof (for_each_at_loc_exact (strategy_body a tag) meals h Hnd
                (all_meals_succeed a tag h meals Hall))
    as (h' & Hrun & Hlen & Hin & Hout).
  destruct tag; simplify_eq/=; try destruct He as (info & q & Htr & Hq).
  - exists h', (ExplHighGlucose (glucose_reduction_factor a) q).
    split; [| done].
    unfold _adapt_for_high_glucose.
    rewrite bind_run, (trends_getitem_run _ _ _ _ Htr).
    rewrite bind_run, (info_getitem_run _ _ _ _ Hq).
    unfold glucose_reduction_factor in *.
    rewrite (trend_number_eq _ _ _ _ _ Htr Hq) in *.
    rewrite bind_run, Hrun.
    by rewrite bind_run, (info_getitem_run _ _ _ _ Hq).
  - exists h', (ExplLowActivity q). split; [| done].
    unfold _adapt_for_low_activity.
    rewrite bind_run, (trends_getitem_run _ _ _ _ Htr).
    rewrite bind_run, Hrun.
    by rewrite bind_run, (info_getitem_run _ _ _ _ Hq).
  - exists h', (ExplPoorSleep q). split; [| done].
    unfold _adapt_for_poor_sleep.
    rewrite bind_run, (trends_getitem_run _ _ _ _ Htr).
    rewrite bind_run, Hrun.
    by rewrite bind_run, (info_getitem_run _ _ _ _ Hq).
  - exists h', (ExplHighStress q). split; [| done].
    unfold _adapt_for_high_stress.
    rewrite bind_run, (trends_getitem_run _ _ _ _ Htr).
    rewrite bind_run, Hrun.
    by rewrite bind_run, (info_getitem_run _ _ _ _ Hq).
  - unfold _adapt_for_weight_change, meal_effect in *. simpl in *.
    rewrite bind_run, (trends_getitem_run _ _ _ _ Htr).
    rewrite bind_run, (info_getitem_run _ _ _ _ Hq).
    rewrite (trend_number_eq _ _ _ _ _ Htr Hq) in *.
    destruct (Qlt_bool 1 q); [| destruct (Qlt_bool q (-1))].
    + exists h', (ExplWeightGain q). split; [| done]. by rewrite bind_run, Hrun.
    + exists h', (ExplWeightLoss (Py.abs q)). split; [| done]. by rewrite bind_run, Hrun.
    + exists h, ExplEmpty. split; [done |]. split; [done |]. split; [| done].
      intros r Hr. destruct (Hall r Hr) as (d & -> & _). done.
Qed.

Lemma apply_adaptations_effect tags a profile (meals : list loc) made (h : store) :
  (forall tag, tag ∈ tags -> has_entries a tag) ->
  NoDup meals -> all_meals complete h meals ->
  exists h' expl, apply_adaptations tags a profile meals made h = (h', Ok (meals, expl))
    /\ length h' = length h
    /\ (forall r, r ∈ meals -> h' !! r = meal_effects a tags <$> h !! r)
    /\ (forall r, r ∉ meals -> h' !! r = h !! r).
Proof.
  intros He Hnd. revert made h.
  induction tags as [| tag tags IH]; intros made h Hall.
  - exists h, made. split; [done |]. split; [done |]. split; [| done].
    intros r Hr. destruct (Hall r Hr) as (d & -> & _). done.
  - assert (Hstep : exists h1, length h1 = length h
              /\ (forall r, r ∈ meals -> h1 !! r = meal_effect a tag <$> h !! r)
              /\ (forall r, r ∉ meals -> h1 !! r = h !! r)
              /\ forall made', exists made1,
                   apply_adaptations (tag :: tags) a profile meals made' h
                   = apply_adaptations tags a profile meals made1 h1).
    { destruct (adaptation_strategies tag) as [strat |] eqn:Hs.
      - destruct (strategy_effect tag strat a profile meals h Hs) as
          (h1 & expl & Hrun & Hlen & Hin & Hout); [apply He; by left | done | done |].
        exists h1. split; [done |]. split; [done |]. split; [done |].
        intros made'. eexists. simpl. rewrite Hs, bind_run, Hrun. reflexivity.
      - exists h. split; [done |]. split; [| split; [done |]].
        + intros r Hr. destruct (Hall r Hr) as (d & -> & _).
          by destruct tag.
        + intros made'. exists made'. simpl. by rewrite Hs. }
    destruct Hstep as (h1 & Hlen1 & Hin1 & Hout1 & Hrun1).
    destruct (Hrun1 made) as [made1 Hrun].
    destruct (IH (fun t Ht => He t (list_elem_of_further _ _ _ Ht)) made1 h1)
      as (h' & expl & Hrun' & Hlen' & Hin' & Hout').
    { intros r Hr. destruct (Hall r Hr) as (d & Hd & Hc).
      exists (meal_effect a tag d). split; [by rewrite Hin1, Hd |].
      by apply strategy_body_complete. }
    exists h', expl. split; [by rewrite Hrun |]. split; [congruence |]. split.
    + intros r Hr. rewrite Hin', Hin1 by done.
      by destruct (h !! r).
    + intros r Hr. by rewrite Hout', Hout1.
Qed.

Lemma list_comp_copy (meals : list loc) (h : store) :
  (forall r, r ∈ meals -> is_Some (h !! r)) ->
  exists ds, list_comp copy meals h = (h ++ ds, Ok (seq (length h) (length meals)))
    /\ length ds = length meals
    /\ forall i r, meals !! i = Some r -> ds !! i = h !! r.
Proof.
  revert h. induction meals as [| r0 meals IH]; intros h Hall.
  - exists []. rewrite app_nil_r. by repeat split.
  - destruct (Hall r0) as [d0 Hd0]; [by left |].
    destruct (IH (h ++ [d0])) as (ds & Hrun & Hlen & Hds).
    { intros r Hr. destruct (Hall r) as [d Hd]; [by right |].
      exists d. by apply lookup_app_l_Some. }
    exists (d0 :: ds). split; [| split].
    + simpl. rewrite bind_run. unfold copy at 1. rewrite Hd0.
      rewrite bind_run, Hrun. rewrite length_app, <- app_assoc. simpl.
      by rewrite Nat.add_1_r.
    + simpl. by rewrite Hlen.
    + intros [| i] r Hi; simpl in *.
      * by simplify_eq.
      * rewrite (Hds i r Hi).
        destruct (Hall r) as [d Hd]; [right; by eapply list_elem_of_lookup_2 |].
        rewrite Hd. by apply lookup_app_l_Some.
Qed.
End Meals.

(** ** The analyzer: tags and the entries their strategies read *)

Section Analyzer.
Import BiometricAnalyzer.

Lemma glucose_tags rd tag :
  tag ∈ adaptations (_analyze_glucose_trends rd) ->
  tag = HIGH_GLUCOSE
  /\ numbers (_analyze_glucose_trends rd) !! "maximum"
     = Some (np_max (present glucose_mg_dl rd)).
Proof.
  unfold _analyze_glucose_trends.
  destruct (present glucose_mg_dl rd) as [| g gs]; simpl; [by intros ?%elem_of_nil |].
  destruct (Qlt_bool glucose_high _); simpl; [| by intros ?%elem_of_nil].
  intros ->%list_elem_of_singleton. done.
Qed.

Lemma activity_tags rd tag :
  tag ∈ adaptations (_analyze_activity_trends rd) ->
  tag = LOW_ACTIVITY
  /\ numbers (_analyze_activity_trends rd) !! "average_steps"
     = Some (mean (map inject_Z (present steps rd))).
Proof.
  unfold _analyze_activity_trends.
  destruct (map inject_Z (present steps rd)) as [| g gs]; simpl; [by intros ?%elem_of_nil |].
  destruct (Qlt_bool _ steps_low); simpl; [| by intros ?%elem_of_nil].
  intros ->%list_elem_of_singleton. done.
Qed.

Lemma sleep_tags rd tag :
  tag ∈ adaptations (_analyze_sleep_trends rd) ->
  tag = POOR_SLEEP
  /\ numbers (_analyze_sleep_trends rd) !! "average_hours"
     = Some (mean (present sleep_hours rd)).
Proof.
  unfold _analyze_sleep_trends.
  destruct (present sleep_hours rd) as [| g gs]; simpl; [by intros ?%elem_of_nil |].
  destruct (Qlt_bool _ sleep_poor); simpl; [| by intros ?%elem_of_nil].
  intros ->%list_elem_of_singleton. done.
Qed.

Lemma heart_rate_tags rd tag :
  tag ∈ adaptations (_analyze_heart_rate_trends rd) ->
  tag = HIGH_STRESS
  /\ numbers (_analyze_heart_rate_trends rd) !! "average_bpm"
     = Some (mean (map inject_Z (present heart_rate rd))).
Proof.
  unfold _analyze_heart_rate_trends.
  destruct (map inject_Z (present heart_rate rd)) as [| g gs]; simpl;
    [by intros ?%elem_of_nil |].
  destruct (Qlt_bool heart_rate_high _), (Qlt_bool (20 * 20) _); simpl;
    intros H; repeat (apply elem_of_cons in H as [-> | H]; [done |]);
    by apply elem_of_nil in H.
Qed.

Lemma weight_tags rd tag :
  tag ∈ adaptations (_analyze_weight_trends rd) ->
  tag = WEIGHT_CHANGE
  /\ is_Some (numbers (_analyze_weight_trends rd) !! "total_change_kg").
Proof.
  unfold _analyze_weight_trends.
  destruct (length (present weight_kg rd) <? 2)%nat; simpl; [by intros ?%elem_of_nil |].
  destruct (Qlt_bool weight_change_significant _); simpl; [| by intros ?%elem_of_nil].
  intros ->%list_elem_of_singleton. split; [done |]. by rewrite lookup_insert_eq.
Qed.

Lemma record_metric_trends key t acc :
  (record_metric key t acc).1.1 = <[key := t]> acc.1.1.
Proof. destruct acc as [[trs als] ads]. simpl. by destruct (alerts t). Qed.

Lemma record_metric_adaptations key t acc :
  tags_need_alerts t ->
  (record_metric key t acc).2 = acc.2 ++ adaptations t.
Proof.
  intros Ht. destruct acc as [[trs als] ads]. simpl.
  destruct (alerts t) eqn:E; simpl; [| done].
  by rewrite Ht, app_nil_r.
Qed.

Lemma glucose_tags_need_alerts rd : tags_need_alerts (_analyze_glucose_trends rd).
Proof.
  unfold tags_need_alerts, _analyze_glucose_trends.
  destruct (present glucose_mg_dl rd); simpl; [done |].
  destruct (Qlt_bool glucose_high _), (Qlt_bool _ glucose_low); simpl; done.
Qed.

Lemma activity_tags_need_alerts rd : tags_need_alerts (_analyze_activity_trends rd).
Proof.
  unfold tags_need_alerts, _analyze_activity_trends.
  destruct (map inject_Z (present steps rd)); simpl; [done |].
  destruct (Qlt_bool _ steps_low), (Qlt_bool _ (var _)); simpl; done.
Qed.

Lemma sleep_tags_need_alerts rd : tags_need_alerts (_analyze_sleep_trends rd).
Proof.
  unfold tags_need_alerts, _analyze_sleep_trends.
  destruct (present sleep_hours rd); simpl; [done |].
  destruct (Qlt_bool _ sleep_poor), (Qlt_bool 5 _); simpl; done.
Qed.

Lemma heart_rate_tags_need_alerts rd : tags_need_alerts (_analyze_heart_rate_trends rd).
Proof.
  unfold tags_need_alerts, _analyze_heart_rate_trends.
  destruct (map inject_Z (present heart_rate rd)); simpl; [done |].
  destruct (Qlt_bool heart_rate_high _), (Qlt_bool (20 * 20) _); simpl; done.
Qed.

Lemma weight_tags_need_alerts rd : tags_need_alerts (_analyze_weight_trends rd).
Proof.
  unfold tags_need_alerts, _analyze_weight_trends.
  destruct (length (present weight_kg rd) <? 2)%nat; simpl; [done |].
  destruct (Qlt_bool weight_change_significant _); simpl; done.
Qed.

Lemma analyze_recent_trends rd :
  (analyze_recent rd).1.1 =
  <["weight" := _analyze_weight_trends rd]>
    (<["heart_rate" := _analyze_heart_rate_trends rd]>
       (<["sleep" := _analyze_sleep_trends rd]>
          (<["activity" := _analyze_activity_trends rd]>
             (<["glucose" := _analyze_glucose_trends rd]> ∅)))).
Proof. unfold analyze_recent. by rewrite !record_metric_trends. Qed.

Lemma analyze_recent_adaptations rd :
  (analyze_recent rd).2 =
  adaptations (_analyze_glucose_trends rd)
  ++ adaptations (_analyze_activity_trends rd)
  ++ adaptations (_analyze_sleep_trends rd)
  ++ adaptations (_analyze_heart_rate_trends rd)
  ++ adaptations (_analyze_weight_trends rd).
Proof.
  unfold analyze_recent.
  rewrite !record_metric_adaptations
    by first [ apply glucose_tags_need_alerts | apply activity_tags_need_alerts
             | apply sleep_tags_need_alerts | apply heart_rate_tags_need_alerts
             | apply weight_tags_need_alerts ].
  simpl. by rewrite <- !app_assoc.
Qed.

(** The analysis of a history whose recent window is not empty. *)
Lemma analyze_biometric_trends_recent now bio days :
  recent_data now bio days <> [] ->
  trends (analyze_biometric_trends now bio days)
    = (analyze_recent (recent_data now bio days)).1.1
  /\ adaptations_needed (analyze_biometric_trends now bio days)
    = (analyze_recent (recent_data now bio days)).2.
Proof.
  unfold analyze_biometric_trends.
  destruct bio as [| b bio]; [done |].
  destruct (recent_data now (b :: bio) days) as [| r rd] eqn:E; [done |].
  intros _. by destruct (analyze_recent (r :: rd)) as [[trs als] ads].
Qed.

Lemma tags_need_recent_data now bio days :
  adaptations_needed (analyze_biometric_trends now bio days) <> [] ->
  recent_data now bio days <> [].
Proof.
  unfold analyze_biometric_trends.
  destruct bio as [| b bio]; [done |].
  by destruct (recent_data now (b :: bio) days).
Qed.

Lemma tag_has_entries now bio days tag :
  tag ∈ adaptations_needed (analyze_biometric_trends now bio days) ->
  has_entries (analyze_biometric_trends now bio days) tag.
Proof.
  intros Htag.
  destruct (analyze_biometric_trends_recent now bio days) as [Htr Had].
  { apply tags_need_recent_data. intros E. rewrite E in Htag.
    by apply elem_of_nil in Htag. }
  rewrite Had, analyze_recent_adaptations in Htag.
  rewrite analyze_recent_trends in Htr.
  set (rd := recent_data now bio days) in *.
  rewrite !elem_of_app in Htag.
  destruct Htag as [H | [H | [H | [H | H]]]].
  - apply glucose_tags in H as [-> Hn]. do 2 eexists. rewrite Htr. split; [| exact Hn].
    repeat (rewrite lookup_insert_ne by done). by rewrite lookup_insert_eq.
  - apply activity_tags in H as [-> Hn]. do 2 eexists. rewrite Htr. split; [| exact Hn].
    repeat (rewrite lookup_insert_ne by done). by rewrite lookup_insert_eq.
  - apply sleep_tags in H as [-> Hn]. do 2 eexists. rewrite Htr. split; [| exact Hn].
    repeat (rewrite lookup_insert_ne by done). by rewrite lookup_insert_eq.
  - apply heart_rate_tags in H as [-> Hn]. do 2 eexists. rewrite Htr. split; [| exact Hn].
    repeat (rewrite lookup_insert_ne by done). by rewrite lookup_insert_eq.
  - apply weight_tags in H as [-> [q Hn]]. do 2 eexists. rewrite Htr. split; [| exact Hn].
    by rewrite lookup_insert_eq.
Qed.

End Analyzer.

(** ** The adaptation pipeline *)

Section Pipeline.
Import BiometricAnalyzer MealAdaptationEngine.

(** [adapt_meal_plan], when a tag was raised: every input meal is copied to
    a new object, and the copy is what the strategies of the tags, applied
    in emission order, make of the meal; the input objects keep their
    entries. *)
Theorem adapt_meal_plan_effect now (meals : list loc) profile bio (h : store) :
  let a := analyze_biometric_trends now bio 7 in
  adaptations_needed a <> [] ->
  all_meals complete h meals ->
  exists h' expl,
    adapt_meal_plan now meals profile bio h
      = (h', Ok (seq (length h) (length meals), expl))
    /\ (forall i r d, meals !! i = Some r -> h !! r = Some d ->
          h' !! (length h + i)%nat = Some (meal_effects a (adaptations_needed a) d))
    /\ (forall r d, h !! r = Some d -> h' !! r = Some d).
Proof.
  intros a Hne Hall. unfold adapt_meal_plan. fold a.
  destruct (adaptations_needed a) as [| tag tags] eqn:Htags; [done |].
  rewrite <- Htags. clear Hne.
  destruct (list_comp_copy meals h) as (ds & Hcopy & Hlen & Hds).
  { intros r Hr. destruct (Hall r Hr) as (d & -> & _). by eexists. }
  assert (Hfresh : forall r, r ∈ seq (length h) (length meals) ->
            exists i r0 d, r = (length h + i)%nat /\ meals !! i = Some r0
                           /\ h !! r0 = Some d /\ (h ++ ds) !! r = Some d /\ complete d).
  { intros r Hr. apply elem_of_seq in Hr.
    destruct (lookup_lt_is_Some_2 meals (r - length h)) as [r0 Hr0]; [lia |].
    destruct (Hall r0) as (d & Hd & Hc); [by eapply list_elem_of_lookup_2 |].
    exists (r - length h)%nat, r0, d. split; [lia |]. split; [done |]. split; [done |].
    split; [| done].
    rewrite lookup_app_r by lia. by rewrite (Hds _ _ Hr0). }
  destruct (apply_adaptations_effect (adaptations_needed a) a profile
              (seq (length h) (length meals)) [] (h ++ ds))
    as (h' & expl & Hrun & Hlen' & Hin & Hout).
  { intros t Ht. by apply tag_has_entries. }
  { apply NoDup_seq. }
  { intros r Hr. destruct (Hfresh r Hr) as (i & r0 & d & _ & _ & _ & Hd & Hc). eauto. }
  exists h', expl. split; [| split].
  - by rewrite bind_run, Hcopy.
  - intros i r d Hi Hd.
    pose proof (lookup_lt_Some _ _ _ Hi) as Hlt.
    rewrite Hin by (apply elem_of_seq; lia).
    rewrite lookup_app_r by lia.
    replace (length h + i - length h)%nat with i by lia.
    by rewrite (Hds _ _ Hi), Hd.
  - intros r d Hd.
    pose proof (lookup_lt_Some _ _ _ Hd) as Hlt.
    rewrite Hout by (rewrite elem_of_seq; lia).
    by apply lookup_app_l_Some.
Qed.
End Pipeline.

(** ** The adaptation rules *)

Section AdaptationRules.
Import BiometricAnalyzer MealAdaptationEngine.

Lemma meal_effects_app a tags1 tags2 (d : dict) :
  meal_effects a (tags1 ++ tags2) d = meal_effects a tags2 (meal_effects a tags1 d).
Proof. unfold meal_effects. apply foldl_app. Qed.

Lemma meal_effects_complete a tags (d : dict) :
  complete d -> complete (meal_effects a tags d).
Proof.
  revert d. induction tags as [| tag tags IH]; intros d Hc; [done |].
  simpl. apply IH. by apply strategy_body_complete.
Qed.

Lemma mean_nil : mean [] == 0.
Proof. reflexivity. Qed.

Lemma present_nil {A} (f : BiometricData -> option A) : present f [] = [].
Proof. reflexivity. Qed.

(** Two uniform scalings in a row. *)
Lemma scaled_twice f (d : dict) :
  numeric d ->
  let d2 := effect (scale_nutrients f) (effect (scale_nutrients f) d) in
  (forall k q, k ∈ nutrients -> d !! k = Some (VNum q) ->
     d2 !! k = Some (VNum (q * f * f)))
  /\ (forall k, k ∉ nutrients -> d2 !! k = d !! k).
Proof.
  intros Hn d2. unfold d2.
  pose proof (scale_nutrients_numeric f d Hn) as Hn1.
  split.
  - intros k q Hk Hq.
    rewrite (proj2 (scale_nutrients_run f _ Hn1)), decide_True by done.
    rewrite (proj2 (scale_nutrients_run f _ Hn)), decide_True by done.
    by rewrite Hq.
  - intros k Hk.
    rewrite (proj2 (scale_nutrients_run f _ Hn1)), decide_False by done.
    by rewrite (proj2 (scale_nutrients_run f _ Hn)), decide_False by done.
Qed.

(** C5: when the heart rates of the recent window average above the
    threshold of 100 bpm and deviate by more than 20 bpm (variance above
    20^2), the heart-rate analysis emits HIGH_STRESS twice; the two tags sit
    next to each other in the tag list of the analysis, after the glucose,
    activity and sleep tags and before the weight tag, and nowhere else;
    and [adapt_meal_plan] applies the stress strategy once per occurrence:
    in every returned meal each of calories, protein, carbs and fat was
    multiplied by 0.95 twice (by 0.9025) between the earlier and the later
    strategies. *)
Theorem high_stress_applied_twice now bio (meals : list loc) profile (h : store) :
  let rd := recent_data now bio 7 in
  let hr := map inject_Z (present heart_rate rd) in
  let a := analyze_biometric_trends now bio 7 in
  heart_rate_high < mean hr ->
  20 * 20 < var hr ->
  all_meals complete h meals ->
  adaptations (_analyze_heart_rate_trends rd) = [HIGH_STRESS; HIGH_STRESS]
  /\ exists before after,
       adaptations_needed a = before ++ [HIGH_STRESS; HIGH_STRESS] ++ after
       /\ (HIGH_STRESS ∉ before) /\ (HIGH_STRESS ∉ after)
       /\ exists h' expl,
            adapt_meal_plan now meals profile bio h
              = (h', Ok (seq (length h) (length meals), expl))
            /\ forall i r d, meals !! i = Some r -> h !! r = Some d ->
                 exists d0 d2,
                   d0 = meal_effects a before d
                   /\ d2 = meal_effect a HIGH_STRESS (meal_effect a HIGH_STRESS d0)
                   /\ h' !! (length h + i)%nat = Some (meal_effects a after d2)
                   /\ (forall k, k ∈ nutrients ->
                        exists q, d0 !! k = Some (VNum q)
                                  /\ d2 !! k = Some (VNum (q * 0.95 * 0.95))
                                  /\ q * 0.95 * 0.95 == q * 0.9025)
                   /\ (forall k, k ∉ nutrients -> d2 !! k = d0 !! k).
Proof.
  intros rd hr a Havg Hvar Hall. subst hr.
  assert (Hhr : adaptations (_analyze_heart_rate_trends rd) = [HIGH_STRESS; HIGH_STRESS]).
  { unfold _analyze_heart_rate_trends.
    destruct (map inject_Z (present heart_rate rd)) as [| x hr'];
      [vm_compute in Havg; discriminate Havg |].
    apply Qlt_bool_iff in Havg, Hvar. by rewrite Havg, Hvar. }
  split; [exact Hhr |].
  assert (Hrd : rd <> []).
  { intros E. rewrite E in Havg. vm_compute in Havg. discriminate Havg. }
  destruct (analyze_biometric_trends_recent now bio 7 Hrd) as [_ Had].
  fold a rd in Had. rewrite analyze_recent_adaptations, Hhr in Had.
  exists (adaptations (_analyze_glucose_trends rd)
          ++ adaptations (_analyze_activity_trends rd)
          ++ adaptations (_analyze_sleep_trends rd)),
         (adaptations (_analyze_weight_trends rd)).
  split; [by rewrite Had, <- !app_assoc |].
  split.
  { rewrite !elem_of_app.
    intros [H | [H | H]];
      [apply glucose_tags in H | apply activity_tags in H | apply sleep_tags in H];
      by destruct H. }
  split.
  { intros H. apply weight_tags in H. by destruct H. }
  destruct (adapt_meal_plan_effect now meals profile bio h) as (h' & expl & Hrun & Hin & _).
  { fold a. rewrite Had. intros E. apply (f_equal length) in E.
    rewrite !length_app in E. simpl in E. lia. }
  { exact Hall. }
  exists h', expl. split; [exact Hrun |].
  intros i r d Hi Hd. fold a in Hin.
  destruct (Hall r) as (d' & Hd' & Hc); [by eapply list_elem_of_lookup_2 |].
  simplify_eq.
  set (before := adaptations (_analyze_glucose_trends rd)
          ++ adaptations (_analyze_activity_trends rd)
          ++ adaptations (_analyze_sleep_trends rd)) in *.
  pose proof (meal_effects_complete a before d Hc) as Hc0.
  eexists _, _. split; [reflexivity |]. split; [reflexivity |].
  split.
  { rewrite (Hin i r d Hi Hd), Had.
    replace (adaptations (_analyze_glucose_trends rd)
             ++ adaptations (_analyze_activity_trends rd)
             ++ adaptations (_analyze_sleep_trends rd)
             ++ [HIGH_STRESS; HIGH_STRESS]
             ++ adaptations (_analyze_weight_trends rd))
      with (before ++ [HIGH_STRESS; HIGH_STRESS]
            ++ adaptations (_analyze_weight_trends rd))
      by (unfold before; by rewrite <- !app_assoc).
    by rewrite !meal_effects_app. }
  destruct (scaled_twice 0.95 _ (complete_numeric _ Hc0)) as [Hk Hother].
  split; [| exact Hother].
  intros k Hkn. destruct (Hc0 k Hkn) as [q Hq].
  exists q. split; [exact Hq |]. split; [by apply Hk | ring].
Qed.

(** The analysis of a history whose peak glucose exceeds the threshold. *)
Lemma high_glucose_analysis now bio :
  let a := analyze_biometric_trends now bio 7 in
  let peak := np_max (present glucose_mg_dl (recent_data now bio 7)) in
  glucose_high < peak ->
  head (adaptations_needed a) = Some HIGH_GLUCOSE
  /\ exists info, trends a !! "glucose" = Some info
                  /\ numbers info !! "maximum" = Some peak.
Proof.
  intros a peak Hpeak. subst peak.
  set (rd := recent_data now bio 7) in *.
  assert (Hrd : rd <> []).
  { intros E. rewrite E in Hpeak. vm_compute in Hpeak. discriminate Hpeak. }
  destruct (analyze_biometric_trends_recent now bio 7 Hrd) as [Htr Had].
  fold a rd in Htr, Had.
  rewrite analyze_recent_adaptations in Had. rewrite analyze_recent_trends in Htr.
  assert (Htag : HIGH_GLUCOSE ∈ adaptations (_analyze_glucose_trends rd)
                 /\ head (adaptations (_analyze_glucose_trends rd)) = Some HIGH_GLUCOSE).
  { unfold _analyze_glucose_trends.
    destruct (present glucose_mg_dl rd) as [| g gs];
      [vm_compute in Hpeak; discriminate Hpeak |].
    apply Qlt_bool_iff in Hpeak. rewrite Hpeak. simpl. split; [by left | done]. }
  destruct Htag as [Htag Hhead].
  split.
  - rewrite Had. destruct (adaptations (_analyze_glucose_trends rd)); [done |].
    exact Hhead.
  - apply glucose_tags in Htag as [_ Hn].
    eexists. split; [| exact Hn].
    rewrite Htr. repeat (rewrite lookup_insert_ne by done). by rewrite lookup_insert_eq.
Qed.

(** The HIGH_GLUCOSE strategy on a store, for a given analysis. *)
Lemma adapt_for_high_glucose_run a info peak profile (meals : list loc) (h : store) :
  trends a !! "glucose" = Some info -> numbers info !! "maximum" = Some peak ->
  NoDup meals -> all_meals complete h meals ->
  let rf := if Qlt_bool 160 peak then 0.7 else 0.8 in
  exists h',
    _adapt_for_high_glucose meals a profile h = (h', Ok (meals, ExplHighGlucose rf peak))
    /\ forall r d c p f,
         r ∈ meals -> h !! r = Some d ->
         d !! "carbs" = Some (VNum c) -> d !! "protein" = Some (VNum p) ->
         d !! "fat" = Some (VNum f) ->
         exists d', h' !! r = Some d'
                    /\ d' !! "carbs" = Some (VNum (c * rf))
                    /\ d' !! "protein" = Some (VNum (p * 1.1))
                    /\ d' !! "fat" = Some (VNum f)
                    /\ d' !! "calories" = Some (VNum (p * 1.1 * 4 + c * rf * 4 + f * 9)).
Proof.
  intros Htr Hq Hnd Hall rf.
  pose proof (for_each_at_loc_exact (high_glucose_body rf) meals h Hnd) as Hloop.
  destruct Hloop as (h' & Hrun & _ & Hin & _).
  { eapply all_meals_impl; [| exact Hall].
    intros d Hd. by apply high_glucose_body_run, complete_numeric. }
  exists h'. split.
  - unfold _adapt_for_high_glucose.
    rewrite bind_run, (trends_getitem_run _ _ _ _ Htr).
    rewrite bind_run, (info_getitem_run _ _ _ _ Hq).
    fold rf. rewrite bind_run, Hrun.
    by rewrite bind_run, (info_getitem_run _ _ _ _ Hq).
  - intros r d c p f Hr Hd Hc Hp Hf.
    rewrite (Hin r Hr), Hd. simpl. eexists. split; [reflexivity |].
    unfold effect. rewrite (high_glucose_body_entries rf d c p f Hc Hp Hf). simpl.
    repeat split;
      repeat (rewrite lookup_insert_ne by done); by rewrite ?lookup_insert_eq.
Qed.

(** C6: for two histories whose recent glucose readings peak at 150 and at
    170 mg/dL, with the same meals, HIGH_GLUCOSE is the first tag in both
    cases, and its strategy multiplies every meal's carbs by 0.8 in the first
    case and by 0.7 in the second (a strictly larger cut for positive
    carbs), multiplies protein by 1.1 in both, and sets calories to
    protein*4 + carbs*4 + fat*9 of the new values. *)
Theorem glucose_rule_150_vs_170 now bio150 bio170 profile (meals : list loc) (h : store) :
  let a150 := analyze_biometric_trends now bio150 7 in
  let a170 := analyze_biometric_trends now bio170 7 in
  np_max (present glucose_mg_dl (recent_data now bio150 7)) == 150 ->
  np_max (present glucose_mg_dl (recent_data now bio170 7)) == 170 ->
  NoDup meals ->
  all_meals complete h meals ->
  head (adaptations_needed a150) = Some HIGH_GLUCOSE
  /\ head (adaptations_needed a170) = Some HIGH_GLUCOSE
  /\ exists h150 h170 e150 e170,
       _adapt_for_high_glucose meals a150 profile h = (h150, Ok (meals, e150))
       /\ _adapt_for_high_glucose meals a170 profile h = (h170, Ok (meals, e170))
       /\ forall r d c p f,
            r ∈ meals -> h !! r = Some d ->
            d !! "carbs" = Some (VNum c) -> d !! "protein" = Some (VNum p) ->
            d !! "fat" = Some (VNum f) ->
            exists d150 d170,
              h150 !! r = Some d150 /\ h170 !! r = Some d170
              /\ d150 !! "carbs" = Some (VNum (c * 0.8))
              /\ d170 !! "carbs" = Some (VNum (c * 0.7))
              /\ (0 < c -> c * 0.7 < c * 0.8)
              /\ d150 !! "protein" = Some (VNum (p * 1.1))
              /\ d170 !! "protein" = Some (VNum (p * 1.1))
              /\ d150 !! "calories" = Some (VNum (p * 1.1 * 4 + c * 0.8 * 4 + f * 9))
              /\ d170 !! "calories" = Some (VNum (p * 1.1 * 4 + c * 0.7 * 4 + f * 9))
              /\ macro_consistent d150 /\ macro_consistent d170.
Proof.
  intros a150 a170 H150 H170 Hnd Hall.
  destruct (high_glucose_analysis now bio150) as (Hhead1 & info1 & Htr1 & Hq1).
  { unfold glucose_high, Config.HIGH_GLUCOSE_THRESHOLD. rewrite H150. reflexivity. }
  destruct (high_glucose_analysis now bio170) as (Hhead2 & info2 & Htr2 & Hq2).
  { unfold glucose_high, Config.HIGH_GLUCOSE_THRESHOLD. rewrite H170. reflexivity. }
  split; [exact Hhead1 |]. split; [exact Hhead2 |].
  destruct (adapt_for_high_glucose_run a150 info1 _ profile meals h Htr1 Hq1 Hnd Hall)
    as (h1 & Hrun1 & Hm1).
  destruct (adapt_for_high_glucose_run a170 info2 _ profile meals h Htr2 Hq2 Hnd Hall)
    as (h2 & Hrun2 & Hm2).
  assert (E1 : Qlt_bool 160 (np_max (present glucose_mg_dl (recent_data now bio150 7))) = false).
  { apply Qlt_bool_false_iff. rewrite H150. discriminate. }
  assert (E2 : Qlt_bool 160 (np_max (present glucose_mg_dl (recent_data now bio170 7))) = true).
  { apply Qlt_bool_iff. rewrite H170. reflexivity. }
  rewrite E1 in Hrun1, Hm1. rewrite E2 in Hrun2, Hm2.
  exists h1, h2. eexists _, _. split; [exact Hrun1 |]. split; [exact Hrun2 |].
  intros r d c p f Hr Hd Hc Hp Hf.
  destruct (Hm1 r d c p f Hr Hd Hc Hp Hf) as (d1 & Hd1 & Hc1 & Hp1 & Hf1 & Hcal1).
  destruct (Hm2 r d c p f Hr Hd Hc Hp Hf) as (d2 & Hd2 & Hc2 & Hp2 & Hf2 & Hcal2).
  exists d1, d2.
  repeat (split; [first [assumption | intros; lra] |]).
  split; eexists; (split; [eassumption |]); unfold num_or_zero;
    rewrite ?Hc1, ?Hp1, ?Hf1, ?Hc2, ?Hp2, ?Hf2; reflexivity.
Qed.

Lemma stressed_day_run :
  adapt_meal_plan the_day_after [0%nat] scenario_profile stressed_day [sample_meal]
  = ([sample_meal; sample_meal_stressed],
     Ok ([1%nat], [ExplHighStress (mean [90; 150]); ExplHighStress (mean [90; 150])])).
Proof. vm_compute. reflexivity. Qed.

Lemma carbless_meal_run :
  adapt_meal_plan the_day_after [0%nat] scenario_profile peak_150 [carbless_meal]
  = ([carbless_meal; carbless_meal], Ok ([1%nat], [ExplHighGlucose 0.8 150])).
Proof. vm_compute. reflexivity. Qed.

(** C1, as stated, fails: a day of 1000 steps raises LOW_ACTIVITY, whose
    strategy cuts calories and macros alike; a meal with calories 100 and
    10 g of each macro comes back with calories 85 and macros worth 144.5.
    HIGH_STRESS does the same with its factor, and HIGH_GLUCOSE leaves a
    meal without a carbs entry as it was. *)
Lemma low_activity_breaks_macro_identity :
  adaptations_needed (analyze_biometric_trends the_day_after sedentary_day 7)
    = [LOW_ACTIVITY]
  /\ adapt_meal_plan the_day_after [0%nat] scenario_profile sedentary_day [sample_meal]
     = ([sample_meal; sample_meal_cut], Ok ([1%nat], [ExplLowActivity 1000]))
  /\ sample_meal_cut !! "calories" = Some (VNum 85.00)
  /\ num_or_zero sample_meal_cut "protein" * 4 + num_or_zero sample_meal_cut "carbs" * 4
     + num_or_zero sample_meal_cut "fat" * 9 == 144.5
  /\ ~ macro_consistent sample_meal_cut
  /\ adaptations_needed (analyze_biometric_trends the_day_after stressed_day 7)
     = [HIGH_STRESS; HIGH_STRESS]
  /\ (exists expl,
        adapt_meal_plan the_day_after [0%nat] scenario_profile stressed_day [sample_meal]
        = ([sample_meal; sample_meal_stressed], Ok ([1%nat], expl)))
  /\ ~ macro_consistent sample_meal_stressed
  /\ adaptations_needed (analyze_biometric_trends the_day_after peak_150 7)
     = [HIGH_GLUCOSE]
  /\ (exists expl,
        adapt_meal_plan the_day_after [0%nat] scenario_profile peak_150 [carbless_meal]
        = ([carbless_meal; carbless_meal], Ok ([1%nat], expl)))
  /\ ~ macro_consistent carbless_meal.
Proof.
  split; [vm_compute; reflexivity |].
  split; [exact sedentary_day_run |].
  split; [vm_compute; reflexivity |].
  split; [vm_compute; reflexivity |].
  assert (Hno : forall d cal m,
            d !! "calories" = Some (VNum cal) ->
            num_or_zero d "protein" * 4 + num_or_zero d "carbs" * 4
            + num_or_zero d "fat" * 9 == m ->
            ~ cal == m -> ~ macro_consistent d).
  { intros d cal m Hcal Hm Hne (cal' & Hcal' & Heq).
    rewrite Hcal in Hcal'. injection Hcal' as <-. apply Hne. by rewrite Heq, Hm. }
  split.
  { eapply (Hno _ _ 144.5); [vm_compute; reflexivity | vm_compute; reflexivity |].
    intros H. vm_compute in H. discriminate H. }
  split; [vm_compute; reflexivity |].
  split; [eexists; exact stressed_day_run |].
  split.
  { eapply (Hno _ _ 153.425); [vm_compute; reflexivity | vm_compute; reflexivity |].
    intros H. vm_compute in H. discriminate H. }
  split; [vm_compute; reflexivity |].
  split; [eexists; exact carbless_meal_run |].
  eapply (Hno _ _ 130); [vm_compute; reflexivity | vm_compute; reflexivity |].
  intros H. vm_compute in H. discriminate H.
Qed.

Lemma strategy_loop_invariant (op : D unit) (I J : dict -> Prop) a metric key
    (strat : strategy) (mk : Q -> explanation) profile (meals : list loc) (h : store) :
  (forall h0, strat meals a profile h0 =
     (info ← trends_getitem a metric;
      for_each meals (fun meal => at_loc meal op);;
      q ← info_getitem info key;
      mret (meals, mk q)) h0) ->
  has_number a metric key ->
  (forall d, I d -> succeeds op d /\ J (effect op d)) ->
  (forall d, J d -> I d) ->
  all_meals I h meals ->
  exists h' expl, strat meals a profile h = (h', Ok (meals, expl))
                  /\ all_meals J h' meals.
Proof.
  intros Hstrat (info & q & Htr & Hq) Hop HJI Hall.
  destruct (for_each_at_loc_invariant op I J meals h Hop HJI Hall) as (h' & Hrun & HJ & _).
  exists h', (mk q). split; [| exact HJ].
  rewrite Hstrat.
  rewrite bind_run, (trends_getitem_run _ _ _ _ Htr).
  rewrite bind_run, Hrun.
  by rewrite bind_run, (info_getitem_run _ _ _ _ Hq).
Qed.

(** A strategy that multiplies the four nutrients of every meal by one
    factor: it runs on numeric meals, multiplies each nutrient entry of a
    list of distinct meals by the factor, and keeps the calorie identity
    where it held. *)
Lemma scaling_strategy_run f a metric key (strat : strategy) (mk : Q -> explanation)
    profile (meals : list loc) (h : store) :
  (forall h0, strat meals a profile h0 =
     (info ← trends_getitem a metric;
      for_each meals (fun meal => at_loc meal (scale_nutrients f));;
      q ← info_getitem info key;
      mret (meals, mk q)) h0) ->
  has_number a metric key ->
  all_meals numeric h meals ->
  exists h' expl, strat meals a profile h = (h', Ok (meals, expl))
    /\ (NoDup meals -> all_scaled f h h' meals)
    /\ (all_meals macro_consistent h meals -> all_meals macro_consistent h' meals).
Proof.
  intros Hstrat Hnumber Hnum.
  destruct (strategy_loop_invariant (scale_nutrients f) numeric numeric a metric key
              strat mk profile meals h Hstrat Hnumber)
    as (h' & expl & Hrun & _); [| done | done |].
  { intros d Hd. split; [by apply scale_nutrients_run | by apply scale_nutrients_numeric]. }
  exists h', expl. split; [exact Hrun |]. split.
  - intros Hnd r d Hr Hd.
    destruct (for_each_at_loc_exact (scale_nutrients f) meals h Hnd)
      as (h2 & Hrun2 & _ & Hin & _).
    { eapply all_meals_impl; [| exact Hnum]. intros d0 Hd0. by apply scale_nutrients_run. }
    assert (h2 = h') as ->.
    { destruct Hnumber as (info & q & Htr & Hq).
      rewrite Hstrat in Hrun.
      rewrite bind_run, (trends_getitem_run _ _ _ _ Htr) in Hrun.
      rewrite bind_run, Hrun2 in Hrun.
      rewrite bind_run, (info_getitem_run _ _ _ _ Hq) in Hrun.
      by injection Hrun. }
    destruct (Hnum r Hr) as (d0 & Hd0 & Hn). simplify_eq.
    exists (effect (scale_nutrients f) d). rewrite (Hin r Hr), Hd. split; [done |].
    intros k q Hk Hq.
    rewrite (proj2 (scale_nutrients_run f d Hn)), decide_True, Hq by done. done.
  - intros Hcons.
    destruct (strategy_loop_invariant (scale_nutrients f)
                (fun d => numeric d /\ macro_consistent d)
                (fun d => numeric d /\ macro_consistent d) a metric key
                strat mk profile meals h Hstrat Hnumber)
      as (h3 & expl3 & Hrun3 & HJ); [| done | |].
    { intros d [Hn Hc]. split; [by apply scale_nutrients_run |].
      split; [by apply scale_nutrients_numeric | by apply scale_nutrients_consistent]. }
    { intros r Hr. destruct (Hnum r Hr) as (d & Hd & Hn).
      destruct (Hcons r Hr) as (d' & Hd' & Hc). simplify_eq. eauto. }
    rewrite Hrun in Hrun3. injection Hrun3 as <- _.
    eapply all_meals_impl; [| exact HJ]. by intros d [_ ?].
Qed.

(** C1, amended: for meals whose nutrient entries are numbers and a
    history that raises the tag, the POOR_SLEEP strategy leaves every meal
    with calories = protein*4 + carbs*4 + fat*9 (absent macros counting 0),
    and so does the HIGH_GLUCOSE strategy for every meal that has a carbs
    entry, whatever the input calories were; the LOW_ACTIVITY and
    HIGH_STRESS strategies multiply each of calories, protein, carbs and fat
    of every meal of a list of distinct meals by one factor, 0.85 and 0.95,
    without re-deriving calories, and so keep the identity when it held
    before the step. *)
Theorem adaptation_steps_and_macro_identity now bio profile (meals : list loc) (h : store) :
  let a := analyze_biometric_trends now bio 7 in
  all_meals numeric h meals ->
  (POOR_SLEEP ∈ adaptations_needed a ->
     exists h' expl, _adapt_for_poor_sleep meals a profile h = (h', Ok (meals, expl))
       /\ all_meals macro_consistent h' meals)
  /\ (HIGH_GLUCOSE ∈ adaptations_needed a ->
     exists h' expl, _adapt_for_high_glucose meals a profile h = (h', Ok (meals, expl))
       /\ all_meals (fun d => is_Some (d !! "carbs") -> macro_consistent d) h' meals)
  /\ (LOW_ACTIVITY ∈ adaptations_needed a ->
     exists h' expl, _adapt_for_low_activity meals a profile h = (h', Ok (meals, expl))
       /\ (NoDup meals -> all_scaled 0.85 h h' meals)
       /\ (all_meals macro_consistent h meals -> all_meals macro_consistent h' meals))
  /\ (HIGH_STRESS ∈ adaptations_needed a ->
     exists h' expl, _adapt_for_high_stress meals a profile h = (h', Ok (meals, expl))
       /\ (NoDup meals -> all_scaled 0.95 h h' meals)
       /\ (all_meals macro_consistent h meals -> all_meals macro_consistent h' meals)).
Proof.
  intros a Hnum.
  split; [| split; [| split]].
  - intros Htag. apply tag_has_entries in Htag.
    destruct (strategy_loop_invariant poor_sleep_body numeric
                (fun d => numeric d /\ macro_consistent d) a "sleep" "average_hours"
                _adapt_for_poor_sleep ExplPoorSleep profile meals h)
      as (h' & expl & Hrun & HJ); try done.
    { intros d Hd. by destruct (poor_sleep_body_run d Hd) as (? & ? & ?). }
    { by intros d [? _]. }
    exists h', expl. split; [done |]. eapply all_meals_impl; [| exact HJ]. by intros d [_ ?].
  - intros Htag. apply tag_has_entries in Htag.
    pose proof Htag as (info & q & Htr & Hq).
    set (rf := if Qlt_bool 160 q then 0.7 else 0.8).
    destruct (for_each_at_loc_invariant (high_glucose_body rf) numeric
                (fun d => numeric d /\ (is_Some (d !! "carbs") -> macro_consistent d))
                meals h) as (h' & Hrun & HJ & _); try done.
    { intros d Hd. destruct (high_glucose_body_run rf d Hd) as (Hs & Hn & Hc & Hid).
      split; [done |]. split; [done |].
      destruct (d !! "carbs") as [v |] eqn:E; [intros _; apply Hc; by eexists |].
      rewrite (Hid eq_refl), E. by intros [? ?]. }
    { by intros d [? _]. }
    exists h', (ExplHighGlucose rf q). split.
    + unfold _adapt_for_high_glucose.
      rewrite bind_run, (trends_getitem_run _ _ _ _ Htr).
      rewrite bind_run, (info_getitem_run _ _ _ _ Hq).
      fold rf. rewrite bind_run, Hrun.
      by rewrite bind_run, (info_getitem_run _ _ _ _ Hq).
    + eapply all_meals_impl; [| exact HJ]. by intros d [_ ?].
  - intros Htag. apply tag_has_entries in Htag.
    by apply (scaling_strategy_run 0.85 a "activity" "average_steps"
                _adapt_for_low_activity ExplLowActivity).
  - intros Htag. apply tag_has_entries in Htag.
    by apply (scaling_strategy_run 0.95 a "heart_rate" "average_bpm"
                _adapt_for_high_stress ExplHighStress).
Qed.
End AdaptationRules.

(** ** The statements at concrete inputs *)

Section Witnesses.
Import BiometricAnalyzer MealAdaptationEngine.

Lemma sample_meal_complete : all_meals complete [sample_meal] [0%nat].
Proof.
  intros r Hr. apply list_elem_of_singleton in Hr as ->.
  exists sample_meal. split; [reflexivity |].
  intros k Hk. unfold nutrients in Hk.
  repeat (apply elem_of_cons in Hk as [-> | Hk]; [eexists; vm_compute; reflexivity |]).
  by apply elem_of_nil in Hk.
Qed.

Lemma sample_meal_numeric : all_meals numeric [sample_meal] [0%nat].
Proof.
  eapply all_meals_impl; [apply complete_numeric | apply sample_meal_complete].
Qed.

Lemma derived_meal_numeric : all_meals numeric [derived_meal] [0%nat].
Proof.
  intros r Hr. apply list_elem_of_singleton in Hr as ->.
  exists derived_meal. split; [reflexivity |].
  apply Forall_forall. intros k Hk. unfold nutrients in Hk.
  repeat (apply elem_of_cons in Hk as [-> | Hk]; [vm_compute; exact I |]).
  by apply elem_of_nil in Hk.
Qed.

Lemma derived_meal_consistent : all_meals macro_consistent [derived_meal] [0%nat].
Proof.
  intros r Hr. apply list_elem_of_singleton in Hr as ->.
  exists derived_meal. split; [reflexivity |].
  exists 170. split; vm_compute; reflexivity.
Qed.

Lemma adaptation_steps_and_macro_identity_witness :
  all_meals numeric [sample_meal] [0%nat]
  /\ (exists h' expl,
        _adapt_for_poor_sleep [0%nat] (analyze_biometric_trends the_day_after short_night 7)
          scenario_profile [sample_meal] = (h', Ok ([0%nat], expl))
        /\ all_meals macro_consistent h' [0%nat])
  /\ all_meals numeric [derived_meal] [0%nat]
  /\ all_meals macro_consistent [derived_meal] [0%nat]
  /\ (exists h' expl,
        _adapt_for_low_activity [0%nat]
          (analyze_biometric_trends the_day_after sedentary_day 7)
          scenario_profile [derived_meal] = (h', Ok ([0%nat], expl))
        /\ all_scaled 0.85 [derived_meal] h' [0%nat]
        /\ all_meals macro_consistent h' [0%nat]).
Proof.
  split; [exact sample_meal_numeric |].
  split.
  { apply (adaptation_steps_and_macro_identity the_day_after short_night scenario_profile
             [0%nat] [sample_meal] sample_meal_numeric).
    vm_compute. left. }
  split; [exact derived_meal_numeric |].
  split; [exact derived_meal_consistent |].
  destruct (adaptation_steps_and_macro_identity the_day_after sedentary_day scenario_profile
              [0%nat] [derived_meal] derived_meal_numeric)
    as (_ & _ & Hlow & _).
  destruct Hlow as (h' & expl & Hrun & Hscaled & Hcons); [vm_compute; left |].
  exists h', expl. split; [exact Hrun |]. split.
  - apply Hscaled. apply NoDup_singleton.
  - apply Hcons. exact derived_meal_consistent.
Defined.

Lemma high_stress_applied_twice_witness :
  heart_rate_high < mean (map inject_Z (present heart_rate (recent_data the_day_after stressed_day 7)))
  /\ 20 * 20 < var (map inject_Z (present heart_rate (recent_data the_day_after stressed_day 7)))
  /\ adaptations (_analyze_heart_rate_trends (recent_data the_day_after stressed_day 7))
     = [HIGH_STRESS; HIGH_STRESS].
Proof.
  assert (H1 : heart_rate_high
               < mean (map inject_Z (present heart_rate
                                       (recent_data the_day_after stressed_day 7))))
    by (vm_compute; reflexivity).
  assert (H2 : 20 * 20
               < var (map inject_Z (present heart_rate
                                      (recent_data the_day_after stressed_day 7))))
    by (vm_compute; reflexivity).
  split; [exact H1 |]. split; [exact H2 |].
  exact (proj1 (high_stress_applied_twice the_day_after stressed_day [0%nat]
                  scenario_profile [sample_meal] H1 H2 sample_meal_complete)).
Defined.

Lemma glucose_rule_150_vs_170_witness :
  np_max (present glucose_mg_dl (recent_data the_day_after peak_150 7)) == 150
  /\ np_max (present glucose_mg_dl (recent_data the_day_after peak_170 7)) == 170
  /\ head (adaptations_needed (analyze_biometric_trends the_day_after peak_150 7))
     = Some HIGH_GLUCOSE.
Proof.
  assert (H1 : np_max (present glucose_mg_dl (recent_data the_day_after peak_150 7)) == 150)
    by (vm_compute; reflexivity).
  assert (H2 : np_max (present glucose_mg_dl (recent_data the_day_after peak_170 7)) == 170)
    by (vm_compute; reflexivity).
  assert (Hnd : NoDup [0%nat]) by (apply NoDup_singleton).
  split; [exact H1 |]. split; [exact H2 |].
  exact (proj1 (glucose_rule_150_vs_170 the_day_after peak_150 peak_170 scenario_profile
                  [0%nat] [sample_meal] H1 H2 Hnd sample_meal_complete)).
Defined.

End Witnesses.

(** ** Further properties: metabolism *)

Section MoreMetabolism.
Import MetabolismCalculator.

Lemma elem_of_drop_inv {A} (x : A) n (l : list A) : x ∈ drop n l -> x ∈ l.
Proof.
  intros [i Hi]%list_elem_of_lookup. rewrite lookup_drop in Hi.
  by eapply list_elem_of_lookup_2.
Qed.

Lemma elem_of_take_inv {A} (x : A) n (l : list A) : x ∈ take n l -> x ∈ l.
Proof.
  intros (i & Hi & _)%elem_of_take. by eapply list_elem_of_lookup_2.
Qed.

Lemma sum_nonneg (l : list Q) : Forall (fun x => 0 <= x) l -> 0 <= sum l.
Proof.
  induction 1 as [| x l Hx _ IH]; simpl; [done | lra].
Qed.

Lemma len_nonneg {A} (l : list A) : 0 <= len l.
Proof. unfold len, Qle. simpl. lia. Qed.

Lemma mean_nonneg (l : list Q) : Forall (fun x => 0 <= x) l -> 0 <= mean l.
Proof.
  intros Hl. unfold mean, Qdiv.
  apply Qmult_le_0_compat; [by apply sum_nonneg |].
  apply Qinv_le_0_compat, len_nonneg.
Qed.

Lemma sleep_factor_range (biometrics : list BiometricData) :
  Forall (fun b => forall s, sleep_hours b = Some s -> 0 <= s) biometrics ->
  0.83 <= _calculate_sleep_factor biometrics <= 1.
Proof.
  intros Hb. unfold _calculate_sleep_factor.
  set (sl := omap sleep_hours (last_n 7 biometrics)).
  assert (Hsl : Forall (fun x => 0 <= x) sl).
  { apply Forall_forall. intros x Hx. apply list_elem_of_omap in Hx as (b & Hbin & Hs).
    unfold last_n in Hbin. apply elem_of_drop_inv in Hbin.
    eapply Forall_forall in Hb; [| exact Hbin]. by apply Hb. }
  pose proof (mean_nonneg sl Hsl) as Hm.
  destruct sl as [| x sl']; [split; discriminate |].
  set (m := mean (x :: sl')) in *.
  destruct (Qle_bool 7 m && Qle_bool m 9); [split; discriminate |].
  destruct (Qlt_bool m 6) eqn:E6.
  - apply Qlt_bool_iff in E6. split; lra.
  - destruct (Qlt_bool 10 m); split; discriminate.
Qed.

Lemma glucose_factor_range (biometrics : list BiometricData) :
  0.92 <= _calculate_glucose_factor biometrics <= 1.02.
Proof.
  unfold _calculate_glucose_factor.
  destruct (omap glucose_mg_dl (last_n 5 biometrics)); [split; lra |].
  repeat case_match; split; lra.
Qed.

Lemma activity_factor_range (biometrics : list BiometricData) :
  0.95 <= _calculate_activity_factor biometrics <= 1.05.
Proof.
  unfold _calculate_activity_factor. repeat case_match; split; lra.
Qed.

Lemma stress_factor_range (biometrics : list BiometricData) :
  0.96 <= _calculate_stress_factor biometrics <= 1.02.
Proof.
  unfold _calculate_stress_factor. repeat case_match; split; lra.
Qed.

Lemma recovery_factor_range (biometrics : list BiometricData) :
  0.94 <= _calculate_recovery_factor biometrics <= 1.03.
Proof.
  unfold _calculate_recovery_factor.
  destruct (omap _ _); [split; lra |].
  repeat case_match; split; lra.
Qed.

(** *** Sorting *)

Section SortedFacts.
Context {A K : Type} (ltb : K -> K -> bool) (key : A -> K).

Lemma insert_asc_perm x (l : list A) : insert_asc ltb key x l ≡ₚ x :: l.
Proof.
  induction l as [| y l IH]; simpl; [done |].
  destruct (ltb (key y) (key x)); [| done].
  rewrite IH. apply Permutation_swap.
Qed.

Lemma insert_desc_perm x (l : list A) : insert_desc ltb key x l ≡ₚ x :: l.
Proof.
  induction l as [| y l IH]; simpl; [done |].
  destruct (ltb (key x) (key y)); [| done].
  rewrite IH. apply Permutation_swap.
Qed.

Lemma sorted_perm reverse (l : list A) : sorted ltb key reverse l ≡ₚ l.
Proof.
  unfold sorted. induction l as [| x l IH]; simpl; [done |].
  destruct reverse; [rewrite insert_desc_perm | rewrite insert_asc_perm];
    by rewrite IH.
Qed.
End SortedFacts.

(** X1: whatever the history, as long as no sleep duration is negative,
    the five adaptive factors stay within fixed ranges: sleep quality in
    [0.83, 1], glucose regulation in [0.92, 1.02], activity consistency in
    [0.95, 1.05], stress level in [0.96, 1.02] and recovery status in
    [0.94, 1.03]. *)
Theorem adaptive_factors_in_range (profile : UserProfile)
    (recent_biometrics : list BiometricData) :
  Forall (fun b => forall s, sleep_hours b = Some s -> 0 <= s) recent_biometrics ->
  let f := _calculate_adaptive_factors profile recent_biometrics in
  0.83 <= sleep_quality f <= 1
  /\ 0.92 <= glucose_regulation f <= 1.02
  /\ 0.95 <= activity_consistency f <= 1.05
  /\ 0.96 <= stress_level f <= 1.02
  /\ 0.94 <= recovery_status f <= 1.03.
Proof.
  intros Hs f. subst f. unfold _calculate_adaptive_factors.
  destruct recent_biometrics as [| b bs] eqn:E; [simpl; repeat split; lra |].
  rewrite <- E in *. simpl.
  split; [| split; [| split; [| split]]].
  - apply sleep_factor_range. unfold most_recent_first.
    by rewrite sorted_perm.
  - apply glucose_factor_range.
  - apply activity_factor_range.
  - apply stress_factor_range.
  - apply recovery_factor_range.
Qed.

Lemma adaptive_factors_in_range_witness :
  0.83 <= sleep_quality (_calculate_adaptive_factors scenario_profile short_night) <= 1.
Proof.
  apply (adaptive_factors_in_range scenario_profile short_night).
  repeat constructor. intros s [= <-]. discriminate.
Defined.

Lemma insert_desc_sorted x (l : list BiometricData) :
  StronglySorted newer_first l ->
  StronglySorted newer_first (insert_desc Z.ltb timestamp x l).
Proof.
  induction 1 as [| y l Hl IH Hy]; simpl.
  - repeat constructor.
  - destruct (timestamp x <? timestamp y)%Z eqn:E.
    + apply Z.ltb_lt in E. constructor; [exact IH |].
      rewrite insert_desc_perm. constructor; [unfold newer_first; lia | exact Hy].
    + apply Z.ltb_ge in E. constructor; [by constructor |].
      constructor; [exact E |].
      eapply Forall_impl; [exact Hy |]. unfold newer_first. intros z Hz. simpl in *. lia.
Qed.

Lemma most_recent_first_sorted (l : list BiometricData) :
  StronglySorted newer_first (most_recent_first l).
Proof.
  unfold most_recent_first, sorted. induction l as [| x l IH]; simpl.
  - constructor.
  - by apply insert_desc_sorted.
Qed.

Lemma omap_head {A B} (f : A -> option B) (l : list A) v rest :
  omap f l = v :: rest ->
  exists l1 x l2, l = l1 ++ x :: l2 /\ f x = Some v /\ Forall (fun y => f y = None) l1.
Proof.
  induction l as [| y l IH]; simpl; [done |].
  destruct (f y) as [w |] eqn:E.
  - intros [= -> _]. by exists [], y, l.
  - intros H. destruct (IH H) as (l1 & x & l2 & -> & Hx & Hl1).
    exists (y :: l1), x, l2. split; [done |]. split; [done |]. by constructor.
Qed.

Lemma sorted_after (l1 l2 : list BiometricData) x :
  StronglySorted newer_first (l1 ++ x :: l2) -> Forall (newer_first x) l2.
Proof.
  induction l1 as [| y l1 IH]; simpl; intros H; inversion H; subst; [done | auto].
Qed.

Lemma body_fat_measured_dec recent_biometrics :
  body_fat_measured recent_biometrics
  \/ omap body_fat_percentage (most_recent_first (default [] recent_biometrics)) = [].
Proof.
  destruct (omap body_fat_percentage (most_recent_first (default [] recent_biometrics)))
    as [| v rest] eqn:E; [by right | left].
  assert (Hv : v ∈ omap body_fat_percentage
                 (most_recent_first (default [] recent_biometrics)))
    by (rewrite E; by left).
  apply list_elem_of_omap in Hv as (s & Hs & Hbf).
  unfold most_recent_first in Hs. rewrite sorted_perm in Hs.
  destruct recent_biometrics as [l |]; simpl in Hs; [| by apply elem_of_nil in Hs].
  exists l, s. by rewrite Hbf.
Qed.

Lemma no_body_fat_measured recent_biometrics :
  ~ body_fat_measured recent_biometrics ->
  omap body_fat_percentage (most_recent_first (default [] recent_biometrics)) = [].
Proof. intros Hn. by destruct (body_fat_measured_dec recent_biometrics). Qed.

Lemma body_fat_from_measurement (profile : UserProfile) (l : list BiometricData) :
  (exists s, s ∈ l /\ is_Some (body_fat_percentage s)) ->
  exists s v,
    _estimate_body_fat_percentage profile (Some l) = Ok v
    /\ s ∈ l /\ body_fat_percentage s = Some v
    /\ forall s', s' ∈ l -> is_Some (body_fat_percentage s') ->
                  (timestamp s' <= timestamp s)%Z.
Proof.
  intros (s0 & Hs0 & [v0 Hv0]).
  unfold _estimate_body_fat_percentage. simpl.
  destruct (omap body_fat_percentage (most_recent_first l)) as [| v rest] eqn:E.
  { assert (Hin : v0 ∈ omap body_fat_percentage (most_recent_first l)).
    { apply list_elem_of_omap. exists s0. split; [| done].
      unfold most_recent_first. by rewrite sorted_perm. }
    rewrite E in Hin. by apply elem_of_nil in Hin. }
  destruct (omap_head _ _ _ _ E) as (l1 & s & l2 & Hl & Hs & Hl1).
  pose proof (most_recent_first_sorted l) as Hsorted. rewrite Hl in Hsorted.
  pose proof (sorted_after _ _ _ Hsorted) as Hl2.
  assert (Hperm : l1 ++ s :: l2 ≡ₚ l).
  { rewrite <- Hl. unfold most_recent_first. apply sorted_perm. }
  exists s, v. split; [done |]. split; [| split; [done |]].
  - rewrite <- Hperm. apply elem_of_app. right. by left.
  - intros s' Hs' [v' Hv']. rewrite <- Hperm in Hs'.
    apply elem_of_app in Hs' as [Hin | Hin].
    + eapply Forall_forall in Hl1; [| exact Hin]. congruence.
    + apply elem_of_cons in Hin as [-> | Hin]; [lia |].
      eapply Forall_forall in Hl2; [| exact Hin]. exact Hl2.
Qed.

Lemma nonzero_height_squared (profile : UserProfile) :
  ~ height_cm profile == 0 ->
  Qeq_bool (height_cm profile / 100 * (height_cm profile / 100)) 0 = false.
Proof.
  intros Hh. destruct (Qeq_bool _ 0) eqn:E; [| done].
  apply Qeq_bool_iff in E. exfalso. apply Hh.
  destruct (Qmult_integral _ _ E) as [H | H];
    (apply (Qmult_inj_r _ _ (/ 100)); [discriminate | rewrite Qmult_0_l; exact H]).
Qed.

Lemma zero_height_squared (profile : UserProfile) :
  height_cm profile == 0 ->
  Qeq_bool (height_cm profile / 100 * (height_cm profile / 100)) 0 = true.
Proof. intros Hh. apply Qeq_bool_iff. rewrite Hh. reflexivity. Qed.

Lemma body_fat_from_bmi (profile : UserProfile) recent_biometrics :
  ~ body_fat_measured recent_biometrics ->
  (height_cm profile == 0 ->
     _estimate_body_fat_percentage profile recent_biometrics = Raise ZeroDivisionError)
  /\ (~ height_cm profile == 0 ->
      exists v, _estimate_body_fat_percentage profile recent_biometrics = Ok v
                /\ 5 <= v <= 50).
Proof.
  intros Hn. unfold _estimate_body_fat_percentage.
  rewrite (no_body_fat_measured _ Hn). unfold div. split.
  - intros Hh. by rewrite zero_height_squared.
  - intros Hh. rewrite nonzero_height_squared by done.
    simpl. eexists. split; [reflexivity |].
    set (bf := if is_male profile then _ else _).
    destruct (min_cases bf 50) as [[H1 ->] | [H1 ->]];
      match goal with
      | |- context [Py.max 5 ?x] =>
          destruct (max_cases 5 x) as [[H2 ->] | [H2 ->]]
      end; split; lra.
Qed.

Lemma body_fat_estimate_returns (profile : UserProfile) recent_biometrics :
  ~ height_cm profile == 0 \/ body_fat_measured recent_biometrics ->
  exists bf, _estimate_body_fat_percentage profile recent_biometrics = Ok bf.
Proof.
  intros Hok.
  destruct (body_fat_measured_dec recent_biometrics) as [(l & s & -> & Hs & Hm) | Hnone].
  - destruct (body_fat_from_measurement profile l) as (s' & v & Hv & _); eauto.
  - destruct Hok as [Hh | (l & s & -> & Hs & [v Hv])].
    + unfold _estimate_body_fat_percentage. rewrite Hnone. unfold div.
      rewrite nonzero_height_squared by done. by eexists.
    + assert (Hin : v ∈ omap body_fat_percentage (most_recent_first l)).
      { apply list_elem_of_omap. exists s. split; [| done].
        unfold most_recent_first. by rewrite sorted_perm. }
      simpl in Hnone. rewrite Hnone in Hin. by apply elem_of_nil in Hin.
Qed.

Lemma none_not_measured : ~ body_fat_measured None.
Proof. by intros (l & s & [=] & _). Qed.

Lemma calculate_tdee_raises (profile : UserProfile) recent_biometrics adaptive :
  height_cm profile == 0 -> ~ body_fat_measured recent_biometrics ->
  calculate_tdee profile recent_biometrics adaptive = Raise ZeroDivisionError.
Proof.
  intros Hh Hn. unfold calculate_tdee.
  by rewrite (proj1 (body_fat_from_bmi profile _ Hn) Hh).
Qed.

Lemma calculate_tdee_returns (profile : UserProfile) recent_biometrics adaptive :
  ~ height_cm profile == 0 \/ body_fat_measured recent_biometrics ->
  exists t, calculate_tdee profile recent_biometrics adaptive = Ok t
    /\ bmr t = _mifflin_st_jeor profile
    /\ base_tdee t = bmr t * activity_value (activity_level profile)
    /\ adaptive_tdee t
       == base_tdee t * prod (factor_values (tdee_adaptive_factors t))
    /\ (adaptive = false \/ default [] recent_biometrics = [] ->
        adaptive_tdee t = base_tdee t
        /\ tdee_adaptive_factors t = default_adaptive_factors
        /\ adaptive_multiplier t = None)
    /\ (adaptive = true -> default [] recent_biometrics <> [] ->
        tdee_adaptive_factors t
          = _calculate_adaptive_factors profile (default [] recent_biometrics)
        /\ adaptive_multiplier t = Some (prod (factor_values (tdee_adaptive_factors t)))).
Proof.
  intros Hok.
  destruct (body_fat_estimate_returns profile recent_biometrics Hok) as [bf Hbf].
  unfold calculate_tdee. rewrite Hbf. simpl.
  destruct adaptive, (default [] recent_biometrics) as [| b bs] eqn:E;
    eexists; (split; [reflexivity |]); simpl;
    (split; [reflexivity |]); (split; [reflexivity |]); (split; [try reflexivity; ring |]);
    split; first [ done | by intros [? | ?] | by intros ? ? ].
Qed.

Lemma calorie_needs_raise (profile : UserProfile) goal rate :
  height_cm profile == 0 ->
  calculate_calorie_needs_by_goal profile goal rate = Raise ZeroDivisionError.
Proof.
  intros Hh. unfold calculate_calorie_needs_by_goal.
  by rewrite (calculate_tdee_raises profile None true Hh none_not_measured).
Qed.

Lemma calorie_needs_return (profile : UserProfile) goal rate :
  ~ height_cm profile == 0 ->
  exists n, calculate_calorie_needs_by_goal profile goal rate = Ok n.
Proof.
  intros Hh. unfold calculate_calorie_needs_by_goal.
  destruct (calculate_tdee_returns profile None true (or_introl Hh)) as (t & -> & _).
  simpl. by eexists.
Qed.

(** X2: the body-fat estimate.  When some sample of the history carries
    a body-fat measurement, the estimate is the measurement of a sample
    that is the latest among the measured ones, whatever the profile (it
    does not raise, even for a height of 0).  Without any measurement it
    comes from the BMI: it raises [ZeroDivisionError] for a height of 0,
    and otherwise returns a percentage clamped to [5, 50]. *)
Theorem body_fat_estimate_outcome (profile : UserProfile) recent_biometrics :
  (forall l, recent_biometrics = Some l ->
     (exists s, s ∈ l /\ is_Some (body_fat_percentage s)) ->
     exists s v,
       _estimate_body_fat_percentage profile recent_biometrics = Ok v
       /\ s ∈ l /\ body_fat_percentage s = Some v
       /\ forall s', s' ∈ l -> is_Some (body_fat_percentage s') ->
                     (timestamp s' <= timestamp s)%Z)
  /\ (~ body_fat_measured recent_biometrics ->
      (height_cm profile == 0 ->
         _estimate_body_fat_percentage profile recent_biometrics
         = Raise ZeroDivisionError)
      /\ (~ height_cm profile == 0 ->
          exists v, _estimate_body_fat_percentage profile recent_biometrics = Ok v
                    /\ 5 <= v <= 50)).
Proof.
  split.
  - intros l ->. apply body_fat_from_measurement.
  - apply body_fat_from_bmi.
Qed.

Lemma body_fat_estimate_outcome_witness :
  (exists s v,
     _estimate_body_fat_percentage zero_height_profile
       (Some [body_fat_sample 1 20; body_fat_sample 3 24; body_fat_sample 2 22]) = Ok v
     /\ s ∈ [body_fat_sample 1 20; body_fat_sample 3 24; body_fat_sample 2 22]
     /\ body_fat_percentage s = Some v
     /\ forall s', s' ∈ [body_fat_sample 1 20; body_fat_sample 3 24; body_fat_sample 2 22] ->
          is_Some (body_fat_percentage s') -> (timestamp s' <= timestamp s)%Z)
  /\ _estimate_body_fat_percentage zero_height_profile None = Raise ZeroDivisionError
  /\ exists v, _estimate_body_fat_percentage scenario_profile None = Ok v /\ 5 <= v <= 50.
Proof.
  split; [| split].
  - apply (proj1 (body_fat_estimate_outcome zero_height_profile
                    (Some [body_fat_sample 1 20; body_fat_sample 3 24;
                           body_fat_sample 2 22])) _ eq_refl).
    exists (body_fat_sample 1 20). split; [apply list_elem_of_here | by eexists].
  - apply (proj2 (body_fat_estimate_outcome zero_height_profile None) none_not_measured).
    reflexivity.
  - apply (proj2 (body_fat_estimate_outcome scenario_profile None) none_not_measured).
    discriminate.
Defined.

(** X3: [calculate_tdee] raises [ZeroDivisionError] exactly when the height
    is 0 and no sample carries a body-fat measurement.  Otherwise it returns
    the Mifflin-St Jeor BMR, a base TDEE of BMR times the activity
    multiplier, and an adaptive TDEE equal to the base TDEE times the
    product of the reported factors; with [adaptive=False] or an empty or
    absent history the adaptive TDEE is the base TDEE, the factors are the
    defaults and there is no ['adaptive_multiplier'] entry; on the adaptive
    path the factors are those of the history and the multiplier is their
    product. *)
Theorem calculate_tdee_outcome (profile : UserProfile) recent_biometrics adaptive :
  (height_cm profile == 0 /\ ~ body_fat_measured recent_biometrics ->
     calculate_tdee profile recent_biometrics adaptive = Raise ZeroDivisionError)
  /\ (~ height_cm profile == 0 \/ body_fat_measured recent_biometrics ->
      exists t, calculate_tdee profile recent_biometrics adaptive = Ok t
        /\ bmr t = _mifflin_st_jeor profile
        /\ base_tdee t = bmr t * activity_value (activity_level profile)
        /\ adaptive_tdee t
           == base_tdee t * prod (factor_values (tdee_adaptive_factors t))
        /\ (adaptive = false \/ default [] recent_biometrics = [] ->
            adaptive_tdee t = base_tdee t
            /\ tdee_adaptive_factors t = default_adaptive_factors
            /\ adaptive_multiplier t = None)
        /\ (adaptive = true -> default [] recent_biometrics <> [] ->
            tdee_adaptive_factors t
              = _calculate_adaptive_factors profile (default [] recent_biometrics)
            /\ adaptive_multiplier t
               = Some (prod (factor_values (tdee_adaptive_factors t))))).
Proof.
  split.
  - intros [Hh Hn]. by apply calculate_tdee_raises.
  - apply calculate_tdee_returns.
Qed.

Lemma calculate_tdee_outcome_witness :
  calculate_tdee zero_height_profile (Some short_night) true = Raise ZeroDivisionError
  /\ exists t, calculate_tdee scenario_profile (Some short_night) true = Ok t
               /\ bmr t = _mifflin_st_jeor scenario_profile.
Proof.
  split.
  - apply (proj1 (calculate_tdee_outcome zero_height_profile (Some short_night) true)).
    split; [reflexivity |].
    intros (l & s & [= <-] & Hs & Hm).
    apply list_elem_of_singleton in Hs as ->. by destruct Hm.
  - destruct (proj2 (calculate_tdee_outcome scenario_profile (Some short_night) true))
      as (t & Ht & Hb & _); [left; discriminate |].
    exists t. split; assumption.
Defined.

(** *** The band of the adaptive TDEE *)

Lemma mult_band (a x b c y d : Q) :
  0 <= a -> a <= x <= b -> 0 <= c -> c <= y <= d -> a * c <= x * y <= b * d.
Proof.
  intros Ha [Hax Hxb] Hc [Hcy Hyd]. split.
  - apply Qle_trans with (x * c).
    + apply Qmult_le_compat_r; [exact Hax | exact Hc].
    + rewrite (Qmult_comm x c), (Qmult_comm x y).
      apply Qmult_le_compat_r; [exact Hcy | lra].
  - apply Qle_trans with (b * y).
    + apply Qmult_le_compat_r; [exact Hxb | lra].
    + rewrite (Qmult_comm b y), (Qmult_comm b d).
      apply Qmult_le_compat_r; [exact Hyd | lra].
Qed.

Lemma prod_band (f : adaptive_factors) :
  0.83 <= sleep_quality f <= 1 ->
  0.92 <= glucose_regulation f <= 1.02 ->
  0.95 <= activity_consistency f <= 1.05 ->
  0.96 <= stress_level f <= 1.02 ->
  0.94 <= recovery_status f <= 1.03 ->
  0.65 <= prod (factor_values f) <= 1.13.
Proof.
  intros Hs Hg Ha Ht Hr. unfold factor_values. simpl.
  pose proof (mult_band 0.94 (recovery_status f) 1.03 1 1 1) as H1.
  pose proof (mult_band 0.95 (activity_consistency f) 1.05
                (0.94 * 1) (recovery_status f * 1) (1.03 * 1)) as H2.
  pose proof (mult_band 0.92 (glucose_regulation f) 1.02
                (0.95 * (0.94 * 1)) (activity_consistency f * (recovery_status f * 1))
                (1.05 * (1.03 * 1))) as H3.
  pose proof (mult_band 0.96 (stress_level f) 1.02
                (0.92 * (0.95 * (0.94 * 1)))
                (glucose_regulation f * (activity_consistency f * (recovery_status f * 1)))
                (1.02 * (1.05 * (1.03 * 1)))) as H4.
  pose proof (mult_band 0.83 (sleep_quality f) 1
                (0.96 * (0.92 * (0.95 * (0.94 * 1))))
                (stress_level f
                 * (glucose_regulation f * (activity_consistency f * (recovery_status f * 1))))
                (1.02 * (1.02 * (1.05 * (1.03 * 1))))) as H5.
  assert (G1 := H1 ltac:(lra) Hr ltac:(lra) ltac:(lra)).
  assert (G2 := H2 ltac:(lra) Ha ltac:(lra) G1).
  assert (G3 := H3 ltac:(lra) Hg ltac:(lra) G2).
  assert (G4 := H4 ltac:(lra) Ht ltac:(lra) G3).
  assert (G5 := H5 ltac:(lra) Hs ltac:(lra) G4).
  clear H1 H2 H3 H4 H5 G1 G2 G3 G4.
  destruct G5 as [Glo Ghi]. split.
  - eapply Qle_trans; [| exact Glo]. by vm_compute.
  - eapply Qle_trans; [exact Ghi |]. by vm_compute.
Qed.

Lemma adaptive_factors_ranges (profile : UserProfile)
    (recent_biometrics : list BiometricData) :
  Forall (fun b => forall s, sleep_hours b = Some s -> 0 <= s) recent_biometrics ->
  0.65 <= prod (factor_values (_calculate_adaptive_factors profile recent_biometrics))
       <= 1.13.
Proof.
  intros Hs. apply prod_band; unfold _calculate_adaptive_factors;
    (destruct recent_biometrics as [| b bs] eqn:E; [simpl; split; lra |]);
    rewrite <- E in *; simpl.
  - apply sleep_factor_range. unfold most_recent_first. by rewrite sorted_perm.
  - apply glucose_factor_range.
  - apply activity_factor_range.
  - apply stress_factor_range.
  - apply recovery_factor_range.
Qed.

(** X4: for a profile of non-zero height whose BMR is not negative and a
    history without negative sleep durations, the adaptive TDEE lies
    between 65% and 113% of the base TDEE. *)
Theorem adaptive_tdee_band (profile : UserProfile) (history : list BiometricData) :
  ~ height_cm profile == 0 ->
  0 <= _mifflin_st_jeor profile ->
  Forall (fun b => forall s, sleep_hours b = Some s -> 0 <= s) history ->
  exists t, calculate_tdee profile (Some history) true = Ok t
    /\ 0.65 * base_tdee t <= adaptive_tdee t <= 1.13 * base_tdee t.
Proof.
  intros Hh Hb Hs.
  destruct (calculate_tdee_returns profile (Some history) true (or_introl Hh))
    as (t & Ht & Hbmr & Hbase & Had & Hdef & Hadp).
  exists t. split; [exact Ht |].
  assert (Hbase0 : 0 <= base_tdee t).
  { rewrite Hbase, Hbmr. apply Qmult_le_0_compat; [exact Hb |].
    destruct (activity_level profile); discriminate. }
  rewrite Had.
  assert (Hband : 0.65 <= prod (factor_values (tdee_adaptive_factors t)) <= 1.13).
  { destruct history as [| b bs] eqn:E.
    - destruct (Hdef (or_intror eq_refl)) as (_ & -> & _). split; discriminate.
    - rewrite <- E in *.
      destruct (Hadp eq_refl) as [-> _]; [simpl; by rewrite E |].
      simpl. by apply adaptive_factors_ranges. }
  set (m := prod _) in *. clearbody m.
  destruct Hband as [Hlo Hhi]. split.
  - rewrite (Qmult_comm (base_tdee t) m).
    apply Qmult_le_compat_r; [exact Hlo | exact Hbase0].
  - rewrite (Qmult_comm (base_tdee t) m).
    apply Qmult_le_compat_r; [exact Hhi | exact Hbase0].
Qed.

Lemma adaptive_tdee_band_witness :
  exists t, calculate_tdee scenario_profile (Some short_night) true = Ok t
    /\ 0.65 * base_tdee t <= adaptive_tdee t <= 1.13 * base_tdee t.
Proof.
  apply (adaptive_tdee_band scenario_profile short_night).
  - discriminate.
  - discriminate.
  - repeat constructor. intros s [= <-]. discriminate.
Defined.

(** X5: for a profile of non-zero height, only the magnitude of the weekly
    rate matters and the goal argument does not: a rate of larger magnitude
    leaves the maintenance value and both safety bounds as they are, and
    can only lower the weight-loss target and raise the weight-gain
    target. *)
Theorem calorie_needs_monotone_in_rate (profile : UserProfile) goal1 goal2 rate1 rate2 :
  ~ height_cm profile == 0 ->
  Qabs rate1 <= Qabs rate2 ->
  exists n1 n2,
    calculate_calorie_needs_by_goal profile goal1 rate1 = Ok n1
    /\ calculate_calorie_needs_by_goal profile goal2 rate2 = Ok n2
    /\ maintenance n1 = maintenance n2
    /\ min_safe_calories n1 = min_safe_calories n2
    /\ max_safe_calories n1 = max_safe_calories n2
    /\ weight_loss n2 <= weight_loss n1
    /\ weight_gain n1 <= weight_gain n2.
Proof.
  intros Hh Hr.
  unfold calculate_calorie_needs_by_goal, calculate_tdee.
  destruct (proj2 (body_fat_from_bmi profile None none_not_measured) Hh)
    as (v & -> & _).
  simpl. eexists _, _. split; [reflexivity |]. split; [reflexivity |].
  cbn [maintenance weight_loss weight_gain min_safe_calories max_safe_calories].
  split; [reflexivity |]. split; [reflexivity |]. split; [reflexivity |].
  assert (Hd : forall r, Py.abs (r * 7700 / 7) == Qabs r * 1100).
  { intros r. unfold Py.abs.
    assert (E : r * 7700 / 7 == r * 1100) by field.
    rewrite E, Qabs_Qmult. reflexivity. }
  pose proof (Hd rate1) as H1. pose proof (Hd rate2) as H2.
  set (d1 := Py.abs (rate1 * 7700 / 7)) in *.
  set (d2 := Py.abs (rate2 * 7700 / 7)) in *.
  set (base := _mifflin_st_jeor profile * activity_value (activity_level profile)).
  set (lo := Py.max _ 1200).
  assert (Hle : d1 <= d2) by lra.
  clearbody d1 d2 lo base.
  destruct (min_cases (base - d1) (base * 1.5)) as [[? ->] | [? ->]];
  destruct (min_cases (base - d2) (base * 1.5)) as [[? ->] | [? ->]];
  destruct (min_cases (base + d1) (base * 1.5)) as [[? ->] | [? ->]];
  destruct (min_cases (base + d2) (base * 1.5)) as [[? ->] | [? ->]];
  repeat match goal with
         | |- context [Py.max lo ?x] =>
             destruct (max_cases lo x) as [[? ->] | [? ->]]
         end;
  split; lra.
Qed.

Lemma calorie_needs_monotone_in_rate_witness :
  exists n1 n2,
    calculate_calorie_needs_by_goal scenario_profile "lose" 0.5 = Ok n1
    /\ calculate_calorie_needs_by_goal scenario_profile "gain" (-1) = Ok n2
    /\ maintenance n1 = maintenance n2
    /\ min_safe_calories n1 = min_safe_calories n2
    /\ max_safe_calories n1 = max_safe_calories n2
    /\ weight_loss n2 <= weight_loss n1
    /\ weight_gain n1 <= weight_gain n2.
Proof.
  apply (calorie_needs_monotone_in_rate scenario_profile "lose" "gain" 0.5 (-1)).
  - discriminate.
  - discriminate.
Defined.

Section Insights.
Import MetabolicInsights.

Lemma factor_notes_length factors : (length (factor_notes factors) <= 4)%nat.
Proof.
  unfold factor_notes. repeat case_match; simpl; lia.
Qed.

(** X6: [get_metabolic_insights] raises [ZeroDivisionError] for a height of
    0 (its calorie-needs call passes no history), and [KeyError] for an
    empty or absent history, whose TDEE breakdown has no
    ['adaptive_multiplier'] entry.  With a non-empty history it returns as
    many recommendations as active adaptations, at most four, and reports
    the factors of the history with their product as the multiplier. *)
Theorem metabolic_insights_outcome (profile : UserProfile) recent_biometrics :
  (height_cm profile == 0 ->
     get_metabolic_insights profile recent_biometrics = Raise ZeroDivisionError)
  /\ (~ height_cm profile == 0 -> default [] recent_biometrics = [] ->
      get_metabolic_insights profile recent_biometrics = Raise KeyError)
  /\ (~ height_cm profile == 0 -> default [] recent_biometrics <> [] ->
      exists i, get_metabolic_insights profile recent_biometrics = Ok i
        /\ length (recommendations i) = length (adaptations_active i)
        /\ (length (recommendations i) <= 4)%nat
        /\ indicator_factors i
           = _calculate_adaptive_factors profile (default [] recent_biometrics)
        /\ metabolic_flexibility i = prod (factor_values (indicator_factors i))).
Proof.
  split; [| split].
  - intros Hh. unfold get_metabolic_insights.
    destruct (body_fat_measured_dec recent_biometrics) as [Hm | Hnone].
    + destruct (calculate_tdee_returns profile recent_biometrics true (or_intror Hm))
        as (t & -> & _).
      simpl. by rewrite (calorie_needs_raise profile _ _ Hh).
    + unfold calculate_tdee, _estimate_body_fat_percentage. rewrite Hnone.
      unfold div. by rewrite zero_height_squared.
  - intros Hh Hempty. unfold get_metabolic_insights.
    destruct (calculate_tdee_returns profile recent_biometrics true (or_introl Hh))
      as (t & -> & _ & _ & _ & Hna & _).
    destruct (Hna (or_intror Hempty)) as (_ & _ & Hm).
    destruct (calorie_needs_return profile "maintain" 0.5 Hh) as [n ->].
    simpl. by rewrite Hm.
  - intros Hh Hne. unfold get_metabolic_insights.
    destruct (calculate_tdee_returns profile recent_biometrics true (or_introl Hh))
      as (t & -> & _ & _ & _ & _ & Hadp).
    destruct (Hadp eq_refl Hne) as [Hf Hm].
    destruct (calorie_needs_return profile "maintain" 0.5 Hh) as [n ->].
    simpl. rewrite Hm. simpl. eexists. split; [reflexivity |]. simpl.
    rewrite !length_map. split; [done |]. split; [apply factor_notes_length |].
    by rewrite Hf.
Qed.

Lemma metabolic_insights_outcome_witness :
  get_metabolic_insights zero_height_profile (Some short_night) = Raise ZeroDivisionError
  /\ get_metabolic_insights scenario_profile None = Raise KeyError
  /\ exists i, get_metabolic_insights scenario_profile (Some short_night) = Ok i
               /\ (length (recommendations i) <= 4)%nat.
Proof.
  split; [| split].
  - apply (proj1 (metabolic_insights_outcome zero_height_profile (Some short_night))).
    reflexivity.
  - apply (proj1 (proj2 (metabolic_insights_outcome scenario_profile None)));
      [discriminate | reflexivity].
  - destruct (proj2 (proj2 (metabolic_insights_outcome scenario_profile (Some short_night))))
      as (i & Hi & _ & Hlen & _); [discriminate | discriminate |].
    exists i. split; assumption.
Defined.
End Insights.
End MoreMetabolism.

(** ** Further properties: the biometric analyzer *)

Section MoreAnalyzer.
Import BiometricAnalyzer MetabolismCalculator.

Lemma foldl_Qmax_lt t x (l : list Q) :
  t < foldl Qmax x l <-> t < x \/ exists y, y ∈ l /\ t < y.
Proof.
  revert x. induction l as [| z l IH]; intros x; simpl.
  - split; [by left | intros [H | (y & Hy & _)]; [done | by apply elem_of_nil in Hy]].
  - rewrite IH, Q.max_lt_iff. split.
    + intros [[H | H] | (y & Hy & Hlt)]; [by left | right; exists z; split; [by left | done] |].
      right. exists y. split; [by right | done].
    + intros [H | (y & [-> | Hy]%elem_of_cons & Hlt)]; [by left; left | by left; right |].
      right. by exists y.
Qed.

Lemma np_max_lt t (l : list Q) :
  l <> [] -> (t < np_max l <-> exists y, y ∈ l /\ t < y).
Proof.
  destruct l as [| x l]; [done |]. intros _. simpl. rewrite foldl_Qmax_lt. split.
  - intros [H | (y & Hy & Hlt)]; [exists x; split; [by left | done] |].
    exists y. split; [by right | done].
  - intros (y & [-> | Hy]%elem_of_cons & Hlt); [by left |]. right. by exists y.
Qed.

(** The tags each metric raises. *)
Lemma glucose_adaptations rd :
  adaptations (_analyze_glucose_trends rd)
  = if bool_decide (present glucose_mg_dl rd <> [])
       && Qlt_bool glucose_high (np_max (present glucose_mg_dl rd))
    then [HIGH_GLUCOSE] else [].
Proof.
  unfold _analyze_glucose_trends.
  destruct (present glucose_mg_dl rd) as [| g gs]; [done |].
  simpl. by destruct (Qlt_bool glucose_high _).
Qed.

Lemma activity_adaptations rd :
  adaptations (_analyze_activity_trends rd)
  = if bool_decide (present steps rd <> [])
       && Qlt_bool (mean (map inject_Z (present steps rd))) steps_low
    then [LOW_ACTIVITY] else [].
Proof.
  unfold _analyze_activity_trends.
  destruct (present steps rd) as [| g gs]; [done |].
  simpl. by destruct (Qlt_bool _ steps_low).
Qed.

Lemma sleep_adaptations rd :
  adaptations (_analyze_sleep_trends rd)
  = if bool_decide (present sleep_hours rd <> [])
       && Qlt_bool (mean (present sleep_hours rd)) sleep_poor
    then [POOR_SLEEP] else [].
Proof.
  unfold _analyze_sleep_trends.
  destruct (present sleep_hours rd) as [| g gs]; [done |].
  simpl. by destruct (Qlt_bool _ sleep_poor).
Qed.

Lemma heart_rate_adaptations rd :
  adaptations (_analyze_heart_rate_trends rd)
  = if bool_decide (present heart_rate rd <> [])
    then (if Qlt_bool heart_rate_high (mean (map inject_Z (present heart_rate rd)))
          then [HIGH_STRESS] else [])
         ++ (if Qlt_bool (20 * 20) (var (map inject_Z (present heart_rate rd)))
             then [HIGH_STRESS] else [])
    else [].
Proof.
  unfold _analyze_heart_rate_trends.
  destruct (present heart_rate rd) as [| g gs]; [done |].
  simpl. by destruct (Qlt_bool heart_rate_high _), (Qlt_bool (20 * 20) _).
Qed.

Lemma weight_adaptations rd :
  adaptations (_analyze_weight_trends rd)
  = if (2 <=? length (present weight_kg rd))%nat
       && Qlt_bool weight_change_significant
            (Py.abs (default 0 (last (present weight_kg rd))
                     - default 0 (head (present weight_kg rd))))
    then [WEIGHT_CHANGE] else [].
Proof.
  unfold _analyze_weight_trends.
  destruct (length (present weight_kg rd) <? 2)%nat eqn:E.
  - apply Nat.ltb_lt in E. by rewrite (proj2 (Nat.leb_gt _ _)) by lia.
  - apply Nat.ltb_ge in E. rewrite (proj2 (Nat.leb_le _ _)) by lia.
    simpl. by destruct (Qlt_bool weight_change_significant _).
Qed.

Lemma adaptations_needed_eq now bio days :
  adaptations_needed (analyze_biometric_trends now bio days)
  = let rd := recent_data now bio days in
    adaptations (_analyze_glucose_trends rd)
    ++ adaptations (_analyze_activity_trends rd)
    ++ adaptations (_analyze_sleep_trends rd)
    ++ adaptations (_analyze_heart_rate_trends rd)
    ++ adaptations (_analyze_weight_trends rd).
Proof.
  destruct (recent_data now bio days) as [| r rd] eqn:E.
  - simpl. unfold analyze_biometric_trends. rewrite E. by destruct bio.
  - simpl. rewrite <- E.
    rewrite (proj2 (analyze_biometric_trends_recent now bio days ltac:(by rewrite E))).
    apply analyze_recent_adaptations.
Qed.

Lemma elem_of_if_singleton {A} (b : bool) (x y : A) :
  x ∈ (if b then [y] else []) <-> b = true /\ x = y.
Proof.
  destruct b.
  - rewrite list_elem_of_singleton. by intuition.
  - split; [by intros ?%elem_of_nil | by intros [? _]].
Qed.

(** X7: what raises each tag, over the samples of the analysis window:
    HIGH_GLUCOSE iff some glucose reading exceeds 140; LOW_ACTIVITY iff
    steps were recorded and average below 5000; POOR_SLEEP iff sleep was
    recorded and averages below 6 hours; HIGH_STRESS iff heart rates were
    recorded and their average exceeds 100 or their variance exceeds 20^2;
    WEIGHT_CHANGE iff at least two weights were recorded and the last
    differs from the first by more than 2 kg. *)
Theorem tag_triggers now bio days :
  let rd := recent_data now bio days in
  let tags := adaptations_needed (analyze_biometric_trends now bio days) in
  (HIGH_GLUCOSE ∈ tags <-> exists g, g ∈ present glucose_mg_dl rd /\ 140 < g)
  /\ (LOW_ACTIVITY ∈ tags <->
        present steps rd <> [] /\ mean (map inject_Z (present steps rd)) < 5000)
  /\ (POOR_SLEEP ∈ tags <->
        present sleep_hours rd <> [] /\ mean (present sleep_hours rd) < 6)
  /\ (HIGH_STRESS ∈ tags <->
        present heart_rate rd <> []
        /\ (100 < mean (map inject_Z (present heart_rate rd))
            \/ 20 * 20 < var (map inject_Z (present heart_rate rd))))
  /\ (WEIGHT_CHANGE ∈ tags <->
        (2 <= length (present weight_kg rd))%nat
        /\ 2 < Qabs (default 0 (last (present weight_kg rd))
                     - default 0 (head (present weight_kg rd)))).
Proof.
  intros rd tags. subst tags. rewrite adaptations_needed_eq. fold rd. cbv zeta.
  rewrite glucose_adaptations, activity_adaptations, sleep_adaptations,
    heart_rate_adaptations, weight_adaptations.
  assert (Hhr : forall x (b0 b1 b2 : bool),
            x ∈ (if b0 then (if b1 then [HIGH_STRESS] else [])
                            ++ (if b2 then [HIGH_STRESS] else []) else [])
            <-> b0 = true /\ (b1 = true \/ b2 = true) /\ x = HIGH_STRESS).
  { intros x b0 b1 b2. destruct b0; [| split; [by intros ?%elem_of_nil | by intros [? _]]].
    rewrite elem_of_app, !elem_of_if_singleton. by intuition. }
  set (cg := bool_decide (present glucose_mg_dl rd <> []) && _).
  set (ca := bool_decide (present steps rd <> []) && _).
  set (cs := bool_decide (present sleep_hours rd <> []) && _).
  set (ch0 := bool_decide (present heart_rate rd <> [])).
  set (ch1 := Qlt_bool heart_rate_high _).
  set (ch2 := Qlt_bool (20 * 20) _).
  set (cw := (2 <=? length (present weight_kg rd))%nat && _).
  assert (Hmem : forall x,
            x ∈ (if cg then [HIGH_GLUCOSE] else [])
                ++ (if ca then [LOW_ACTIVITY] else [])
                ++ (if cs then [POOR_SLEEP] else [])
                ++ (if ch0 then (if ch1 then [HIGH_STRESS] else [])
                                ++ (if ch2 then [HIGH_STRESS] else []) else [])
                ++ (if cw then [WEIGHT_CHANGE] else [])
            <-> (cg = true /\ x = HIGH_GLUCOSE) \/ (ca = true /\ x = LOW_ACTIVITY)
                \/ (cs = true /\ x = POOR_SLEEP)
                \/ (ch0 = true /\ (ch1 = true \/ ch2 = true) /\ x = HIGH_STRESS)
                \/ (cw = true /\ x = WEIGHT_CHANGE)).
  { intros x. rewrite !elem_of_app, Hhr, !elem_of_if_singleton. reflexivity. }
  assert (Hcg : cg = true <-> exists g, g ∈ present glucose_mg_dl rd /\ 140 < g).
  { unfold cg. rewrite andb_true_iff, bool_decide_eq_true, Qlt_bool_iff. split.
    - intros [Hne Hlt]. by apply np_max_lt.
    - intros Hex.
      assert (Hne : present glucose_mg_dl rd <> []).
      { destruct Hex as (g & Hg & _). intros E. rewrite E in Hg.
        by apply elem_of_nil in Hg. }
      split; [done | by apply np_max_lt]. }
  assert (Hca : ca = true <->
            present steps rd <> [] /\ mean (map inject_Z (present steps rd)) < 5000).
  { unfold ca. by rewrite andb_true_iff, bool_decide_eq_true, Qlt_bool_iff. }
  assert (Hcs : cs = true <->
            present sleep_hours rd <> [] /\ mean (present sleep_hours rd) < 6).
  { unfold cs. by rewrite andb_true_iff, bool_decide_eq_true, Qlt_bool_iff. }
  assert (Hch : ch0 = true /\ (ch1 = true \/ ch2 = true) <->
            present heart_rate rd <> []
            /\ (100 < mean (map inject_Z (present heart_rate rd))
                \/ 20 * 20 < var (map inject_Z (present heart_rate rd)))).
  { unfold ch0, ch1, ch2. by rewrite bool_decide_eq_true, !Qlt_bool_iff. }
  assert (Hcw : cw = true <->
            (2 <= length (present weight_kg rd))%nat
            /\ 2 < Qabs (default 0 (last (present weight_kg rd))
                         - default 0 (head (present weight_kg rd)))).
  { unfold cw. rewrite andb_true_iff, Nat.leb_le, Qlt_bool_iff.
    unfold weight_change_significant, Py.abs.
    set (change := Qabs _). split; intros [? ?]; (split; [done | lra]). }
  rewrite !Hmem, <- Hcg, <- Hca, <- Hcs, <- Hch, <- Hcw.
  clearbody cg ca cs ch0 ch1 ch2 cw.
  split; [| split; [| split; [| split]]]; split; intuition congruence.
Qed.

Lemma tag_triggers_witness :
  LOW_ACTIVITY ∈ adaptations_needed (analyze_biometric_trends the_day_after sedentary_day 7)
  /\ ~ POOR_SLEEP ∈ adaptations_needed
                     (analyze_biometric_trends the_day_after sedentary_day 7).
Proof.
  split.
  - apply (proj2 (proj1 (proj2 (tag_triggers the_day_after sedentary_day 7)))).
    split; [discriminate | reflexivity].
  - intros H.
    apply (proj1 (proj1 (proj2 (proj2 (tag_triggers the_day_after sedentary_day 7))))) in H
      as [H _].
    by apply H.
Defined.

(** *** The window *)

Lemma insert_asc_sorted x (l : list BiometricData) :
  StronglySorted older_first l ->
  StronglySorted older_first (insert_asc Z.ltb timestamp x l).
Proof.
  induction 1 as [| y l Hl IH Hy]; simpl.
  - repeat constructor.
  - destruct (timestamp y <? timestamp x)%Z eqn:E.
    + apply Z.ltb_lt in E. constructor; [exact IH |].
      rewrite (insert_asc_perm Z.ltb timestamp). constructor; [unfold older_first; lia | exact Hy].
    + apply Z.ltb_ge in E. constructor; [by constructor |].
      constructor; [exact E |].
      eapply Forall_impl; [exact Hy |]. unfold older_first. intros z Hz. simpl in *. lia.
Qed.

Lemma oldest_first_sorted (l : list BiometricData) :
  StronglySorted older_first (sorted Z.ltb timestamp false l).
Proof.
  unfold sorted. induction l as [| x l IH]; simpl.
  - constructor.
  - by apply insert_asc_sorted.
Qed.

Lemma insert_asc_front x (l : list BiometricData) :
  Forall (older_first x) l -> insert_asc Z.ltb timestamp x l = x :: l.
Proof.
  destruct l as [| y l]; [done |]. intros [Hy _]%Forall_cons. simpl.
  unfold older_first in Hy. by rewrite (proj2 (Z.ltb_ge _ _)) by lia.
Qed.

Lemma filter_insert_asc (P : BiometricData -> Prop) `{!forall x, Decision (P x)}
    x (l : list BiometricData) :
  StronglySorted older_first l ->
  filter P (insert_asc Z.ltb timestamp x l)
  = if decide (P x) then insert_asc Z.ltb timestamp x (filter P l) else filter P l.
Proof.
  induction 1 as [| y l Hl IH Hy]; simpl.
  - rewrite filter_cons, filter_nil. by destruct (decide (P x)).
  - destruct (timestamp y <? timestamp x)%Z eqn:E.
    + rewrite !filter_cons, IH.
      destruct (decide (P y)), (decide (P x)); simpl; by rewrite ?E.
    + apply Z.ltb_ge in E.
      assert (Hx : Forall (older_first x) (filter P (y :: l))).
      { apply Forall_forall. intros z [_ Hz]%list_elem_of_filter.
        apply elem_of_cons in Hz as [-> | Hz]; [exact E |].
        eapply Forall_forall in Hy; [| exact Hz]. unfold older_first in *. lia. }
      rewrite (filter_cons _ x). destruct (decide (P x)); [| done].
      by rewrite insert_asc_front.
Qed.

Lemma filter_sorted_asc (P : BiometricData -> Prop) `{!forall x, Decision (P x)}
    (l : list BiometricData) :
  filter P (sorted Z.ltb timestamp false l) = sorted Z.ltb timestamp false (filter P l).
Proof.
  induction l as [| x l IH]; [done |].
  change (sorted Z.ltb timestamp false (x :: l))
    with (insert_asc Z.ltb timestamp x (sorted Z.ltb timestamp false l)).
  rewrite filter_insert_asc by apply oldest_first_sorted.
  rewrite filter_cons, IH. by destruct (decide (P x)).
Qed.

Lemma filter_filter_same {A} (P : A -> Prop) `{!forall x, Decision (P x)} (l : list A) :
  filter P (filter P l) = filter P l.
Proof.
  induction l as [| x l IH]; [done |].
  rewrite filter_cons. destruct (decide (P x)) as [HPx | HPx]; [| done].
  by rewrite filter_cons, decide_True, IH.
Qed.

Lemma recent_data_sorted_filter now bio days :
  recent_data now bio days = sorted Z.ltb timestamp false (fresh_samples now days bio).
Proof. unfold recent_data, fresh_samples. cbv zeta. apply filter_sorted_asc. Qed.

Lemma fresh_samples_idem now days bio :
  fresh_samples now days (fresh_samples now days bio) = fresh_samples now days bio.
Proof. unfold fresh_samples. apply filter_filter_same. Qed.

Lemma analyze_fresh_samples now bio days :
  analyze_biometric_trends now bio days
  = analyze_biometric_trends now (fresh_samples now days bio) days.
Proof.
  unfold analyze_biometric_trends.
  rewrite !recent_data_sorted_filter, fresh_samples_idem.
  destruct bio as [| b bio]; [done |].
  destruct (fresh_samples now days (b :: bio)) as [| b' bio'] eqn:E; done.
Qed.

Lemma sorted_length {A K} (ltb : K -> K -> bool) (key : A -> K) reverse (l : list A) :
  length (sorted ltb key reverse l) = length l.
Proof. by rewrite sorted_perm. Qed.

Lemma analyze_no_fresh_samples now bio days :
  fresh_samples now days bio = [] ->
  analyze_biometric_trends now bio days = empty_analysis.
Proof. intros E. by rewrite analyze_fresh_samples, E. Qed.

(** X8: the analysis depends only on the samples inside its window: it
    equals the analysis of the history restricted to the samples at most
    [days_back] days old; when there is none it is the empty analysis, and
    otherwise ['data_points'] counts exactly those samples. *)
Theorem analysis_uses_fresh_samples now bio days :
  analyze_biometric_trends now bio days
  = analyze_biometric_trends now (fresh_samples now days bio) days
  /\ (fresh_samples now days bio = [] ->
      analyze_biometric_trends now bio days = empty_analysis)
  /\ (fresh_samples now days bio <> [] ->
      data_points (analyze_biometric_trends now bio days)
        = Some (length (fresh_samples now days bio))
      /\ analysis_period (analyze_biometric_trends now bio days) = Some days).
Proof.
  split; [apply analyze_fresh_samples |]. split; [apply analyze_no_fresh_samples |].
  intros Hne. unfold analyze_biometric_trends.
  rewrite recent_data_sorted_filter.
  destruct bio as [| b bio]; [done |].
  destruct (sorted Z.ltb timestamp false (fresh_samples now days (b :: bio)))
    as [| r rd] eqn:E.
  { apply (f_equal length) in E. rewrite sorted_length in E.
    by destruct (fresh_samples now days (b :: bio)). }
  rewrite <- E. destruct (analyze_recent _) as [[trs als] ads]. simpl.
  by rewrite sorted_length.
Qed.

Lemma analysis_uses_fresh_samples_witness :
  data_points (analyze_biometric_trends the_day_after sedentary_day 7)
    = Some (length (fresh_samples the_day_after 7 sedentary_day))
  /\ analysis_period (analyze_biometric_trends the_day_after sedentary_day 7) = Some 7%Z.
Proof.
  apply (proj2 (proj2 (analysis_uses_fresh_samples the_day_after sedentary_day 7))).
  discriminate.
Defined.

Lemma analyze_recent_alerts rd :
  (analyze_recent rd).1.2 =
  alerts (_analyze_glucose_trends rd)
  ++ alerts (_analyze_activity_trends rd)
  ++ alerts (_analyze_sleep_trends rd)
  ++ alerts (_analyze_heart_rate_trends rd)
  ++ alerts (_analyze_weight_trends rd).
Proof.
  assert (H : forall key t acc, (record_metric key t acc).1.2 = acc.1.2 ++ alerts t).
  { intros key t [[trs als] ads]. unfold record_metric.
    destruct (alerts t); simpl; [by rewrite app_nil_r | done]. }
  unfold analyze_recent. rewrite !H. simpl. by rewrite <- !app_assoc.
Qed.

Lemma metric_alerts_cover_tags rd :
  (length (adaptations (_analyze_glucose_trends rd))
     <= length (alerts (_analyze_glucose_trends rd)))%nat
  /\ (length (adaptations (_analyze_activity_trends rd))
     <= length (alerts (_analyze_activity_trends rd)))%nat
  /\ (length (adaptations (_analyze_sleep_trends rd))
     <= length (alerts (_analyze_sleep_trends rd)))%nat
  /\ (length (adaptations (_analyze_heart_rate_trends rd))
     <= length (alerts (_analyze_heart_rate_trends rd)))%nat
  /\ (length (adaptations (_analyze_weight_trends rd))
     <= length (alerts (_analyze_weight_trends rd)))%nat.
Proof.
  unfold _analyze_glucose_trends, _analyze_activity_trends, _analyze_sleep_trends,
    _analyze_heart_rate_trends, _analyze_weight_trends.
  repeat split; repeat case_match; simpl; rewrite ?length_app; simpl; lia.
Qed.

(** X9: the adaptation tags of an analysis come out in a fixed order:
    the list is a sublist of HIGH_GLUCOSE, LOW_ACTIVITY, POOR_SLEEP,
    HIGH_STRESS, HIGH_STRESS, WEIGHT_CHANGE, so it has at most six entries,
    only HIGH_STRESS can occur twice and no reserved tag occurs; and there
    are never more tags than alerts, each tag being raised together with an
    alert of its metric. *)
Theorem tags_in_emission_order now bio days :
  adaptations_needed (analyze_biometric_trends now bio days)
  `sublist_of` [HIGH_GLUCOSE; LOW_ACTIVITY; POOR_SLEEP; HIGH_STRESS; HIGH_STRESS;
                WEIGHT_CHANGE]
  /\ (length (adaptations_needed (analyze_biometric_trends now bio days))
      <= length (all_alerts (analyze_biometric_trends now bio days)))%nat.
Proof.
  split.
  - rewrite adaptations_needed_eq. simpl.
    rewrite glucose_adaptations, activity_adaptations, sleep_adaptations,
      heart_rate_adaptations, weight_adaptations.
    repeat case_match; simpl;
      repeat first [apply sublist_nil | apply sublist_skip; fail | constructor ].
  - rewrite adaptations_needed_eq. cbv zeta.
    destruct (recent_data now bio days) as [| r rd] eqn:E.
    { simpl. lia. }
    assert (Hal : all_alerts (analyze_biometric_trends now bio days)
                  = (analyze_recent (recent_data now bio days)).1.2).
    { unfold analyze_biometric_trends. rewrite E. destruct bio; [done |].
      by destruct (analyze_recent (r :: rd)) as [[trs als] ads]. }
    rewrite Hal, analyze_recent_alerts, E, !length_app.
    destruct (metric_alerts_cover_tags (r :: rd)) as (H1 & H2 & H3 & H4 & H5). lia.
Qed.

(** X10: the status labels agree with the tags of the same metric: with
    sleep recorded, POOR_SLEEP is raised exactly when the sleep status is
    "insufficient"; with steps recorded, a "sedentary" status always comes
    with LOW_ACTIVITY, and LOW_ACTIVITY only with a "sedentary" or "low"
    status; with heart rates recorded, a "high" status always comes with
    HIGH_STRESS. *)
Theorem status_agrees_with_tags rd :
  (present sleep_hours rd <> [] ->
     (POOR_SLEEP ∈ adaptations (_analyze_sleep_trends rd)
      <-> status (_analyze_sleep_trends rd) = Some "insufficient"%string))
  /\ (present steps rd <> [] ->
      (status (_analyze_activity_trends rd) = Some "sedentary"%string ->
         LOW_ACTIVITY ∈ adaptations (_analyze_activity_trends rd))
      /\ (LOW_ACTIVITY ∈ adaptations (_analyze_activity_trends rd) ->
          status (_analyze_activity_trends rd) = Some "sedentary"%string
          \/ status (_analyze_activity_trends rd) = Some "low"%string))
  /\ (present heart_rate rd <> [] ->
      status (_analyze_heart_rate_trends rd) = Some "high"%string ->
      HIGH_STRESS ∈ adaptations (_analyze_heart_rate_trends rd)).
Proof.
  split; [| split].
  - intros Hne. rewrite sleep_adaptations, bool_decide_true by done. simpl.
    unfold _analyze_sleep_trends. destruct (present sleep_hours rd) as [| x l]; [done |].
    cbv zeta. cbn [status]. unfold _sleep_status_classification, sleep_poor,
      Config.POOR_SLEEP_THRESHOLD.
    set (avg := mean (x :: l)).
    destruct (Qlt_bool avg 6) eqn:E; [split; [done | intros _; apply list_elem_of_here] |].
    split; [by intros ?%elem_of_nil |].
    by repeat case_match.
  - intros Hne. rewrite activity_adaptations, bool_decide_true by done. simpl.
    unfold _analyze_activity_trends.
    destruct (present steps rd) as [| x l]; [done |].
    cbv zeta. cbn [status map]. unfold _activity_status_classification, steps_low,
      Config.LOW_ACTIVITY_THRESHOLD.
    set (avg := mean (inject_Z x :: map inject_Z l)).
    destruct (Qlt_bool avg 3000) eqn:E3.
    + apply Qlt_bool_iff in E3.
      assert (E5 : Qlt_bool avg 5000 = true) by (apply Qlt_bool_iff; lra).
      rewrite E5. split; [intros _; apply list_elem_of_here | by left].
    + split; [by repeat case_match |].
      destruct (Qlt_bool avg 5000) eqn:E5; [| by intros ?%elem_of_nil].
      intros _. right.
      apply Qlt_bool_iff in E5. apply Qlt_bool_false_iff in E3.
      assert (H1 : Qle_bool 3000 avg = true) by (by apply Qle_bool_iff).
      assert (H2 : Qle_bool avg 7000 = true) by (apply Qle_bool_iff; lra).
      by rewrite H1, H2.
  - intros Hne. rewrite heart_rate_adaptations, bool_decide_true by done.
    unfold _analyze_heart_rate_trends.
    destruct (present heart_rate rd) as [| x l]; [done |].
    cbv zeta. cbn [status map]. unfold _heart_rate_status_classification, heart_rate_high.
    set (avg := mean (inject_Z x :: map inject_Z l)).
    destruct (Qlt_bool avg 60) eqn:E1; [done |].
    destruct (Qle_bool 60 avg && Qle_bool avg 80) eqn:E2; [done |].
    destruct (Qlt_bool 80 avg && Qle_bool avg 100) eqn:E3; [done |].
    intros _.
    assert (E : Qlt_bool 100 avg = true).
    { apply Qlt_bool_iff. apply Qlt_bool_false_iff in E1.
      apply andb_false_iff in E2, E3.
      destruct (Qlt_le_dec 100 avg) as [? | Hle]; [done | exfalso].
      destruct E3 as [E3 | E3].
      - apply Qlt_bool_false_iff in E3.
        destruct E2 as [E2 | E2].
        + assert (H : Qle_bool 60 avg = true) by (by apply Qle_bool_iff). congruence.
        + assert (H : Qle_bool avg 80 = true) by (by apply Qle_bool_iff). congruence.
      - assert (H : Qle_bool avg 100 = true) by (by apply Qle_bool_iff). congruence. }
    rewrite E. apply elem_of_app. left. apply list_elem_of_here.
Qed.

Lemma status_agrees_with_tags_witness :
  POOR_SLEEP ∈ adaptations (_analyze_sleep_trends short_night).
Proof.
  apply (proj2 (proj1 (status_agrees_with_tags short_night) ltac:(discriminate))).
  reflexivity.
Defined.

(** *** Trend direction *)

Lemma sum_app (l1 l2 : list Q) : sum (l1 ++ l2) == sum l1 + sum l2.
Proof. induction l1 as [| x l1 IH]; simpl; [ring | rewrite IH; ring]. Qed.

Lemma index_S (n : nat) : index (S n) == index n + 1.
Proof.
  unfold index. rewrite Nat2Z.inj_succ, <- Z.add_1_r, inject_Z_plus. reflexivity.
Qed.

Lemma sum_indices (n : nat) :
  2 * sum (map index (seq 0 n)) == index n * (index n - 1).
Proof.
  induction n as [| n IH]; [reflexivity |].
  rewrite seq_S, map_app, sum_app, index_S. simpl. lra.
Qed.

Lemma sum_squares (n : nat) :
  6 * sum (map (fun x => x * x) (map index (seq 0 n)))
  == (index n - 1) * index n * (2 * index n - 1).
Proof.
  induction n as [| n IH]; [reflexivity |].
  rewrite seq_S, !map_app, sum_app, index_S. simpl.
  set (sq := sum _) in *. set (i := index n) in *.
  assert (E : 6 * (sq + (i * i + 0)) == 6 * sq + 6 * i * i) by ring.
  rewrite E, IH. ring.
Qed.

Lemma zip_with_maps {A B C D} (g : B -> C -> D) (f1 : A -> B) (f2 : A -> C) (l : list A) :
  zip_with g (map f1 l) (map f2 l) = map (fun x => g (f1 x) (f2 x)) l.
Proof. induction l as [| x l IH]; simpl; [done | by rewrite IH]. Qed.

Lemma sum_linear (a s : Q) (l : list nat) :
  sum (map (fun i => a + s * index i) l) == a * len l + s * sum (map index l).
Proof.
  induction l as [| i l IH]; simpl; [unfold len; simpl; ring |].
  rewrite IH. unfold len. simpl length.
  rewrite Nat2Z.inj_succ, <- Z.add_1_r, inject_Z_plus. ring.
Qed.

Lemma sum_weighted_linear (a s : Q) (l : list nat) :
  sum (map (fun i => index i * (a + s * index i)) l)
  == a * sum (map index l) + s * sum (map (fun x => x * x) (map index l)).
Proof.
  induction l as [| i l IH]; simpl; [ring |]. rewrite IH. ring.
Qed.

Lemma len_index {A} (l : list A) : len l = index (length l).
Proof. reflexivity. Qed.

Lemma index_ge_2 (n : nat) : (2 <= n)%nat -> 2 <= index n.
Proof.
  intros Hn. unfold index. change 2 with (inject_Z 2).
  rewrite <- Zle_Qle. lia.
Qed.

Lemma Qlt_bool_compat (a a' b b' : Q) :
  a == a' -> b == b' -> Qlt_bool a b = Qlt_bool a' b'.
Proof.
  intros Ha Hb. destruct (Qlt_bool a' b') eqn:E.
  - apply Qlt_bool_iff in E. apply Qlt_bool_iff. lra.
  - apply Qlt_bool_false_iff in E. apply Qlt_bool_false_iff. lra.
Qed.

Lemma polyfit_slope_linear (a s : Q) (n : nat) :
  (2 <= n)%nat -> polyfit_slope (linear_series a s n) == s.
Proof.
  intros Hn. unfold polyfit_slope, linear_series.
  rewrite length_map, length_seq.
  change (fun i : nat => inject_Z (Z.of_nat i)) with index.
  rewrite zip_with_maps.
  pose proof (sum_indices n) as Hx. pose proof (sum_squares n) as Hxx.
  pose proof (sum_linear a s (seq 0 n)) as Hy.
  pose proof (sum_weighted_linear a s (seq 0 n)) as Hxy.
  pose proof (index_ge_2 n Hn) as Hi.
  rewrite len_index, length_map, length_seq.
  rewrite len_index, length_seq in Hy.
  set (sx := sum (map index (seq 0 n))) in *.
  set (sxx := sum (map (fun x => x * x) (map index (seq 0 n)))) in *.
  set (sy := sum (map (fun i => a + s * index i) (seq 0 n))) in *.
  set (sxy := sum (map (fun x => index x * (a + s * index x)) (seq 0 n))) in *.
  set (i := index n) in *. clearbody sx sxx sy sxy i.
  assert (Hd : 12 * (i * sxx - sx * sx) == i * i * (i - 1) * (i + 1)).
  { assert (E : 12 * (i * sxx - sx * sx) == 2 * i * (6 * sxx) - 3 * ((2 * sx) * (2 * sx)))
      by ring.
    rewrite E, Hx, Hxx. ring. }
  assert (Hpos : 0 < i * i * (i - 1) * (i + 1)).
  { repeat apply Qmult_lt_0_compat; lra. }
  assert (Hne : ~ i * sxx - sx * sx == 0) by lra.
  setoid_rewrite Hy. setoid_rewrite Hxy. field. exact Hne.
Qed.

(** X11: on a series of at least two values that changes by the same
    step [s] from each value to the next, the fitted slope is [s], so the
    trend is "increasing" when [s > 0.1], "decreasing" when [s < -0.1] and
    "stable" otherwise, whatever the starting value. *)
Theorem trend_of_linear_series (a s : Q) (n : nat) :
  (2 <= n)%nat ->
  polyfit_slope (linear_series a s n) == s
  /\ _calculate_trend_direction (linear_series a s n)
     = if Qlt_bool 0.1 s then "increasing"
       else if Qlt_bool s (-0.1) then "decreasing"
       else "stable".
Proof.
  intros Hn. pose proof (polyfit_slope_linear a s n Hn) as Hs.
  split; [exact Hs |].
  unfold _calculate_trend_direction.
  replace (length (linear_series a s n)) with n
    by (unfold linear_series; by rewrite length_map, length_seq).
  rewrite (proj2 (Nat.ltb_ge n 2)) by lia.
  rewrite (Qlt_bool_compat 0.1 0.1 _ s ltac:(reflexivity) Hs).
  by rewrite (Qlt_bool_compat _ s (-0.1) (-0.1) Hs ltac:(reflexivity)).
Qed.

Lemma trend_of_linear_series_witness :
  polyfit_slope (linear_series 90 5 4) == 5
  /\ _calculate_trend_direction (linear_series 90 5 4) = "increasing"%string.
Proof. apply (trend_of_linear_series 90 5 4). lia. Defined.
End MoreAnalyzer.

(** ** Further properties: the meal adaptation engine *)

Section MoreMeals.
Import MealAdaptationEngine BiometricAnalyzer.

Ltac dict_step :=
  cbv beta iota zeta delta
    [mbind mret D_bind D_ret contains_key imul imul_if_present getitem get lift
     setitem mul_float mul_int add for_in default from_option id
     scale_nutrients nutrients poor_sleep_body high_glucose_body weight_loss_body].

Ltac dict_lookup :=
  repeat first
    [ rewrite lookup_insert_eq
    | rewrite lookup_insert_ne by done
    | match goal with
      | H : ?d !! ?k = _ |- context [?d !! ?k] => rewrite H
      end ].

Ltac dict_run := repeat (progress (dict_step; dict_lookup)).

Ltac in_nutrients :=
  unfold nutrients; repeat first [apply list_elem_of_here | apply list_elem_of_further].

(** *** Uniform scaling on arbitrary meals *)

Lemma scale_keys_type_error f (keys : list string) (d : dict) :
  Exists (fun k => ~ numeric_at d k) keys ->
  (for_in keys (imul_if_present f) d).2 = Raise TypeError.
Proof.
  revert d. induction keys as [| k0 keys IH]; intros d Hex; [by inversion Hex |].
  simpl. rewrite bindD_run.
  destruct (d !! k0) as [[q | s | l] |] eqn:E.
  - rewrite imul_if_present_run by (unfold numeric_at; by rewrite E). rewrite E.
    apply IH. apply Exists_cons in Hex as [Hk0 | Hex].
    { exfalso. apply Hk0. unfold numeric_at. by rewrite E. }
    eapply Exists_impl; [exact Hex |]. intros k Hk Hn. apply Hk.
    unfold numeric_at in *. destruct (decide (k = k0)) as [-> | Hne].
    + by rewrite E.
    + by rewrite lookup_insert_ne in Hn.
  - by dict_run.
  - by dict_run.
  - rewrite imul_if_present_run by (unfold numeric_at; by rewrite E). rewrite E.
    apply IH. apply Exists_cons in Hex as [Hk0 | Hex]; [| done].
    exfalso. apply Hk0. unfold numeric_at. by rewrite E.
Qed.

Lemma not_numeric_exists (d : dict) :
  ~ numeric d -> Exists (fun k => ~ numeric_at d k) nutrients.
Proof.
  intros Hn. apply not_Forall_Exists in Hn; [done |].
  intros k. unfold numeric_at.
  destruct (d !! k) as [[| |] |]; simpl; first [by left | right; tauto].
Qed.

(** X12: the uniform scaling of the low-activity, high-stress and
    weight-gain strategies runs to the end exactly on meals whose nutrient
    entries, where present, are numbers: it multiplies each present entry
    of calories, protein, carbs and fat, skips absent ones and leaves every
    other key alone; on a meal with a non-numeric nutrient entry it raises
    [TypeError]. *)
Theorem scale_nutrients_outcome f (d : dict) :
  (numeric d ->
     (scale_nutrients f d).2 = Ok tt
     /\ forall k, (scale_nutrients f d).1 !! k =
          if decide (k ∈ nutrients) then scale_value f <$> d !! k else d !! k)
  /\ (~ numeric d -> (scale_nutrients f d).2 = Raise TypeError).
Proof.
  split.
  - intros Hn. exact (scale_nutrients_run f d Hn).
  - intros Hn. apply scale_keys_type_error. by apply not_numeric_exists.
Qed.

(** *** The weight-loss statements *)

Lemma complete_lookup (d : dict) k :
  complete d -> k ∈ nutrients -> exists q, d !! k = Some (VNum q).
Proof. intros Hc Hk. by apply Hc. Qed.

Lemma complete_intro (d : dict) p c cb f :
  d !! "protein" = Some (VNum p) -> d !! "calories" = Some (VNum c) ->
  d !! "carbs" = Some (VNum cb) -> d !! "fat" = Some (VNum f) -> complete d.
Proof.
  intros Hp Hc Hcb Hf k
    [-> | [-> | [-> | [-> | []%elem_of_nil]%elem_of_cons]%elem_of_cons]%elem_of_cons]%elem_of_cons;
    eauto.
Qed.

(** X13: the statements of the weight-loss branch run to the end exactly
    on meals that hold all four nutrient entries as numbers; on a numeric
    meal that lacks one of them they raise [KeyError], where the scaling
    strategies skip the entry.  On a complete meal protein is multiplied by
    1.1, calories by 1.05, carbs and fat by 1.02. *)
Theorem weight_loss_body_outcome (d : dict) :
  ((weight_loss_body d).2 = Ok tt <-> complete d)
  /\ (numeric d -> ~ complete d -> (weight_loss_body d).2 = Raise KeyError)
  /\ (complete d ->
      forall k q, d !! k = Some (VNum q) -> k ∈ nutrients ->
        (weight_loss_body d).1 !! k
        = Some (VNum (q * (if decide (k = "protein") then 1.1
                           else if decide (k = "calories") then 1.05 else 1.02)))).
Proof.
  assert (Hrun : forall p c cb f,
            d !! "protein" = Some (VNum p) -> d !! "calories" = Some (VNum c) ->
            d !! "carbs" = Some (VNum cb) -> d !! "fat" = Some (VNum f) ->
            weight_loss_body d =
            (<["fat" := VNum (f * 1.02)]>
               (<["carbs" := VNum (cb * 1.02)]>
                  (<["calories" := VNum (c * 1.05)]>
                     (<["protein" := VNum (p * 1.1)]> d))), Ok tt)).
  { intros p c cb f Hp Hc Hcb Hf. by dict_run. }
  split; [| split].
  - split.
    + intros Hok.
      destruct (d !! "protein") as [[p | |] |] eqn:Ep; [| (revert Hok; dict_run; done) ..].
      destruct (d !! "calories") as [[c | |] |] eqn:Ec;
        [| (revert Hok; dict_run; done) ..].
      destruct (d !! "carbs") as [[cb | |] |] eqn:Ecb;
        [| (revert Hok; dict_run; done) ..].
      destruct (d !! "fat") as [[f | |] |] eqn:Ef;
        [| (revert Hok; dict_run; done) ..].
      by eapply complete_intro.
    + intros Hc.
      destruct (Hc "protein" ltac:(in_nutrients)) as [p Hp].
      destruct (Hc "calories" ltac:(in_nutrients)) as [c Hcal].
      destruct (Hc "carbs" ltac:(in_nutrients)) as [cb Hcb].
      destruct (Hc "fat" ltac:(in_nutrients)) as [f Hf].
      by rewrite (Hrun p c cb f).
  - intros Hn Hnc.
    destruct (numeric_lookup d "protein" Hn ltac:(in_nutrients)) as [Ep | [p Ep]];
      [by dict_run |].
    destruct (numeric_lookup d "calories" Hn ltac:(in_nutrients)) as [Ec | [c Ec]];
      [by dict_run |].
    destruct (numeric_lookup d "carbs" Hn ltac:(in_nutrients)) as [Ecb | [cb Ecb]];
      [by dict_run |].
    destruct (numeric_lookup d "fat" Hn ltac:(in_nutrients)) as [Ef | [f Ef]];
      [by dict_run |].
    exfalso. apply Hnc. by eapply complete_intro.
  - intros Hc k q Hk Hin.
    destruct (Hc "protein" ltac:(in_nutrients)) as [p Hp].
    destruct (Hc "calories" ltac:(in_nutrients)) as [c Hcal].
    destruct (Hc "carbs" ltac:(in_nutrients)) as [cb Hcb].
    destruct (Hc "fat" ltac:(in_nutrients)) as [f Hf].
    rewrite (Hrun p c cb f) by done. cbn [fst].
    apply elem_of_cons in Hin as [-> | Hin]; [dict_lookup; simpl; congruence |].
    apply elem_of_cons in Hin as [-> | Hin]; [dict_lookup; simpl; congruence |].
    apply elem_of_cons in Hin as [-> | Hin]; [dict_lookup; simpl; congruence |].
    apply elem_of_cons in Hin as [-> | Hin]; [dict_lookup; simpl; congruence |].
    by apply elem_of_nil in Hin.
Qed.

(** *** Keys the strategies write *)

Lemma writes_only_ret {A} keys (a : A) : writes_only keys (mret a : D A).
Proof. by intros d k _. Qed.

Lemma writes_only_bind {A B} keys (c : D A) (k : A -> D B) :
  writes_only keys c -> (forall a, writes_only keys (k a)) ->
  writes_only keys (c ≫= k).
Proof.
  intros Hc Hk d key Hkey. rewrite bindD_run.
  specialize (Hc d key Hkey). destruct (c d) as [d' [a | e]]; simpl in *; [| done].
  by rewrite (Hk a d' key Hkey).
Qed.

Lemma writes_only_lift {A} keys (r : result A) : writes_only keys (lift r).
Proof. by intros d k _. Qed.

Lemma writes_only_contains_key keys k : writes_only keys (contains_key k).
Proof. by intros d k' _. Qed.

Lemma writes_only_getitem keys k : writes_only keys (getitem k).
Proof. by intros d k' _. Qed.

Lemma writes_only_get keys k v : writes_only keys (get k v).
Proof. by intros d k' _. Qed.

Lemma writes_only_setitem keys k v : k ∈ keys -> writes_only keys (setitem k v).
Proof.
  intros Hk d k' Hk'. unfold setitem. simpl.
  rewrite lookup_insert_ne; [done | by intros ->].
Qed.

Lemma writes_only_imul keys k f : k ∈ keys -> writes_only keys (imul k f).
Proof.
  intros Hk. unfold imul.
  apply writes_only_bind; [apply writes_only_getitem | intros v].
  apply writes_only_bind; [apply writes_only_lift | intros w].
  by apply writes_only_setitem.
Qed.

Lemma writes_only_imul_if_present keys k f :
  k ∈ keys -> writes_only keys (imul_if_present f k).
Proof.
  intros Hk. unfold imul_if_present.
  apply writes_only_bind; [apply writes_only_contains_key | intros [|]].
  - by apply writes_only_imul.
  - apply writes_only_ret.
Qed.

Lemma writes_only_for_in {A} keys (l : list A) (body : A -> D unit) :
  (forall x, x ∈ l -> writes_only keys (body x)) -> writes_only keys (for_in l body).
Proof.
  induction l as [| x l IH]; intros Hb; simpl; [apply writes_only_ret |].
  apply writes_only_bind; [apply Hb, list_elem_of_here | intros _].
  apply IH. intros y Hy. apply Hb. by apply list_elem_of_further.
Qed.

Ltac writes_only_steps :=
  repeat first
    [ apply writes_only_ret
    | apply writes_only_lift
    | apply writes_only_contains_key
    | apply writes_only_getitem
    | apply writes_only_get
    | apply writes_only_setitem; in_nutrients
    | apply writes_only_imul; in_nutrients
    | apply writes_only_imul_if_present; in_nutrients
    | apply writes_only_bind; [| intros ?]
    | match goal with |- writes_only _ (if ?b then _ else _) => destruct b end ].

Lemma writes_only_scale_nutrients f : writes_only nutrients (scale_nutrients f).
Proof.
  unfold scale_nutrients. apply writes_only_for_in. intros k Hk.
  by apply writes_only_imul_if_present.
Qed.

Lemma writes_only_strategy_body a tag : writes_only nutrients (strategy_body a tag).
Proof.
  destruct tag; unfold strategy_body; repeat case_match;
    try apply writes_only_scale_nutrients;
    unfold high_glucose_body, poor_sleep_body, weight_loss_body;
    writes_only_steps.
Qed.

Lemma meal_effects_other_keys a tags (d : dict) k :
  k ∉ nutrients -> meal_effects a tags d !! k = d !! k.
Proof.
  intros Hk. revert d. induction tags as [| tag tags IH]; intros d; [done |].
  simpl. rewrite IH. by apply writes_only_strategy_body.
Qed.

(** X14: an adaptation that applies at least one strategy to complete
    meals returns, for each input meal, a new meal that is complete again
    and agrees with the input meal on every key other than the four
    nutrients (meal type and items are kept). *)
Theorem adaptation_keeps_other_entries now (meals : list loc) profile bio (h : store) :
  let a := analyze_biometric_trends now bio 7 in
  adaptations_needed a <> [] ->
  all_meals complete h meals ->
  exists h' expl,
    adapt_meal_plan now meals profile bio h
      = (h', Ok (seq (length h) (length meals), expl))
    /\ forall i r d, meals !! i = Some r -> h !! r = Some d ->
         exists d', h' !! (length h + i)%nat = Some d'
           /\ complete d'
           /\ forall k, k ∉ nutrients -> d' !! k = d !! k.
Proof.
  intros a Htags Hmeals.
  destruct (adapt_meal_plan_effect now meals profile bio h Htags Hmeals)
    as (h' & expl & Hrun & Heff & _).
  exists h', expl. split; [exact Hrun |].
  intros i r d Hi Hr. eexists. split; [by eapply Heff |]. split.
  - apply meal_effects_complete.
    destruct (Hmeals r) as (d0 & Hd0 & Hc); [by eapply list_elem_of_lookup_2 |].
    rewrite Hr in Hd0. by injection Hd0 as ->.
  - intros k Hk. by apply meal_effects_other_keys.
Qed.

(** *** Explanations *)

Ltac run_cases H :=
  repeat match type of H with
         | context [match ?x with _ => _ end] =>
             destruct x eqn:?; simpl in H; try discriminate H
         end.

Lemma strategy_explains tag strat a profile (meals ms : list loc) (h h' : store) expl :
  adaptation_strategies tag = Some strat ->
  strat meals a profile h = (h', Ok (ms, expl)) ->
  expl = explanation_of a tag.
Proof.
  intros Hs Hrun.
  destruct tag; simpl in Hs; try discriminate Hs; injection Hs as <-;
    unfold _adapt_for_high_glucose, _adapt_for_low_activity, _adapt_for_poor_sleep,
      _adapt_for_high_stress, _adapt_for_weight_change,
      trends_getitem, info_getitem, lift_result in Hrun;
    cbv [mbind M_bind mret M_ret] in Hrun;
    unfold explanation_of, glucose_reduction_factor, trend_number;
    match type of Hrun with
    | context [trends a !! ?k] =>
        destruct (trends a !! k) as [info |] eqn:Et; [| discriminate Hrun]
    end;
    match type of Hrun with
    | context [numbers ?i !! ?k] =>
        destruct (numbers i !! k) as [q |] eqn:En; simpl in Hrun
    end;
    run_cases Hrun; simplify_eq; simpl;
    repeat match goal with
           | H : Qlt_bool _ _ = _ |- _ => rewrite H; clear H
           end; done.
Qed.

Lemma apply_adaptations_explains tags a profile (meals ms : list loc) made
    (h h' : store) expl :
  apply_adaptations tags a profile meals made h = (h', Ok (ms, expl)) ->
  expl = made ++ filter (fun e => truthy e = true) (map (explanation_of a) tags).
Proof.
  revert meals made h. induction tags as [| tag tags IH]; intros meals made h Hrun.
  - simpl in Hrun. injection Hrun as _ _ <-. by rewrite app_nil_r.
  - simpl in Hrun. rewrite map_cons, filter_cons.
    destruct (adaptation_strategies tag) as [strat |] eqn:Es.
    + rewrite bind_run in Hrun.
      destruct (strat meals a profile h) as [h1 [[ms1 e1] | err]] eqn:E1; [| done].
      pose proof (strategy_explains _ _ _ _ _ _ _ _ _ Es E1) as ->.
      apply IH in Hrun. rewrite Hrun.
      destruct (truthy (explanation_of a tag)) eqn:Et.
      * rewrite decide_True by done. by rewrite <- app_assoc.
      * by rewrite decide_False by done.
    + apply IH in Hrun. rewrite Hrun.
      rewrite decide_False; [done |]. by destruct tag.
Qed.

Lemma trend_number_lookup a metric key info q :
  trends a !! metric = Some info -> numbers info !! key = Some q ->
  trend_number a metric key = q.
Proof. intros Ht Hn. unfold trend_number. by rewrite Ht, Hn. Qed.

Lemma tag_explanation now bio days tag :
  let a := analyze_biometric_trends now bio days in
  tag ∈ adaptations_needed a ->
  explanation_of a tag = window_explanation (recent_data now bio days) tag
  /\ truthy (explanation_of a tag) = true.
Proof.
  intros a Htag.
  destruct (analyze_biometric_trends_recent now bio days) as [Htr Had].
  { apply tags_need_recent_data. intros E. subst a. rewrite E in Htag.
    by apply elem_of_nil in Htag. }
  subst a. rewrite Had, analyze_recent_adaptations in Htag.
  rewrite analyze_recent_trends in Htr.
  set (a := analyze_biometric_trends now bio days) in *.
  set (rd := recent_data now bio days) in *.
  rewrite !elem_of_app in Htag.
  destruct Htag as [H | [H | [H | [H | H]]]].
  - apply glucose_tags in H as [-> Hn].
    unfold explanation_of, window_explanation, glucose_reduction_factor.
    rewrite (trend_number_lookup a "glucose" "maximum" _ _ ltac:(rewrite Htr;
      repeat (rewrite lookup_insert_ne by done); by rewrite lookup_insert_eq) Hn).
    done.
  - apply activity_tags in H as [-> Hn].
    unfold explanation_of, window_explanation.
    rewrite (trend_number_lookup a "activity" "average_steps" _ _ ltac:(rewrite Htr;
      repeat (rewrite lookup_insert_ne by done); by rewrite lookup_insert_eq) Hn).
    done.
  - apply sleep_tags in H as [-> Hn].
    unfold explanation_of, window_explanation.
    rewrite (trend_number_lookup a "sleep" "average_hours" _ _ ltac:(rewrite Htr;
      repeat (rewrite lookup_insert_ne by done); by rewrite lookup_insert_eq) Hn).
    done.
  - apply heart_rate_tags in H as [-> Hn].
    unfold explanation_of, window_explanation.
    rewrite (trend_number_lookup a "heart_rate" "average_bpm" _ _ ltac:(rewrite Htr;
      repeat (rewrite lookup_insert_ne by done); by rewrite lookup_insert_eq) Hn).
    done.
  - assert (Htag : tag = WEIGHT_CHANGE) by (by apply weight_tags in H as [-> _]).
    subst tag. rewrite weight_adaptations in H.
    destruct ((2 <=? length (present weight_kg rd))%nat) eqn:Elen;
      [| by apply elem_of_nil in H].
    simpl in H.
    destruct (Qlt_bool weight_change_significant _) eqn:Esig;
      [| by apply elem_of_nil in H].
    apply Nat.leb_le in Elen. apply Qlt_bool_iff in Esig.
    unfold weight_change_significant, Py.abs in Esig.
    assert (Hn : numbers (_analyze_weight_trends rd) !! "total_change_kg"
                 = Some (default 0 (last (present weight_kg rd))
                         - default 0 (head (present weight_kg rd)))).
    { unfold _analyze_weight_trends.
      rewrite (proj2 (Nat.ltb_ge _ _)) by lia. cbv zeta. simpl.
      by rewrite lookup_insert_eq. }
    unfold explanation_of, window_explanation.
    rewrite (trend_number_lookup a "weight" "total_change_kg" _ _ ltac:(rewrite Htr;
      by rewrite lookup_insert_eq) Hn).
    cbv zeta. set (change := _ - _) in *. clearbody change.
    destruct (Qlt_le_dec 0 change) as [Hpos | Hneg].
    + rewrite Qabs_pos in Esig by lra.
      rewrite (proj2 (Qlt_bool_iff 1 change)) by lra.
      by rewrite (proj2 (Qlt_bool_iff 0 change)) by lra.
    + rewrite Qabs_neg in Esig by lra.
      rewrite (proj2 (Qlt_bool_false_iff 1 change)) by lra.
      rewrite (proj2 (Qlt_bool_iff change (-1))) by lra.
      by rewrite (proj2 (Qlt_bool_false_iff 0 change)) by lra.
Qed.

Lemma truthy_explanations (f g : AdaptationReason -> explanation)
    (tags : list AdaptationReason) :
  (forall tag, tag ∈ tags -> f tag = g tag /\ truthy (f tag) = true) ->
  filter (fun e => truthy e = true) (map f tags) = map g tags.
Proof.
  induction tags as [| tag tags IH]; intros Hall; [done |].
  destruct (Hall tag ltac:(apply list_elem_of_here)) as [He Ht].
  rewrite map_cons, filter_cons, decide_True by done.
  rewrite map_cons, He. f_equal. apply IH.
  intros tag' Htag'. apply Hall. by apply list_elem_of_further.
Qed.

(** X15: applied to complete meals, an adaptation returns exactly one
    explanation per tag, in the order of the tags, each built from the
    statistic of the analysis window that raised the tag; a WEIGHT_CHANGE
    tag always explains a gain or a loss, never nothing. *)
Theorem one_explanation_per_tag now (meals : list loc) profile bio (h : store) :
  let a := analyze_biometric_trends now bio 7 in
  let rd := recent_data now bio 7 in
  adaptations_needed a <> [] ->
  all_meals complete h meals ->
  exists h',
    adapt_meal_plan now meals profile bio h
    = (h', Ok (seq (length h) (length meals),
               map (window_explanation rd) (adaptations_needed a))).
Proof.
  intros a rd Htags Hmeals.
  destruct (adapt_meal_plan_effect now meals profile bio h Htags Hmeals)
    as (h' & expl & Hrun & _).
  exists h'. rewrite Hrun. do 3 f_equal.
  unfold adapt_meal_plan in Hrun. fold a in Hrun.
  destruct (adaptations_needed a) as [| t ts] eqn:Et; [done |]. rewrite <- Et in *.
  rewrite bind_run in Hrun.
  destruct (list_comp copy meals h) as [h1 [copies | e]]; [| done].
  apply apply_adaptations_explains in Hrun. rewrite Hrun. simpl.
  apply truthy_explanations. intros tag Htag. by apply tag_explanation.
Qed.

Lemma adapt_without_tags now (meals : list loc) profile bio (h : store) :
  adaptations_needed (analyze_biometric_trends now bio 7) = [] ->
  adapt_meal_plan now meals profile bio h = (h, Ok (meals, [])).
Proof. intros E. unfold adapt_meal_plan. by rewrite E. Qed.

(** X16: a history in which every sample is older than seven days is
    treated like an empty one: the meals come back as they are, with no
    explanation, and the store is untouched. *)
Theorem stale_history_is_a_no_op now (meals : list loc) profile bio (h : store) :
  Forall (fun d => (timestamp d < now - 7 * microseconds_per_day)%Z) bio ->
  adapt_meal_plan now meals profile bio h = (h, Ok (meals, [])).
Proof.
  intros Hold. apply adapt_without_tags.
  rewrite analyze_no_fresh_samples; [done |].
  unfold fresh_samples. induction Hold as [| d bio Hd _ IH]; [done |].
  rewrite filter_cons, decide_False by lia. exact IH.
Qed.
End MoreMeals.

Section EngineWitnesses.
Import MealAdaptationEngine BiometricAnalyzer.

Lemma sedentary_day_tags :
  adaptations_needed (analyze_biometric_trends the_day_after sedentary_day 7) <> [].
Proof. by vm_compute. Qed.

Lemma scale_nutrients_outcome_witness :
  (scale_nutrients 0.85 mistyped_meal).2 = Raise TypeError
  /\ (scale_nutrients 0.85 fatless_meal).2 = Ok tt.
Proof.
  split.
  - apply (proj2 (scale_nutrients_outcome 0.85 mistyped_meal)).
    intros H. apply Forall_cons in H as [_ H]. apply Forall_cons in H as [H _].
    exact H.
  - apply (proj1 (scale_nutrients_outcome 0.85 fatless_meal)).
    repeat constructor.
Defined.

Lemma weight_loss_body_outcome_witness :
  (weight_loss_body fatless_meal).2 = Raise KeyError
  /\ (weight_loss_body sample_meal).2 = Ok tt.
Proof.
  split.
  - apply (proj1 (proj2 (weight_loss_body_outcome fatless_meal))).
    + repeat constructor.
    + intros H. destruct (H "fat"%string) as [q Hq]; [| discriminate Hq].
      unfold nutrients. repeat first [apply list_elem_of_here | apply list_elem_of_further].
  - apply (proj1 (weight_loss_body_outcome sample_meal)).
    intros k Hk. destruct (sample_meal_complete 0%nat) as (d & [= <-] & Hc);
      [apply list_elem_of_here |]. by apply Hc.
Defined.

Lemma adaptation_keeps_other_entries_witness :
  exists h' expl,
    adapt_meal_plan the_day_after [0%nat] scenario_profile sedentary_day [sample_meal]
      = (h', Ok (seq 1 1, expl))
    /\ forall i r d, [0%nat] !! i = Some r -> [sample_meal] !! r = Some d ->
         exists d', h' !! (1 + i)%nat = Some d'
           /\ complete d'
           /\ forall k, k ∉ nutrients -> d' !! k = d !! k.
Proof.
  exact (adaptation_keeps_other_entries the_day_after [0%nat] scenario_profile
           sedentary_day [sample_meal] sedentary_day_tags sample_meal_complete).
Defined.

Lemma one_explanation_per_tag_witness :
  exists h',
    adapt_meal_plan the_day_after [0%nat] scenario_profile sedentary_day [sample_meal]
    = (h', Ok (seq 1 1,
               map (window_explanation (recent_data the_day_after sedentary_day 7))
                 (adaptations_needed
                    (analyze_biometric_trends the_day_after sedentary_day 7)))).
Proof.
  exact (one_explanation_per_tag the_day_after [0%nat] scenario_profile
           sedentary_day [sample_meal] sedentary_day_tags sample_meal_complete).
Defined.

Lemma stale_history_is_a_no_op_witness :
  adapt_meal_plan the_day_after [0%nat] scenario_profile [steps_sample last_year 1000]
    [sample_meal]
  = ([sample_meal], Ok ([0%nat], [])).
Proof.
  apply (stale_history_is_a_no_op the_day_after [0%nat] scenario_profile
           [steps_sample last_year 1000] [sample_meal]).
  repeat constructor.
Defined.
End EngineWitnesses.

(** ** Further properties: the planner's adaptations and totals *)

Section Planner.
Import MealAdaptationEngine BiometricAnalyzer MealPlanGenerator ProfileHistory.

Ltac dict_step :=
  cbv beta iota zeta delta
    [mbind mret D_bind D_ret contains_key imul imul_if_present getitem get lift
     setitem mul_float mul_int add for_in default from_option id
     scale_nutrients nutrients glucose_body sleep_body recompute_calories].

Ltac dict_lookup :=
  repeat first
    [ rewrite lookup_insert_eq
    | rewrite lookup_insert_ne by done
    | match goal with
      | H : ?d !! ?k = _ |- context [?d !! ?k] => rewrite H
      end ].

Ltac dict_run := repeat (progress (dict_step; dict_lookup)).

Ltac in_nutrients :=
  unfold nutrients; repeat first [apply list_elem_of_here | apply list_elem_of_further].

Ltac complete_cases d Hc :=
  pose proof (Hc "calories"%string ltac:(in_nutrients)) as [? ?];
  pose proof (Hc "protein"%string ltac:(in_nutrients)) as [? ?];
  pose proof (Hc "carbs"%string ltac:(in_nutrients)) as [? ?];
  pose proof (Hc "fat"%string ltac:(in_nutrients)) as [? ?].

Ltac complete_goal :=
  intros ? [-> | [-> | [-> | [-> | []%elem_of_nil]%elem_of_cons]%elem_of_cons]%elem_of_cons]%elem_of_cons;
  cbn [fst snd]; dict_lookup; eauto.

Lemma decide_numeric (d : dict) : numeric d \/ ~ numeric d.
Proof.
  assert (Hdec : forall k, numeric_at d k \/ ~ numeric_at d k).
  { intros k. unfold numeric_at. destruct (d !! k) as [[| |] |]; tauto. }
  unfold numeric, nutrients.
  destruct (Hdec "calories"%string), (Hdec "protein"%string),
    (Hdec "carbs"%string), (Hdec "fat"%string);
    first [ left; repeat (apply List.Forall_cons; [assumption |]); by apply List.Forall_nil
          | right; intros HF; inversion HF as [| ? ? ? HF1]; subst;
            inversion HF1 as [| ? ? ? HF2]; subst;
            inversion HF2 as [| ? ? ? HF3]; subst;
            inversion HF3; subst; tauto ].
Qed.

Lemma glucose_body_entries (d : dict) c p f :
  d !! "carbs" = Some (VNum c) -> d !! "protein" = Some (VNum p) ->
  d !! "fat" = Some (VNum f) ->
  glucose_body d =
    (<["calories" := VNum (p * 4 + c * 0.8 * 4 + f * 9)]>
       (<["carbs" := VNum (c * 0.8)]> d), Ok tt).
Proof. intros Hc Hp Hf. by dict_run. Qed.

Lemma sleep_body_entries (d : dict) c p f :
  d !! "carbs" = Some (VNum c) -> d !! "protein" = Some (VNum p) ->
  d !! "fat" = Some (VNum f) ->
  sleep_body d =
    (<["calories" := VNum (p * 1.1 * 4 + c * 4 + f * 9)]>
       (<["protein" := VNum (p * 1.1)]> d), Ok tt).
Proof. intros Hc Hp Hf. by dict_run. Qed.

Lemma glucose_body_complete (d : dict) :
  complete d -> succeeds glucose_body d /\ complete (effect glucose_body d).
Proof.
  intros Hc. complete_cases d Hc. unfold succeeds, effect.
  erewrite glucose_body_entries by eassumption. split; [done |]. complete_goal.
Qed.

Lemma sleep_body_complete (d : dict) :
  complete d -> succeeds sleep_body d /\ complete (effect sleep_body d).
Proof.
  intros Hc. complete_cases d Hc. unfold succeeds, effect.
  erewrite sleep_body_entries by eassumption. split; [done |]. complete_goal.
Qed.

Lemma scale_nutrients_complete f (d : dict) :
  complete d -> succeeds (scale_nutrients f) d /\ complete (effect (scale_nutrients f) d).
Proof.
  intros Hc. destruct (scale_nutrients_run f d (complete_numeric d Hc)) as [Hs He].
  split; [exact Hs |]. intros k Hk. rewrite He, decide_True by done.
  destruct (Hc k Hk) as [q ->]. by eexists.
Qed.

(** One conditional loop of the planner. *)
Lemma when_loop_run (b : bool) (op : D unit) (meals : list loc) (h : store) :
  (forall d, complete d -> succeeds op d /\ complete (effect op d)) ->
  NoDup meals -> all_meals complete h meals ->
  exists h', when b (for_each meals (fun meal => at_loc meal op)) h = (h', Ok tt)
    /\ length h' = length h
    /\ (forall r, r ∈ meals -> h' !! r = (if b then effect op else id) <$> h !! r)
    /\ (forall r, r ∉ meals -> h' !! r = h !! r)
    /\ all_meals complete h' meals.
Proof.
  intros Hop Hnd Hall. destruct b; simpl.
  - destruct (for_each_at_loc_exact op meals h Hnd) as (h' & Hrun & Hlen & Hin & Hout).
    { intros r Hr. destruct (Hall r Hr) as (d & Hd & Hc). exists d. split; [done |].
      by apply Hop. }
    exists h'. split; [done |]. split; [done |]. split; [done |]. split; [done |].
    intros r Hr. destruct (Hall r Hr) as (d & Hd & Hc).
    exists (effect op d). rewrite (Hin r Hr), Hd. split; [done |]. by apply Hop.
  - exists h. split; [done |]. split; [done |]. split; [| done].
    intros r _. by destruct (h !! r).
Qed.

(** The three loops of the planner, one after the other. *)
Lemma planner_loops_run (meals : list loc) profile bio latest (h : store) :
  max_by timestamp bio = Some latest ->
  NoDup meals ->
  all_meals complete h meals ->
  let high_glucose :=
    measured_above (glucose_mg_dl latest) Config.HIGH_GLUCOSE_THRESHOLD in
  let low_activity :=
    measured_below (inject_Z <$> steps latest) Config.LOW_ACTIVITY_THRESHOLD in
  let poor_sleep := measured_below (sleep_hours latest) Config.POOR_SLEEP_THRESHOLD in
  exists h',
    _apply_biometric_adaptations meals profile bio h
      = (h', Ok (meals,
                 String.concat "; "
                   ((if high_glucose
                     then ["Reduced carbohydrate portions due to elevated glucose"%string]
                     else [])
                    ++ (if low_activity
                        then ["Reduced portion sizes due to low activity level"%string]
                        else [])
                    ++ (if poor_sleep
                        then ["Increased protein portions to support recovery from poor sleep"%string]
                        else []))))
    /\ length h' = length h
    /\ (forall r d, r ∈ meals -> h !! r = Some d ->
          h' !! r
          = Some ((if poor_sleep then effect sleep_body else id)
                    ((if low_activity then effect (scale_nutrients 0.85) else id)
                       ((if high_glucose then effect glucose_body else id) d))))
    /\ (forall r, r ∉ meals -> h' !! r = h !! r)
    /\ all_meals complete h' meals.
Proof.
  intros Hl Hnd Hall high_glucose low_activity poor_sleep.
  unfold _apply_biometric_adaptations. rewrite Hl. cbv beta iota zeta.
  fold high_glucose low_activity poor_sleep.
  destruct (when_loop_run high_glucose glucose_body meals h glucose_body_complete Hnd Hall)
    as (h1 & Hrun1 & Hlen1 & Hin1 & Hout1 & Hall1).
  destruct (when_loop_run low_activity (scale_nutrients 0.85) meals h1
              (scale_nutrients_complete 0.85) Hnd Hall1)
    as (h2 & Hrun2 & Hlen2 & Hin2 & Hout2 & Hall2).
  destruct (when_loop_run poor_sleep sleep_body meals h2 sleep_body_complete Hnd Hall2)
    as (h3 & Hrun3 & Hlen3 & Hin3 & Hout3 & Hall3).
  exists h3.
  rewrite bind_run, Hrun1, bind_run, Hrun2, bind_run, Hrun3.
  split; [done |]. split; [lia |]. split; [| split; [| done]].
  - intros r d Hr Hd. rewrite (Hin3 r Hr), (Hin2 r Hr), (Hin1 r Hr), Hd. done.
  - intros r Hr. by rewrite (Hout3 r Hr), (Hout2 r Hr), (Hout1 r Hr).
Qed.

(** The conditions of the three rules, on the readings themselves. *)
Lemma glucose_rule_condition latest :
  measured_above (glucose_mg_dl latest) Config.HIGH_GLUCOSE_THRESHOLD
  = glucose_rule_fires latest.
Proof.
  unfold measured_above, glucose_rule_fires, Config.HIGH_GLUCOSE_THRESHOLD.
  destruct (glucose_mg_dl latest) as [g |]; [| done].
  destruct (Qlt_bool 140 g) eqn:E; [| by rewrite andb_false_r].
  rewrite andb_true_r. apply negb_true_iff.
  destruct (Qeq_bool g 0) eqn:E0; [| done].
  apply Qeq_bool_iff in E0. apply Qlt_bool_iff in E. lra.
Qed.

Lemma activity_rule_condition latest :
  measured_below (inject_Z <$> steps latest) Config.LOW_ACTIVITY_THRESHOLD
  = activity_rule_fires latest.
Proof.
  unfold measured_below, activity_rule_fires, Config.LOW_ACTIVITY_THRESHOLD.
  destruct (steps latest) as [s |]; [| done]. cbn [fmap option_fmap option_map].
  assert (H0 : Qeq_bool (inject_Z s) 0 = bool_decide (s = 0)%Z).
  { destruct (Qeq_bool (inject_Z s) 0) eqn:E0.
    - apply Qeq_bool_iff in E0. unfold Qeq in E0. simpl in E0.
      symmetry. apply bool_decide_eq_true. lia.
    - symmetry. apply bool_decide_eq_false. intros ->. by vm_compute in E0. }
  assert (H1 : Qlt_bool (inject_Z s) 5000 = bool_decide (s < 5000)%Z).
  { destruct (Qlt_bool (inject_Z s) 5000) eqn:E1.
    - apply Qlt_bool_iff in E1. change 5000 with (inject_Z 5000) in E1.
      rewrite <- Zlt_Qlt in E1. symmetry. by apply bool_decide_eq_true.
    - apply Qlt_bool_false_iff in E1. change 5000 with (inject_Z 5000) in E1.
      rewrite <- Zle_Qle in E1. symmetry. apply bool_decide_eq_false. lia. }
  rewrite H0, H1.
  repeat case_bool_decide; simpl; try done; lia.
Qed.

Lemma sleep_rule_condition latest :
  measured_below (sleep_hours latest) Config.POOR_SLEEP_THRESHOLD
  = sleep_rule_fires latest.
Proof. reflexivity. Qed.

(** What each rule makes of the four nutrient values of a meal; no rule
    writes another key. *)
Lemma nutrient_values_complete (d : dict) cal p c f :
  nutrient_values d cal p c f -> complete d.
Proof.
  intros (Hcal & Hp & Hc & Hf) k
    [-> | [-> | [-> | [-> | []%elem_of_nil]%elem_of_cons]%elem_of_cons]%elem_of_cons]%elem_of_cons;
    by eexists.
Qed.

Lemma other_key k :
  k ∉ nutrients ->
  k <> "calories"%string /\ k <> "protein"%string /\ k <> "carbs"%string
  /\ k <> "fat"%string.
Proof.
  intros Hk. repeat split; intros ->; apply Hk; in_nutrients.
Qed.

Lemma glucose_rule_values (d : dict) cal p c f :
  nutrient_values d cal p c f ->
  nutrient_values (effect glucose_body d) (p * 4 + c * 0.8 * 4 + f * 9) p (c * 0.8) f
  /\ forall k, k ∉ nutrients -> effect glucose_body d !! k = d !! k.
Proof.
  intros (Hcal & Hp & Hc & Hf). unfold effect.
  rewrite (glucose_body_entries d c p f Hc Hp Hf). cbn [fst].
  split.
  - repeat split; dict_lookup; done.
  - intros k (? & ? & ? & ?)%other_key. by dict_lookup.
Qed.

Lemma sleep_rule_values (d : dict) cal p c f :
  nutrient_values d cal p c f ->
  nutrient_values (effect sleep_body d) (p * 1.1 * 4 + c * 4 + f * 9) (p * 1.1) c f
  /\ forall k, k ∉ nutrients -> effect sleep_body d !! k = d !! k.
Proof.
  intros (Hcal & Hp & Hc & Hf). unfold effect.
  rewrite (sleep_body_entries d c p f Hc Hp Hf). cbn [fst].
  split.
  - repeat split; dict_lookup; done.
  - intros k (? & ? & ? & ?)%other_key. by dict_lookup.
Qed.

Lemma activity_rule_values factor (d : dict) cal p c f :
  nutrient_values d cal p c f ->
  nutrient_values (effect (scale_nutrients factor) d)
    (cal * factor) (p * factor) (c * factor) (f * factor)
  /\ forall k, k ∉ nutrients -> effect (scale_nutrients factor) d !! k = d !! k.
Proof.
  intros Hv.
  pose proof (complete_numeric d (nutrient_values_complete d cal p c f Hv)) as Hn.
  destruct (scale_nutrients_run factor d Hn) as [_ Hlook].
  destruct Hv as (Hcal & Hp & Hc & Hf).
  split.
  - repeat split; rewrite Hlook, decide_True by in_nutrients;
      by rewrite ?Hcal, ?Hp, ?Hc, ?Hf.
  - intros k Hk. by rewrite Hlook, decide_False.
Qed.

(** X17: the planner's own adaptation pass works in place: on complete
    meals at distinct locations it returns the very list it was given and
    rewrites each of those meal objects according to the latest sample
    alone, a reading of 0 counting as no reading.  With glucose above 140
    the carbs are multiplied by 0.8 and the calories set to
    protein*4 + carbs*4 + fat*9; then with fewer than 5000 steps all four
    nutrients are multiplied by 0.85; then with less than 6 hours of sleep
    the protein is multiplied by 1.1 and the calories derived again.  No
    other entry of a meal and no other object changes, and the notes of the
    rules that fired are joined with "; ". *)
Theorem planner_adapts_in_place (meals : list loc) profile bio latest (h : store) :
  max_by timestamp bio = Some latest ->
  NoDup meals ->
  all_meals complete h meals ->
  exists h',
    _apply_biometric_adaptations meals profile bio h
      = (h', Ok (meals, String.concat "; " (planner_notes latest)))
    /\ length h' = length h
    /\ (forall r d calories protein carbs fat,
          r ∈ meals -> h !! r = Some d ->
          nutrient_values d calories protein carbs fat ->
          exists d', h' !! r = Some d'
            /\ (let '(calories', protein', carbs', fat') :=
                  planned_nutrients latest calories protein carbs fat in
                nutrient_values d' calories' protein' carbs' fat')
            /\ forall k, k ∉ nutrients -> d' !! k = d !! k)
    /\ (forall r, r ∉ meals -> h' !! r = h !! r)
    /\ all_meals complete h' meals.
Proof.
  intros Hl Hnd Hall.
  destruct (planner_loops_run meals profile bio latest h Hl Hnd Hall)
    as (h' & Hrun & Hlen & Hin & Hout & Hall').
  rewrite glucose_rule_condition, activity_rule_condition, sleep_rule_condition
    in Hrun, Hin.
  exists h'. split; [exact Hrun |]. split; [exact Hlen |].
  split; [| split; [exact Hout | exact Hall']].
  intros r d cal p c f Hr Hd Hv.
  eexists. split; [exact (Hin r d Hr Hd) |].
  unfold planned_nutrients.
  destruct (glucose_rule_values d cal p c f Hv) as [Hg Hgo].
  destruct (glucose_rule_fires latest); cbn [id].
  - destruct (activity_rule_values 0.85 _ _ _ _ _ Hg) as [Ha Hao].
    destruct (activity_rule_fires latest); cbn [id].
    + destruct (sleep_rule_values _ _ _ _ _ Ha) as [Hs Hso].
      destruct (sleep_rule_fires latest); cbn [id].
      * split; [exact Hs |]. intros k Hk. by rewrite Hso, Hao, Hgo.
      * split; [exact Ha |]. intros k Hk. by rewrite Hao, Hgo.
    + destruct (sleep_rule_values _ _ _ _ _ Hg) as [Hs Hso].
      destruct (sleep_rule_fires latest); cbn [id].
      * split; [exact Hs |]. intros k Hk. by rewrite Hso, Hgo.
      * split; [exact Hg |]. exact Hgo.
  - destruct (activity_rule_values 0.85 _ _ _ _ _ Hv) as [Ha Hao].
    destruct (activity_rule_fires latest); cbn [id].
    + destruct (sleep_rule_values _ _ _ _ _ Ha) as [Hs Hso].
      destruct (sleep_rule_fires latest); cbn [id].
      * split; [exact Hs |]. intros k Hk. by rewrite Hso, Hao.
      * split; [exact Ha |]. exact Hao.
    + destruct (sleep_rule_values _ _ _ _ _ Hv) as [Hs Hso].
      destruct (sleep_rule_fires latest); cbn [id].
      * split; [exact Hs |]. exact Hso.
      * split; [exact Hv |]. done.
Qed.

Lemma recent_data_singleton now (x : BiometricData) days :
  (now - days * microseconds_per_day <= timestamp x)%Z ->
  recent_data now [x] days = [x].
Proof.
  intros Hx. unfold recent_data. simpl. by rewrite filter_cons, decide_True by done.
Qed.

(** X18: a reading of zero counts as no reading for the planner: with a
    latest sample of 0 steps and 0 hours of sleep it changes nothing and
    leaves no note, for any meals and any store, while the analyzer raises
    LOW_ACTIVITY and POOR_SLEEP for the same sample. *)
Theorem zero_readings_planner_vs_analyzer now t (meals : list loc) profile (h : store) :
  (now - 7 * microseconds_per_day <= t)%Z ->
  _apply_biometric_adaptations meals profile [idle_sample t] h
    = (h, Ok (meals, EmptyString))
  /\ adaptations_needed (analyze_biometric_trends now [idle_sample t] 7)
     = [LOW_ACTIVITY; POOR_SLEEP].
Proof.
  intros Ht. split; [reflexivity |].
  rewrite adaptations_needed_eq. cbv zeta.
  rewrite recent_data_singleton by done. by vm_compute.
Qed.

(** *** Totals *)

Lemma add_meal_numeric totals (meal : dict) :
  numeric meal -> add_meal totals meal = Ok (add_numbers totals meal).
Proof.
  intros Hn. unfold add_meal, add_numbers, num_or_zero.
  destruct (numeric_lookup meal "calories" Hn ltac:(in_nutrients)) as [E1 | [q1 E1]];
  destruct (numeric_lookup meal "protein" Hn ltac:(in_nutrients)) as [E2 | [q2 E2]];
  destruct (numeric_lookup meal "carbs" Hn ltac:(in_nutrients)) as [E3 | [q3 E3]];
  destruct (numeric_lookup meal "fat" Hn ltac:(in_nutrients)) as [E4 | [q4 E4]];
  by rewrite E1, E2, E3, E4.
Qed.

Lemma add_meal_type_error totals (meal : dict) :
  ~ numeric meal -> add_meal totals meal = Raise TypeError.
Proof.
  intros Hn. unfold add_meal.
  destruct (meal !! "calories") as [[q1 | |] |] eqn:E1; try done;
  destruct (meal !! "protein") as [[q2 | |] |] eqn:E2; try done;
  destruct (meal !! "carbs") as [[q3 | |] |] eqn:E3; try done;
  destruct (meal !! "fat") as [[q4 | |] |] eqn:E4; try done;
  exfalso; apply Hn; apply numeric_intro;
  intros ? [-> | [-> | [-> | [-> | []%elem_of_nil]%elem_of_cons]%elem_of_cons]%elem_of_cons]%elem_of_cons;
  rewrite ?E1, ?E2, ?E3, ?E4; eauto.
Qed.

Lemma add_meals_numeric totals (meals : list dict) :
  Forall numeric meals -> add_meals totals meals = Ok (foldl add_numbers totals meals).
Proof.
  intros Hn. revert totals. induction Hn as [| meal meals Hm _ IH]; intros totals; [done |].
  simpl. rewrite add_meal_numeric by done. simpl. apply IH.
Qed.

Lemma add_meals_type_error totals (meals : list dict) :
  ~ Forall numeric meals -> add_meals totals meals = Raise TypeError.
Proof.
  revert totals. induction meals as [| meal meals IH]; intros totals Hn.
  - exfalso. apply Hn. constructor.
  - simpl. destruct (add_meal totals meal) as [t | e] eqn:E.
    + simpl. apply IH. intros Hall. apply Hn. constructor; [| done].
      apply Forall_forall. intros k Hk. unfold numeric_at.
      destruct (meal !! k) as [[q | s | l] |] eqn:Ek; try done; exfalso.
      * assert (Hnn : ~ numeric meal).
        { intros Hm. eapply Forall_forall in Hm; [| exact Hk].
          unfold numeric_at in Hm. by rewrite Ek in Hm. }
        by rewrite (add_meal_type_error totals meal Hnn) in E.
      * assert (Hnn : ~ numeric meal).
        { intros Hm. eapply Forall_forall in Hm; [| exact Hk].
          unfold numeric_at in Hm. by rewrite Ek in Hm. }
        by rewrite (add_meal_type_error totals meal Hnn) in E.
    + simpl. destruct (decide_numeric meal) as [Hm | Hm].
      * by rewrite add_meal_numeric in E.
      * rewrite add_meal_type_error in E by done. congruence.
Qed.

Lemma foldl_add_numbers totals (meals : list dict) :
  let t := foldl add_numbers totals meals in
  total_calories t
    == total_calories totals + sum (map (fun m => num_or_zero m "calories") meals)
  /\ total_protein t
     == total_protein totals + sum (map (fun m => num_or_zero m "protein") meals)
  /\ total_carbs t
     == total_carbs totals + sum (map (fun m => num_or_zero m "carbs") meals)
  /\ total_fat t
     == total_fat totals + sum (map (fun m => num_or_zero m "fat") meals).
Proof.
  revert totals. induction meals as [| meal meals IH]; intros totals; simpl.
  - repeat split; ring.
  - destruct (IH (add_numbers totals meal)) as (H1 & H2 & H3 & H4).
    rewrite H1, H2, H3, H4. simpl. repeat split; ring.
Qed.

(** X19: [_calculate_total_nutrition] returns, for meals whose nutrient
    entries are numbers where present, the sums of the four nutrients over
    the meals, an absent entry counting as 0 (all zeros for no meal); it
    raises [TypeError] as soon as some meal holds a non-numeric nutrient
    entry. *)
Theorem total_nutrition_outcome (meals : list dict) :
  (Forall numeric meals ->
     exists t, _calculate_total_nutrition meals = Ok t
       /\ total_calories t == sum (map (fun m => num_or_zero m "calories") meals)
       /\ total_protein t == sum (map (fun m => num_or_zero m "protein") meals)
       /\ total_carbs t == sum (map (fun m => num_or_zero m "carbs") meals)
       /\ total_fat t == sum (map (fun m => num_or_zero m "fat") meals))
  /\ (~ Forall numeric meals -> _calculate_total_nutrition meals = Raise TypeError).
Proof.
  split.
  - intros Hn. unfold _calculate_total_nutrition.
    rewrite add_meals_numeric by done. eexists. split; [reflexivity |].
    destruct (foldl_add_numbers
                {| total_calories := 0; total_protein := 0; total_carbs := 0;
                   total_fat := 0 |} meals) as (H1 & H2 & H3 & H4).
    rewrite H1, H2, H3, H4. simpl. repeat split; ring.
  - intros Hn. by apply add_meals_type_error.
Qed.

(** *** The planner's cut followed by the engine's *)

Lemma mean_singleton (x : Q) : mean [x] == x.
Proof. unfold mean, len. simpl. field. Qed.

Lemma low_steps_tags now t (s : Z) :
  (now - 7 * microseconds_per_day <= t)%Z -> (s < 5000)%Z ->
  adaptations_needed (analyze_biometric_trends now [steps_sample t s] 7) = [LOW_ACTIVITY].
Proof.
  intros Ht Hs. rewrite adaptations_needed_eq. cbv zeta.
  rewrite recent_data_singleton by done.
  rewrite glucose_adaptations, activity_adaptations, sleep_adaptations,
    heart_rate_adaptations, weight_adaptations.
  simpl. change (present steps [steps_sample t s]) with [s]. simpl.
  assert (E : Qlt_bool (mean [inject_Z s]) steps_low = true).
  { apply Qlt_bool_iff. rewrite mean_singleton.
    unfold steps_low, Config.LOW_ACTIVITY_THRESHOLD.
    change 5000 with (inject_Z 5000). by rewrite <- Zlt_Qlt. }
  by rewrite E.
Qed.

(** X20: for a history of one recent sample with between 1 and 4999
    steps, running the planner's adaptation and then the engine's on the
    same meals, as the engine's plan generation does, cuts twice: the
    planner multiplies every nutrient of the caller's meals by 0.85 in
    place, and the engine returns copies multiplied by 0.85 once more
    (0.7225 of the optimizer's values), leaving the once-cut originals in
    the store. *)
Theorem low_activity_cut_twice now t (s : Z) (meals : list loc) profile (h : store) :
  (now - 7 * microseconds_per_day <= t)%Z ->
  (0 < s < 5000)%Z ->
  NoDup meals ->
  all_meals complete h meals ->
  exists h1 h2 expl,
    _apply_biometric_adaptations meals profile [steps_sample t s] h
      = (h1, Ok (meals, "Reduced portion sizes due to low activity level"%string))
    /\ adapt_meal_plan now meals profile [steps_sample t s] h1
       = (h2, Ok (seq (length h) (length meals), expl))
    /\ forall i r d, meals !! i = Some r -> h !! r = Some d ->
         exists d1 d2,
           h1 !! r = Some d1 /\ h2 !! r = Some d1
           /\ h2 !! (length h + i)%nat = Some d2
           /\ forall k q, k ∈ nutrients -> d !! k = Some (VNum q) ->
                d1 !! k = Some (VNum (q * 0.85))
                /\ d2 !! k = Some (VNum (q * 0.85 * 0.85)).
Proof.
  intros Ht Hs Hnd Hall.
  assert (Hlow : measured_below (Some (inject_Z s)) Config.LOW_ACTIVITY_THRESHOLD = true).
  { unfold measured_below. apply andb_true_iff. split.
    - apply negb_true_iff. destruct (Qeq_bool (inject_Z s) 0) eqn:E0; [| done].
      apply Qeq_bool_iff in E0. unfold Qeq in E0. simpl in E0. lia.
    - apply Qlt_bool_iff. unfold Config.LOW_ACTIVITY_THRESHOLD.
      change 5000 with (inject_Z 5000). rewrite <- Zlt_Qlt. lia. }
  destruct (when_loop_run true (scale_nutrients 0.85) meals h
              (scale_nutrients_complete 0.85) Hnd Hall)
    as (h1 & Hloop & Hlen1 & Hin1 & Hout1 & Hall1).
  assert (Hrun1 : _apply_biometric_adaptations meals profile [steps_sample t s] h
                  = (h1, Ok (meals, "Reduced portion sizes due to low activity level"%string))).
  { unfold _apply_biometric_adaptations.
    change (max_by timestamp [steps_sample t s]) with (Some (steps_sample t s)).
    cbv beta iota zeta.
    change (glucose_mg_dl (steps_sample t s)) with (@None Q).
    change (sleep_hours (steps_sample t s)) with (@None Q).
    change (inject_Z <$> steps (steps_sample t s)) with (Some (inject_Z s)).
    rewrite Hlow.
    change (measured_above None Config.HIGH_GLUCOSE_THRESHOLD) with false.
    change (measured_below None Config.POOR_SLEEP_THRESHOLD) with false.
    change (when false _) with (mret tt : M unit).
    rewrite bind_run. cbn [mret M_ret]. rewrite bind_run, Hloop. reflexivity. }
  pose proof (low_steps_tags now t s Ht ltac:(lia)) as Htags.
  destruct (adapt_meal_plan_effect now meals profile [steps_sample t s] h1)
    as (h2 & expl & Hrun2 & Heff2 & Hkeep2); [by rewrite Htags | done |].
  rewrite Hlen1 in Hrun2.
  exists h1, h2, expl. split; [exact Hrun1 |]. split; [exact Hrun2 |].
  intros i r d Hi Hr.
  assert (Hrin : r ∈ meals) by (by eapply list_elem_of_lookup_2).
  pose proof (Hin1 r Hrin) as Hd1. rewrite Hr in Hd1.
  cbn [fmap option_fmap option_map] in Hd1.
  destruct (Hall r Hrin) as (d' & Hd' & Hc). rewrite Hr in Hd'. injection Hd' as <-.
  pose proof (Heff2 i r _ Hi Hd1) as Hd2. rewrite Hlen1, Htags in Hd2.
  eexists _, _. split; [exact Hd1 |]. split; [by apply Hkeep2 |]. split; [exact Hd2 |].
  intros k q Hk Hq.
  pose proof (complete_numeric d Hc) as Hn.
  pose proof (scale_nutrients_numeric 0.85 d Hn) as Hn1.
  assert (E1 : effect (scale_nutrients 0.85) d !! k = Some (VNum (q * 0.85))).
  { rewrite (proj2 (scale_nutrients_run 0.85 d Hn)), decide_True, Hq by done. done. }
  split; [exact E1 |].
  change (meal_effects (analyze_biometric_trends now [steps_sample t s] 7)
            [LOW_ACTIVITY] (effect (scale_nutrients 0.85) d))
    with (effect (scale_nutrients 0.85) (effect (scale_nutrients 0.85) d)).
  rewrite (proj2 (scale_nutrients_run 0.85 _ Hn1)), decide_True, E1 by done. done.
Qed.

Lemma planner_adapts_in_place_witness :
  exists h',
    _apply_biometric_adaptations [0%nat] scenario_profile
      [steps_sample 0 1000; rough_day_sample 1] [sample_meal]
      = (h', Ok ([0%nat],
                 "Reduced carbohydrate portions due to elevated glucose; Reduced portion sizes due to low activity level; Increased protein portions to support recovery from poor sleep"%string))
    /\ exists d', h' !! 0%nat = Some d'
         /\ nutrient_values d'
              (10 * 0.85 * 1.1 * 4 + 10 * 0.8 * 0.85 * 4 + 10 * 0.85 * 9)
              (10 * 0.85 * 1.1) (10 * 0.8 * 0.85) (10 * 0.85)
         /\ d' !! "meal_type" = Some (VStr "lunch").
Proof.
  destruct (planner_adapts_in_place [0%nat] scenario_profile
              [steps_sample 0 1000; rough_day_sample 1] (rough_day_sample 1)
              [sample_meal])
    as (h' & Hrun & _ & Hin & _).
  - reflexivity.
  - apply NoDup_singleton.
  - exact sample_meal_complete.
  - exists h'. split; [exact Hrun |].
    destruct (Hin 0%nat sample_meal 100 10 10 10) as (d' & Hd' & Hv & Hother).
    + apply list_elem_of_here.
    + reflexivity.
    + by repeat split.
    + exists d'. split; [exact Hd' |]. split; [exact Hv |].
      rewrite Hother; [reflexivity |].
      unfold nutrients. intros Hk.
      repeat (apply elem_of_cons in Hk as [Hk | Hk]; [discriminate Hk |]).
      by apply elem_of_nil in Hk.
Defined.

Lemma zero_readings_planner_vs_analyzer_witness :
  _apply_biometric_adaptations [0%nat] scenario_profile [idle_sample 0] [sample_meal]
    = ([sample_meal], Ok ([0%nat], EmptyString))
  /\ adaptations_needed (analyze_biometric_trends the_day_after [idle_sample 0] 7)
     = [LOW_ACTIVITY; POOR_SLEEP].
Proof.
  apply (zero_readings_planner_vs_analyzer the_day_after 0 [0%nat] scenario_profile
           [sample_meal]).
  discriminate.
Defined.

Lemma total_nutrition_outcome_witness :
  _calculate_total_nutrition [mistyped_meal] = Raise TypeError
  /\ exists t, _calculate_total_nutrition [sample_meal; fatless_meal] = Ok t
               /\ total_calories t
                  == sum (map (fun m => num_or_zero m "calories")
                            [sample_meal; fatless_meal]).
Proof.
  split.
  - apply (proj2 (total_nutrition_outcome [mistyped_meal])).
    intros H. apply Forall_cons in H as [H _].
    apply Forall_cons in H as [_ H]. apply Forall_cons in H as [H _]. exact H.
  - destruct (proj1 (total_nutrition_outcome [sample_meal; fatless_meal]))
      as (t & Ht & Hc & _); [| by exists t].
    repeat constructor.
Defined.

Lemma low_activity_cut_twice_witness :
  exists h1 h2 expl,
    _apply_biometric_adaptations [0%nat] scenario_profile [steps_sample 0 1000]
      [sample_meal]
      = (h1, Ok ([0%nat], "Reduced portion sizes due to low activity level"%string))
    /\ adapt_meal_plan the_day_after [0%nat] scenario_profile [steps_sample 0 1000] h1
       = (h2, Ok (seq 1 1, expl))
    /\ forall i r d, [0%nat] !! i = Some r -> [sample_meal] !! r = Some d ->
         exists d1 d2,
           h1 !! r = Some d1 /\ h2 !! r = Some d1
           /\ h2 !! (1 + i)%nat = Some d2
           /\ forall k q, k ∈ nutrients -> d !! k = Some (VNum q) ->
                d1 !! k = Some (VNum (q * 0.85))
                /\ d2 !! k = Some (VNum (q * 0.85 * 0.85)).
Proof.
  apply (low_activity_cut_twice the_day_after 0 1000 [0%nat] scenario_profile
           [sample_meal]).
  - discriminate.
  - lia.
  - apply NoDup_singleton.
  - exact sample_meal_complete.
Defined.
End Planner.

(** ** Further properties: histories, preferences and food rules *)

Section History.
Import ProfileHistory BiometricAnalyzer.

Lemma foldl_max_ge {A} (key : A -> Z) (best : A) (l : list A) :
  (key best <= key (foldl (fun b y => if (key b <? key y)%Z then y else b) best l))%Z.
Proof.
  revert best. induction l as [| y l IH]; intros best; simpl; [lia |].
  destruct (key best <? key y)%Z eqn:E.
  - apply Z.ltb_lt in E. specialize (IH y). lia.
  - apply IH.
Qed.

Lemma foldl_max_split {A} (key : A -> Z) (best : A) (l : list A) :
  let x := foldl (fun b y => if (key b <? key y)%Z then y else b) best l in
  exists l1 l2, best :: l = l1 ++ x :: l2
    /\ (forall y, y ∈ l1 -> (key y < key x)%Z)
    /\ (forall y, y ∈ l2 -> (key y <= key x)%Z).
Proof.
  revert best. induction l as [| y l IH]; intros best; cbv zeta; simpl.
  - exists [], []. split; [done |]. split; intros y Hy; by apply elem_of_nil in Hy.
  - destruct (key best <? key y)%Z eqn:E.
    + apply Z.ltb_lt in E.
      destruct (IH y) as (l1 & l2 & Hl & H1 & H2).
      pose proof (foldl_max_ge key y l) as Hge.
      exists (best :: l1), l2. split; [by rewrite Hl |]. split; [| done].
      intros z [-> | Hz]%elem_of_cons; [lia | by apply H1].
    + apply Z.ltb_ge in E.
      destruct (IH best) as (l1 & l2 & Hl & H1 & H2).
      pose proof (foldl_max_ge key best l) as Hge.
      destruct l1 as [| b l1].
      * simpl in Hl. injection Hl as Hb Hl.
        exists [], (y :: l2). split; [simpl; congruence |].
        split; [intros z Hz; by apply elem_of_nil in Hz |].
        intros z [-> | Hz]%elem_of_cons; [lia | by apply H2].
      * simpl in Hl. injection Hl as <- Hl.
        exists (best :: y :: l1), l2. split; [simpl; do 2 f_equal; exact Hl |]. split; [| done].
        intros z [-> | [-> | Hz]%elem_of_cons]%elem_of_cons.
        -- apply H1. apply list_elem_of_here.
        -- assert (key best < key (foldl (fun b y => if (key b <? key y)%Z then y else b)
                                     best l))%Z; [| lia].
           apply H1. apply list_elem_of_here.
        -- apply H1. by apply list_elem_of_further.
Qed.

Lemma max_by_split {A} (key : A -> Z) (l : list A) x :
  max_by key l = Some x ->
  exists l1 l2, l = l1 ++ x :: l2
    /\ (forall y, y ∈ l1 -> (key y < key x)%Z)
    /\ (forall y, y ∈ l2 -> (key y <= key x)%Z).
Proof.
  destruct l as [| b l]; [done |]. simpl. intros [= <-]. apply foldl_max_split.
Qed.

Lemma max_by_is_Some {A} (key : A -> Z) (l : list A) : l <> [] -> is_Some (max_by key l).
Proof. destruct l; [done | by eexists]. Qed.

(** X21: [get_latest_biometrics] returns nothing for an empty history,
    and otherwise the first sample of the history whose timestamp is
    maximal: every earlier sample is strictly older, no later sample is
    newer. *)
Theorem latest_biometrics_is_first_maximum (biometric_data : list BiometricData) :
  (biometric_data = [] -> get_latest_biometrics biometric_data = None)
  /\ (biometric_data <> [] ->
      exists earlier latest later,
        get_latest_biometrics biometric_data = Some latest
        /\ biometric_data = earlier ++ latest :: later
        /\ (forall b, b ∈ earlier -> (timestamp b < timestamp latest)%Z)
        /\ (forall b, b ∈ later -> (timestamp b <= timestamp latest)%Z)).
Proof.
  split; [by intros -> |]. intros Hne.
  unfold get_latest_biometrics.
  destruct (max_by_is_Some timestamp biometric_data Hne) as [x Hx].
  destruct (max_by_split timestamp biometric_data x Hx) as (l1 & l2 & Hl & H1 & H2).
  exists l1, x, l2. split; [| done]. by destruct biometric_data.
Qed.

Lemma get_latest_max_by (l : list BiometricData) :
  get_latest_biometrics l = max_by timestamp l.
Proof. by destruct l. Qed.

(** X22: after [add_biometric_data] the stored history holds exactly the
    old samples and the new one that are at most 30 days old at the time of
    the call, so a stale new sample is dropped at once; the latest stored
    sample is never older than that; and a new sample that is recent enough
    and newer than every old one is the latest afterwards. *)
Theorem add_biometric_data_then_latest now (biometric_data : list BiometricData)
    (data : BiometricData) :
  let cutoff := (now - 30 * microseconds_per_day)%Z in
  let stored := add_biometric_data now biometric_data data in
  (forall b, b ∈ stored <-> (b ∈ biometric_data \/ b = data) /\ (cutoff <= timestamp b)%Z)
  /\ (forall x, get_latest_biometrics stored = Some x ->
        (cutoff <= timestamp x)%Z /\ forall b, b ∈ stored -> (timestamp b <= timestamp x)%Z)
  /\ ((cutoff <= timestamp data)%Z ->
      (forall b, b ∈ biometric_data -> (timestamp b < timestamp data)%Z) ->
      get_latest_biometrics stored = Some data).
Proof.
  intros cutoff stored.
  assert (Hin : forall b, b ∈ stored
                <-> (b ∈ biometric_data \/ b = data) /\ (cutoff <= timestamp b)%Z).
  { intros b. unfold stored, add_biometric_data. fold cutoff.
    rewrite list_elem_of_filter, elem_of_app, list_elem_of_singleton. tauto. }
  assert (Hmax : forall x, get_latest_biometrics stored = Some x ->
            x ∈ stored /\ forall b, b ∈ stored -> (timestamp b <= timestamp x)%Z).
  { intros x Hx. rewrite get_latest_max_by in Hx.
    destruct (max_by_split timestamp stored x Hx) as (l1 & l2 & Hl & H1 & H2).
    split; [rewrite Hl; apply elem_of_app; right; apply list_elem_of_here |].
    intros b Hb. rewrite Hl in Hb.
    apply elem_of_app in Hb as [Hb | [-> | Hb]%elem_of_cons];
      [specialize (H1 b Hb); lia | lia | by apply H2]. }
  split; [exact Hin |]. split.
  - intros x Hx. destruct (Hmax x Hx) as [Hxs Hle]. split; [| done].
    by apply Hin in Hxs as [_ ?].
  - intros Hfresh Hnew.
    assert (Hd : data ∈ stored) by (apply Hin; split; [by right | done]).
    destruct (max_by_is_Some timestamp stored) as [x Hx].
    { intros E. rewrite E in Hd. by apply elem_of_nil in Hd. }
    rewrite get_latest_max_by, Hx. f_equal.
    rewrite <- get_latest_max_by in Hx.
    destruct (Hmax x Hx) as [Hxs Hle].
    apply Hin in Hxs as [[Hxl | ->] _]; [| done].
    specialize (Hnew x Hxl). specialize (Hle data Hd). lia.
Qed.

(** *** Food preferences *)

Lemma elem_of_remove_first (x y : string) (l : list string) :
  NoDup l -> (y ∈ remove_first x l <-> y ∈ l /\ y <> x).
Proof.
  induction 1 as [| z l Hz Hnd IH]; simpl.
  - split; [by intros ?%elem_of_nil | by intros [?%elem_of_nil _]].
  - destruct (decide (z = x)) as [-> | Hne].
    + rewrite elem_of_cons. split.
      * intros Hy. split; [by right |]. by intros ->.
      * by intros [[-> | Hy] Hyx].
    + rewrite !elem_of_cons, IH. split.
      * intros [-> | [Hy Hyx]]; [split; [by left | done] | split; [by right | done]].
      * intros [[-> | Hy] Hyx]; [by left | by right].
Qed.

Lemma NoDup_remove_first (x : string) (l : list string) :
  NoDup l -> NoDup (remove_first x l).
Proof.
  induction 1 as [| z l Hz Hnd IH]; simpl; [constructor |].
  destruct (decide (z = x)); [done |].
  constructor; [| done]. rewrite elem_of_remove_first by done. tauto.
Qed.

Lemma NoDup_snoc (x : string) (l : list string) :
  NoDup l -> x ∉ l -> NoDup (l ++ [x]).
Proof.
  intros Hnd Hx. apply NoDup_app. split; [done |]. split; [| apply NoDup_singleton].
  intros y Hy ->%list_elem_of_singleton. done.
Qed.

(** X23: on preference lists without duplicates that share no food,
    [update_food_preferences] keeps both properties, puts the food into the
    preferred list and out of the avoided one when it was liked, the other
    way round when it was not, and leaves every other food where it was;
    the [strength] argument has no effect. *)
Theorem update_food_preferences_invariant (preferred avoided : list string)
    (food_name : string) (liked : bool) (strength : Q) :
  NoDup preferred -> NoDup avoided ->
  (forall x, x ∈ preferred -> x ∉ avoided) ->
  let preferred' := (update_food_preferences preferred avoided food_name liked strength).1 in
  let avoided' := (update_food_preferences preferred avoided food_name liked strength).2 in
  NoDup preferred' /\ NoDup avoided'
  /\ (forall x, x ∈ preferred' -> x ∉ avoided')
  /\ (food_name ∈ preferred' <-> liked = true)
  /\ (food_name ∈ avoided' <-> liked = false)
  /\ (forall x, x <> food_name ->
        (x ∈ preferred' <-> x ∈ preferred) /\ (x ∈ avoided' <-> x ∈ avoided)).
Proof.
  intros Hp Ha Hdisj preferred' avoided'. subst preferred' avoided'.
  unfold update_food_preferences.
  destruct liked; cbv zeta; cbn [fst snd];
    destruct (bool_decide (food_name ∈ preferred)) eqn:Ep;
    destruct (bool_decide (food_name ∈ avoided)) eqn:Ea;
    try apply bool_decide_eq_true in Ep; try apply bool_decide_eq_false in Ep;
    try apply bool_decide_eq_true in Ea; try apply bool_decide_eq_false in Ea;
    try (exfalso; by apply (Hdisj food_name)).
  all: repeat split;
    repeat first
      [ done
      | by apply NoDup_remove_first
      | by apply NoDup_snoc
      | progress intros ];
    repeat match goal with
           | H : _ ∈ remove_first _ _ |- _ => apply elem_of_remove_first in H; [| done]
           | H : _ ∈ _ ++ [_] |- _ => apply elem_of_app in H
           | H : _ ∈ [_] |- _ => apply list_elem_of_singleton in H
           | H : _ /\ _ |- _ => destruct H
           | H : _ \/ _ |- _ => destruct H
           | |- _ ∈ remove_first _ _ => apply elem_of_remove_first; [done |]
           | |- _ ∉ _ => intros ?
           | |- _ ∈ _ ++ [_] => apply elem_of_app
           end;
    subst;
    try done;
    try (by eapply Hdisj);
    try tauto;
    try (by left); try (by right; apply list_elem_of_singleton).
Qed.

Lemma latest_biometrics_is_first_maximum_witness :
  exists earlier latest later,
    get_latest_biometrics [steps_sample 1 100; steps_sample 3 300; steps_sample 3 301]
      = Some latest
    /\ [steps_sample 1 100; steps_sample 3 300; steps_sample 3 301]
       = earlier ++ latest :: later
    /\ (forall b, b ∈ earlier -> (timestamp b < timestamp latest)%Z)
    /\ (forall b, b ∈ later -> (timestamp b <= timestamp latest)%Z).
Proof.
  apply (proj2 (latest_biometrics_is_first_maximum
                  [steps_sample 1 100; steps_sample 3 300; steps_sample 3 301])).
  discriminate.
Defined.

Lemma add_biometric_data_then_latest_witness :
  get_latest_biometrics
    (add_biometric_data the_day_after [steps_sample 0 1000] (steps_sample 1 2000))
  = Some (steps_sample 1 2000).
Proof.
  apply (proj2 (proj2 (add_biometric_data_then_latest the_day_after [steps_sample 0 1000]
                         (steps_sample 1 2000)))).
  - discriminate.
  - intros b Hb. apply list_elem_of_singleton in Hb as ->. reflexivity.
Defined.

Lemma update_food_preferences_invariant_witness :
  let preferred' := (update_food_preferences ["rice"] ["liver"] "liver" true 1).1 in
  let avoided' := (update_food_preferences ["rice"] ["liver"] "liver" true 1).2 in
  NoDup preferred' /\ NoDup avoided'
  /\ (forall x, x ∈ preferred' -> x ∉ avoided')
  /\ ("liver"%string ∈ preferred' <-> true = true)
  /\ ("liver"%string ∈ avoided' <-> true = false)
  /\ (forall x, x <> "liver"%string ->
        (x ∈ preferred' <-> x ∈ ["rice"%string]) /\ (x ∈ avoided' <-> x ∈ ["liver"%string])).
Proof.
  apply (update_food_preferences_invariant ["rice"%string] ["liver"%string] "liver" true 1).
  - apply NoDup_singleton.
  - apply NoDup_singleton.
  - intros x Hx Hy. apply list_elem_of_singleton in Hx. apply list_elem_of_singleton in Hy.
    congruence.
Defined.
End History.

Section Foods.
Import FoodRules.

Lemma any_in_app (l1 l2 : list string) (s : string) :
  any_in (l1 ++ l2) s = any_in l1 s || any_in l2 s.
Proof. unfold any_in. apply existsb_app. Qed.

(** X24: the dietary checks are nested as their names suggest: a food
    that passes the VEGAN check passes the VEGETARIAN check, and one that
    passes the KETO check passes the LOW_CARB check; the PESCATARIAN, PALEO
    and LOW_FAT restrictions reject nothing. *)
Theorem stricter_diets (self : UserProfile) (food_data : dict) :
  (_check_dietary_restriction self food_data VEGAN = Ok true ->
   _check_dietary_restriction self food_data VEGETARIAN = Ok true)
  /\ (_check_dietary_restriction self food_data KETO = Ok true ->
      _check_dietary_restriction self food_data LOW_CARB = Ok true)
  /\ (forall restriction b,
        restriction ∈ [PESCATARIAN; PALEO; LOW_FAT] ->
        _check_dietary_restriction self food_data restriction = Ok b -> b = true).
Proof.
  unfold _check_dietary_restriction.
  destruct (str_lower (default (VStr "") (food_data !! "name"))) as [food_name | e];
    [| by repeat split; [| | intros r b _ ?]].
  destruct (str_lower (default (VStr "") (food_data !! "category"))) as [category | e];
    [| by repeat split; [| | intros r b _ ?]].
  simpl. split; [| split].
  - intros [= H]. f_equal.
    apply negb_true_iff in H. rewrite !orb_false_iff in H.
    repeat match goal with H : _ /\ _ |- _ => destruct H end.
    apply negb_true_iff. rewrite !orb_false_iff. by repeat split.
  - destruct (as_num (default (VNum 0) (food_data !! "carbs_g"))) as [carbs | e]; [| done].
    simpl. intros [= H]. f_equal. apply Qlt_bool_iff in H. apply Qlt_bool_iff. lra.
  - intros r b Hr.
    repeat (apply elem_of_cons in Hr as [-> | Hr]; [by intros [= <-] |]).
    by apply elem_of_nil in Hr.
Qed.

(** The loops of [is_food_allowed]. *)
Lemma unless_any_hit {A} (hit : A -> result bool) (l : list A) (rest : result bool) x :
  (forall y, y ∈ l -> exists b, hit y = Ok b) ->
  x ∈ l -> hit x = Ok true ->
  unless_any hit l rest = Ok false.
Proof.
  induction l as [| y l IH]; intros Hok Hx Hhit; [by apply elem_of_nil in Hx |].
  simpl. destruct (Hok y ltac:(apply list_elem_of_here)) as [b Hb]. rewrite Hb. simpl.
  destruct b; [done |].
  apply elem_of_cons in Hx as [-> | Hx]; [congruence |].
  apply IH; [| done | done]. intros z Hz. apply Hok. by apply list_elem_of_further.
Qed.

Lemma unless_any_miss {A} (hit : A -> result bool) (l : list A) (rest : result bool) :
  (forall y, y ∈ l -> hit y = Ok false) -> unless_any hit l rest = rest.
Proof.
  induction l as [| y l IH]; intros Hmiss; [done |].
  simpl. rewrite (Hmiss y) by apply list_elem_of_here. simpl.
  apply IH. intros z Hz. apply Hmiss. by apply list_elem_of_further.
Qed.

Lemma classic_hit {A} (hit : A -> result bool) (l : list A) :
  (forall y, y ∈ l -> exists b, hit y = Ok b) ->
  (exists x, x ∈ l /\ hit x = Ok true) \/ (forall y, y ∈ l -> hit y = Ok false).
Proof.
  induction l as [| y l IH]; intros Hok.
  - right. intros y Hy. by apply elem_of_nil in Hy.
  - destruct (Hok y ltac:(apply list_elem_of_here)) as [[|] Hb].
    + left. exists y. split; [apply list_elem_of_here | done].
    + destruct IH as [(x & Hx & Hhx) | Hmiss].
      * intros z Hz. apply Hok. by apply list_elem_of_further.
      * left. exists x. split; [by apply list_elem_of_further | done].
      * right. intros z [-> | Hz]%elem_of_cons; [done | by apply Hmiss].
Qed.

Lemma allergens_value (food_data : dict) :
  list_or_absent food_data "allergens" ->
  default (VList []) (food_data !! "allergens") = VList (food_allergens food_data).
Proof.
  unfold list_or_absent, food_allergens.
  by destruct (food_data !! "allergens") as [[| |] |].
Qed.

Lemma allergy_check_value (l : list string) food_name (allergy : string) :
  (in_allergens ← value_contains (VList l) (lower allergy);
   if in_allergens : bool then Ok true else Ok (contains food_name (lower allergy)))
  = Ok (bool_decide (lower allergy ∈ l) || contains food_name (lower allergy)).
Proof. simpl. by destruct (bool_decide (lower allergy ∈ l)). Qed.

(** X25: a named food whose allergens are a list or absent is rejected
    whenever some allergy of the profile, lower-cased, is among its
    allergens or occurs in its lower-cased name, or some dislike of the
    profile, lower-cased, occurs in its lower-cased name, whatever the
    other preferences and restrictions are. *)
Theorem unwanted_food_is_rejected (self : UserProfile) (food_data : dict) (name : string) :
  food_data !! "name" = Some (VStr name) ->
  list_or_absent food_data "allergens" ->
  ((exists allergy, allergy ∈ allergies (dietary_preferences self)
      /\ (lower allergy ∈ food_allergens food_data
          \/ contains (lower name) (lower allergy) = true))
   \/ (exists dislike, dislike ∈ dislikes (dietary_preferences self)
         /\ contains (lower name) (lower dislike) = true)) ->
  is_food_allowed self food_data = Ok false.
Proof.
  intros Hname Hal Hhit. unfold is_food_allowed. rewrite Hname. simpl.
  rewrite (allergens_value food_data Hal).
  set (hit := fun allergy : string => _).
  assert (Hval : forall y, hit y = Ok (bool_decide (lower y ∈ food_allergens food_data)
                                       || contains (lower name) (lower y))).
  { intros y. apply allergy_check_value. }
  destruct (classic_hit hit (allergies (dietary_preferences self)))
    as [(x & Hx & Hhx) | Hmiss].
  { intros y _. rewrite Hval. by eexists. }
  { eapply unless_any_hit; [| exact Hx | exact Hhx]. intros y _. rewrite Hval. by eexists. }
  rewrite unless_any_miss by done.
  destruct Hhit as [(allergy & Hin & Hm) | (dislike & Hin & Hm)].
  - exfalso. specialize (Hmiss allergy Hin). rewrite Hval in Hmiss.
    injection Hmiss as Hmiss. apply orb_false_iff in Hmiss as [H1 H2].
    destruct Hm as [Hm | Hm]; [| congruence].
    by apply bool_decide_eq_false in H1.
  - eapply unless_any_hit; [by eauto | exact Hin | by rewrite Hm].
Qed.

Lemma stricter_diets_witness :
  _check_dietary_restriction scenario_profile oatmeal VEGETARIAN = Ok true
  /\ _check_dietary_restriction scenario_profile chicken_breast LOW_CARB = Ok true.
Proof.
  split.
  - apply (proj1 (stricter_diets scenario_profile oatmeal)). reflexivity.
  - apply (proj1 (proj2 (stricter_diets scenario_profile chicken_breast))). reflexivity.
Defined.

Lemma unwanted_food_is_rejected_witness :
  is_food_allowed peanut_allergic peanut_butter = Ok false.
Proof.
  apply (unwanted_food_is_rejected peanut_allergic peanut_butter "Peanut butter").
  - reflexivity.
  - exact I.
  - left. exists "Peanut"%string. split; [apply list_elem_of_here |].
    left. apply list_elem_of_here.
Defined.
End Foods.

(** ** Further properties: the meal optimizer *)

Section MoreOptimizer.
Import MealOptimizer FoodRules.

Lemma get_num_returns (food : dict) k dflt :
  number_or_absent food k -> exists q, get_num food k dflt = Ok q.
Proof.
  unfold number_or_absent, get_num. destruct (food !! k) as [[q | |] |]; try done;
    intros _; by eexists.
Qed.

Lemma str_lower_returns (food : dict) k :
  text_or_absent food k -> exists s, str_lower (default (VStr "") (food !! k)) = Ok s.
Proof.
  unfold text_or_absent. destruct (food !! k) as [[| s |] |]; try done;
    intros _; by eexists.
Qed.

Lemma well_formed_field (food : dict) k :
  well_formed_food food -> k ∈ food_fields -> number_or_absent food k.
Proof. intros (_ & _ & _ & Hf) Hk. by eapply Forall_forall in Hf. Qed.

Ltac in_fields :=
  unfold food_fields; repeat first [apply list_elem_of_here | apply list_elem_of_further].

Lemma well_formed_name_text (food : dict) :
  well_formed_food food -> text_or_absent food "name".
Proof. intros ([name Hn] & _). unfold text_or_absent. by rewrite Hn. Qed.

Lemma predict_satisfaction_range (self : predictor) profile food s :
  predict_satisfaction self profile food = Ok s -> 1 <= s <= 5.
Proof.
  unfold predict_satisfaction. destruct self as [model |].
  - destruct (model profile food) as [p | e]; [| done]. simpl. intros [= <-].
    destruct (min_cases 5.0 p) as [[H1 ->] | [H1 ->]];
      match goal with
      | |- context [Py.max 1.0 ?x] => destruct (max_cases 1.0 x) as [[H2 ->] | [H2 ->]]
      end; split; lra.
  - intros [= <-]. split; discriminate.
Qed.

Lemma nutrition_density_cap (food : dict) d :
  _calculate_nutrition_density food = Ok d -> d <= 2.
Proof.
  unfold _calculate_nutrition_density.
  destruct (get_num food "calories_per_100g" 1) as [c |]; [| done]. simpl.
  destruct (get_num food "protein_g" 0) as [p |]; [| done]. simpl.
  destruct (get_num food "fiber_g" 0) as [f |]; [| done]. simpl.
  intros [= <-].
  match goal with
  | |- Py.min ?x 2.0 <= _ => destruct (min_cases x 2.0) as [[H1 ->] | [H1 ->]]
  end; lra.
Qed.

Lemma meal_type_fit_range (food : dict) meal_type f :
  _calculate_meal_type_fit food meal_type = Ok f -> 0.5 <= f <= 1.
Proof.
  unfold _calculate_meal_type_fit.
  destruct (str_lower (default (VStr "") (food !! "category"))) as [c |]; [| done].
  destruct (str_lower (default (VStr "") (food !! "name"))) as [n |]; [| done].
  simpl. repeat case_match; intros [= <-]; split; discriminate.
Qed.

Lemma cost_efficiency_range (cost : Q) : 0 < 1.0 / Py.max cost 0.1 <= 10.
Proof.
  destruct (max_cases cost 0.1) as [[H ->] | [H ->]].
  - split; [reflexivity | discriminate].
  - split.
    + apply Qlt_shift_div_l; lra.
    + apply Qle_shift_div_r; lra.
Qed.

Lemma score_food_returns (self : predictor) profile meal_type (food : dict) :
  predictor_returns self -> well_formed_food food ->
  exists score, score_food self profile meal_type food = Ok (food, score).
Proof.
  intros Hp Hwf. unfold score_food.
  assert (exists s, predict_satisfaction self profile food = Ok s) as [s ->].
  { unfold predict_satisfaction. destruct self as [model |]; [| by eexists].
    destruct (Hp profile food) as [p ->]. by eexists. }
  simpl. unfold _calculate_nutrition_density.
  destruct (get_num_returns food "calories_per_100g" 1) as [c ->];
    [apply well_formed_field; [done | in_fields] |].
  destruct (get_num_returns food "protein_g" 0) as [p ->];
    [apply well_formed_field; [done | in_fields] |].
  destruct (get_num_returns food "fiber_g" 0) as [f ->];
    [apply well_formed_field; [done | in_fields] |].
  destruct (get_num_returns food "cost_per_100g" 1) as [cost ->];
    [apply well_formed_field; [done | in_fields] |].
  simpl. unfold _calculate_meal_type_fit.
  destruct (str_lower_returns food "category") as [cat ->]; [by destruct Hwf as (_ & ? & _) |].
  destruct (str_lower_returns food "name") as [n ->]; [by apply well_formed_name_text |].
  simpl. repeat case_match; by eexists.
Qed.

(** X26: the ingredients of a food's score are bounded whenever they are
    computed: the predicted satisfaction lies in [1, 5] (3 when untrained),
    the nutrition density is at most 2, the meal-type fit lies in
    [0.5, 1], and the combined score is at most 4.7; and for a well-formed
    food and a predictor that returns, the score is computed. *)
Theorem score_components_bounded (self : predictor) profile meal_type (food : dict) :
  (forall s, predict_satisfaction self profile food = Ok s -> 1 <= s <= 5)
  /\ (forall d, _calculate_nutrition_density food = Ok d -> d <= 2)
  /\ (forall f, _calculate_meal_type_fit food meal_type = Ok f -> 0.5 <= f <= 1)
  /\ (forall g score, score_food self profile meal_type food = Ok (g, score) ->
        g = food /\ score <= 4.7)
  /\ (predictor_returns self -> well_formed_food food ->
      exists score, score_food self profile meal_type food = Ok (food, score)).
Proof.
  split; [intros s; apply predict_satisfaction_range |].
  split; [intros d; apply nutrition_density_cap |].
  split; [intros f; apply meal_type_fit_range |].
  split; [| apply score_food_returns].
  intros g score. unfold score_food.
  destruct (predict_satisfaction self profile food) as [s |] eqn:Es; [| done].
  destruct (_calculate_nutrition_density food) as [d |] eqn:Ed; [| done].
  destruct (get_num food "cost_per_100g" 1) as [cost |]; [| done].
  destruct (_calculate_meal_type_fit food meal_type) as [f |] eqn:Ef; [| done].
  simpl. intros [= <- <-]. split; [done |].
  pose proof (predict_satisfaction_range _ _ _ _ Es) as Hs.
  pose proof (nutrition_density_cap _ _ Ed) as Hd.
  pose proof (meal_type_fit_range _ _ _ Ef) as Hf.
  pose proof (cost_efficiency_range cost) as Hc.
  set (ce := 1.0 / Py.max cost 0.1) in *. lra.
Qed.

(** *** Selection *)

Lemma head_insert_desc (x : dict * Q) (l : list (dict * Q)) :
  head (insert_desc Qlt_bool snd x l)
  = match l with
    | [] => Some x
    | z :: _ => if Qlt_bool (snd x) (snd z) then Some z else Some x
    end.
Proof. destruct l as [| z l]; [done |]. simpl. by destruct (Qlt_bool _ _). Qed.

Lemma best_score_split (l : list (dict * Q)) x :
  head (sorted Qlt_bool snd true l) = Some x ->
  exists l1 l2, l = l1 ++ x :: l2
    /\ (forall y, y ∈ l1 -> snd y < snd x)
    /\ (forall y, y ∈ l2 -> snd y <= snd x).
Proof.
  revert x. induction l as [| y l IH]; intros x; [done |].
  change (sorted Qlt_bool snd true (y :: l))
    with (insert_desc Qlt_bool snd y (sorted Qlt_bool snd true l)).
  rewrite head_insert_desc.
  destruct (sorted Qlt_bool snd true l) as [| z s'] eqn:Es.
  - intros [= <-].
    assert (l = []) as ->.
    { apply Permutation_nil. rewrite <- Es. apply sorted_perm. }
    exists [], []. split; [done |]. split; intros w Hw; by apply elem_of_nil in Hw.
  - destruct (IH z eq_refl) as (l1 & l2 & Hl & H1 & H2).
    destruct (Qlt_bool (snd y) (snd z)) eqn:E; intros [= <-].
    + apply Qlt_bool_iff in E.
      exists (y :: l1), l2. split; [by rewrite Hl |]. split; [| done].
      intros w [-> | Hw]%elem_of_cons; [done | by apply H1].
    + apply Qlt_bool_false_iff in E.
      exists [], l. split; [done |]. split; [intros w Hw; by apply elem_of_nil in Hw |].
      intros w Hw. rewrite Hl in Hw.
      apply elem_of_app in Hw as [Hw | [-> | Hw]%elem_of_cons].
      * specialize (H1 w Hw). lra.
      * done.
      * specialize (H2 w Hw). lra.
Qed.

Lemma try_map_returns {A B} (f : A -> result B) (l : list A) :
  (forall x, x ∈ l -> exists y, f x = Ok y) ->
  exists ys, try_map f l = Ok ys /\ Forall2 (fun x y => f x = Ok y) l ys.
Proof.
  induction l as [| x l IH]; intros Hf.
  - exists []. split; [done | constructor].
  - destruct (Hf x ltac:(apply list_elem_of_here)) as [y Hy].
    destruct IH as (ys & Hys & Hall).
    { intros z Hz. apply Hf. by apply list_elem_of_further. }
    exists (y :: ys). simpl. rewrite Hy. simpl. rewrite Hys. split; [done |].
    by constructor.
Qed.

Lemma meal_complete (meal_type : string) (items : list string) (c p cb f : Q) :
  complete (<["meal_type" := VStr meal_type]>
              (<["items" := VList items]>
                 (<["calories" := VNum c]>
                    (<["protein" := VNum p]>
                       (<["carbs" := VNum cb]> (<["fat" := VNum f]> ∅)))))).
Proof.
  intros k
    [-> | [-> | [-> | [-> | []%elem_of_nil]%elem_of_cons]%elem_of_cons]%elem_of_cons]%elem_of_cons;
    eexists; repeat (rewrite lookup_insert_ne by done); by rewrite lookup_insert_eq.
Qed.

Lemma plan_meal_returns (self : predictor) profile (allowed_foods : list dict)
    (total_target_calories : Q) (meal_type : string) :
  allowed_foods <> [] ->
  Forall well_formed_food allowed_foods ->
  predictor_returns self ->
  exists earlier food later score name meal cost,
    plan_meal self profile allowed_foods total_target_calories meal_type = Ok (meal, cost)
    /\ allowed_foods = earlier ++ food :: later
    /\ score_food self profile meal_type food = Ok (food, score)
    /\ (forall g, g ∈ earlier -> exists sg,
          score_food self profile meal_type g = Ok (g, sg) /\ sg < score)
    /\ (forall g, g ∈ later -> exists sg,
          score_food self profile meal_type g = Ok (g, sg) /\ sg <= score)
    /\ food !! "name" = Some (VStr name)
    /\ meal !! "items" = Some (VList [name])
    /\ meal !! "meal_type" = Some (VStr meal_type)
    /\ complete meal
    /\ let portion :=
         Py.min (total_target_calories
                 * default 0.33 (Config.MEAL_CALORIE_DISTRIBUTION !! meal_type)
                 / Py.max (num_or 100 food "calories_per_100g") 1 * 100)
                400 in
       meal !! "calories"
         = Some (VNum (num_or 0 food "calories_per_100g" * portion / 100))
       /\ meal !! "protein" = Some (VNum (num_or 0 food "protein_g" * portion / 100))
       /\ meal !! "carbs" = Some (VNum (num_or 0 food "carbs_g" * portion / 100))
       /\ meal !! "fat" = Some (VNum (num_or 0 food "fat_g" * portion / 100))
       /\ cost = num_or 1 food "cost_per_100g" * portion / 100.
Proof.
  intros Hne Hwf Hp. unfold plan_meal.
  destruct (try_map_returns (score_food self profile meal_type) allowed_foods)
    as (fs & -> & Hfs).
  { intros food Hfood. eapply Forall_forall in Hwf; [| exact Hfood].
    destruct (score_food_returns self profile meal_type food Hp Hwf) as [sc Hsc].
    by eexists. }
  simpl.
  destruct (sorted Qlt_bool snd true fs) as [| [selected sc] rest] eqn:Es.
  { exfalso. assert (fs = []) as ->.
    { apply Permutation_nil. rewrite <- Es. apply sorted_perm. }
    by inversion Hfs. }
  destruct (best_score_split fs (selected, sc)) as (fs1 & fs2 & Hsplit & H1 & H2).
  { by rewrite Es. }
  rewrite Hsplit in Hfs.
  apply Forall2_app_inv_r in Hfs as (earlier & rest' & Hearlier & Hrest & ->).
  apply Forall2_cons_inv_r in Hrest as (food & later & Hfood & Hlater & ->).
  assert (Hfst : forall g y, score_food self profile meal_type g = Ok y -> y.1 = g).
  { intros g [g' sg]. unfold score_food.
    destruct (predict_satisfaction self profile g); [| done]. simpl.
    destruct (_calculate_nutrition_density g); [| done]. simpl.
    destruct (get_num g "cost_per_100g" 1); [| done]. simpl.
    destruct (_calculate_meal_type_fit g meal_type); [| done]. simpl.
    by intros [= <- _]. }
  pose proof (Hfst _ _ Hfood) as Hsel. simpl in Hsel. subst selected.
  assert (Hwfood : well_formed_food food).
  { eapply Forall_forall in Hwf; [exact Hwf |]. apply elem_of_app. right.
    apply list_elem_of_here. }
  destruct Hwfood as ([name Hname] & Hcat & Hall & Hfields).
  assert (Hnum : forall k dflt, k ∈ food_fields ->
            get_num food k dflt = Ok (num_or dflt food k)).
  { intros k dflt Hk. eapply Forall_forall in Hfields; [| exact Hk].
    unfold number_or_absent, get_num, num_or in *.
    by destruct (food !! k) as [[| |] |]. }
  exists earlier, food, later, sc, name. eexists _, _.
  split.
  { rewrite (Hnum "calories_per_100g"%string 100) by in_fields. simpl.
    rewrite (Hnum "calories_per_100g"%string 0) by in_fields. simpl.
    rewrite Hname. simpl.
    rewrite (Hnum "protein_g"%string 0) by in_fields. simpl.
    rewrite (Hnum "carbs_g"%string 0) by in_fields. simpl.
    rewrite (Hnum "fat_g"%string 0) by in_fields. simpl.
    rewrite (Hnum "cost_per_100g"%string 1) by in_fields. simpl.
    reflexivity. }
  split; [done |]. split; [done |]. split; [| split].
  - intros g Hg.
    apply list_elem_of_lookup in Hg as [i Hi].
    destruct (Forall2_lookup_l _ _ _ _ _ Hearlier Hi) as ([g' sg] & Hy & Hsg).
    pose proof (Hfst _ _ Hsg) as Hg'. simpl in Hg'. subst g'.
    exists sg. split; [done |].
    apply (H1 (g, sg)). by eapply list_elem_of_lookup_2.
  - intros g Hg.
    apply list_elem_of_lookup in Hg as [i Hi].
    destruct (Forall2_lookup_l _ _ _ _ _ Hlater Hi) as ([g' sg] & Hy & Hsg).
    pose proof (Hfst _ _ Hsg) as Hg'. simpl in Hg'. subst g'.
    exists sg. split; [done |].
    apply (H2 (g, sg)). by eapply list_elem_of_lookup_2.
  - split; [done |].
    split; [by rewrite lookup_insert_ne, lookup_insert_eq |].
    split; [by rewrite lookup_insert_eq |].
    split; [apply meal_complete |].
    cbv zeta.
    repeat split; repeat (rewrite lookup_insert_ne by done); by rewrite ?lookup_insert_eq.
Qed.

(** X27: for a non-empty pool of well-formed foods the meal of one meal
    type is built from the food of the highest score, the first such food
    of the pool on ties: every food before it scores strictly less, no
    food after it scores more; the meal lists that food's name as its only
    item and carries the meal type. *)
Theorem best_food_is_selected (self : predictor) profile (allowed_foods : list dict)
    (total_target_calories : Q) (meal_type : string) :
  allowed_foods <> [] ->
  Forall well_formed_food allowed_foods ->
  predictor_returns self ->
  exists earlier food later score name meal cost,
    plan_meal self profile allowed_foods total_target_calories meal_type = Ok (meal, cost)
    /\ allowed_foods = earlier ++ food :: later
    /\ score_food self profile meal_type food = Ok (food, score)
    /\ (forall g, g ∈ earlier -> exists sg,
          score_food self profile meal_type g = Ok (g, sg) /\ sg < score)
    /\ (forall g, g ∈ later -> exists sg,
          score_food self profile meal_type g = Ok (g, sg) /\ sg <= score)
    /\ food !! "name" = Some (VStr name)
    /\ meal !! "items" = Some (VList [name])
    /\ meal !! "meal_type" = Some (VStr meal_type).
Proof.
  intros Hne Hwf Hp.
  destruct (plan_meal_returns self profile allowed_foods total_target_calories meal_type
              Hne Hwf Hp)
    as (earlier & food & later & score & name & meal & cost & Hrun & Hsplit & Hscore
        & H1 & H2 & Hname & Hitems & Htype & _).
  by exists earlier, food, later, score, name, meal, cost.
Qed.



(** *** The whole optimisation *)

Lemma unless_any_returns {A} (hit : A -> result bool) (l : list A) (rest : result bool) :
  (forall y, y ∈ l -> exists b, hit y = Ok b) ->
  (exists b, rest = Ok b) ->
  exists b, unless_any hit l rest = Ok b.
Proof.
  induction l as [| y l IH]; intros Hok Hrest; [done |].
  simpl. destruct (Hok y ltac:(apply list_elem_of_here)) as [b ->]. simpl.
  destruct b; [by eexists |].
  apply IH; [| done]. intros z Hz. apply Hok. by apply list_elem_of_further.
Qed.

Lemma check_restriction_returns (self : UserProfile) (food : dict) restriction :
  well_formed_food food ->
  exists b, _check_dietary_restriction self food restriction = Ok b.
Proof.
  intros Hwf. unfold _check_dietary_restriction.
  destruct (str_lower_returns food "name") as [n ->]; [by apply well_formed_name_text |].
  destruct (str_lower_returns food "category") as [c ->];
    [by destruct Hwf as (_ & ? & _) |].
  simpl.
  assert (exists q, as_num (default (VNum 0) (food !! "carbs_g")) = Ok q) as [q Hq].
  { apply (get_num_returns food "carbs_g" 0). apply well_formed_field; [done | in_fields]. }
  destruct restriction; rewrite ?Hq; simpl; by eexists.
Qed.

Lemma is_food_allowed_returns (self : UserProfile) (food : dict) :
  well_formed_food food -> exists b, is_food_allowed self food = Ok b.
Proof.
  intros Hwf. unfold is_food_allowed.
  destruct (str_lower_returns food "name") as [n ->]; [by apply well_formed_name_text |].
  simpl. rewrite (allergens_value food) by (by destruct Hwf as (_ & _ & ? & _)).
  apply unless_any_returns.
  { intros y _. rewrite allergy_check_value. by eexists. }
  apply unless_any_returns; [intros y _; by eexists |].
  apply unless_any_returns; [| by eexists].
  intros r _. destruct (check_restriction_returns self food r Hwf) as [b ->].
  simpl. by eexists.
Qed.

Lemma try_filter_returns {A} (f : A -> result bool) (l : list A) :
  (forall x, x ∈ l -> exists b, f x = Ok b) ->
  exists xs, try_filter f l = Ok xs
    /\ forall x, x ∈ xs <-> x ∈ l /\ f x = Ok true.
Proof.
  induction l as [| y l IH]; intros Hf.
  - exists []. split; [done |]. intros x. split; [by intros ?%elem_of_nil |].
    by intros [?%elem_of_nil _].
  - destruct (Hf y ltac:(apply list_elem_of_here)) as [b Hb].
    destruct IH as (xs & Hxs & Hin).
    { intros z Hz. apply Hf. by apply list_elem_of_further. }
    exists (if b then y :: xs else xs). simpl. rewrite Hb. simpl. rewrite Hxs. simpl.
    split; [done |]. intros x. destruct b.
    + rewrite !elem_of_cons, Hin. split.
      * intros [-> | [Hx Hfx]]; [by split; [left |] | by split; [right |]].
      * intros [[-> | Hx] Hfx]; [by left | by right].
    + rewrite elem_of_cons, Hin. split.
      * intros [Hx Hfx]. by split; [right |].
      * intros [[-> | Hx] Hfx]; [congruence | done].
Qed.

Lemma foldl_totals (meals : list dict) t :
  foldl (fun t meal =>
           {| total_calories := total_calories t + meal_num meal "calories";
              total_protein := total_protein t + meal_num meal "protein";
              total_carbs := total_carbs t + meal_num meal "carbs";
              total_fat := total_fat t + meal_num meal "fat" |}) t meals
  = foldl add_numbers t meals.
Proof. reflexivity. Qed.

(** X29: on a pool of well-formed foods, with a predictor that returns,
    [optimize_meal_plan] never raises: the allowed foods are those of the
    pool that [is_food_allowed] accepts; without any it returns the
    structured failure, and otherwise a success with one meal per requested
    meal type, in order, each complete and carrying its meal type, and with
    totals equal to what [_calculate_total_nutrition] computes from those
    meals. *)
Theorem optimize_meal_plan_outcome (self : predictor) (profile : UserProfile)
    (available_foods : list dict) (target_calories : gmap string Q)
    (meal_types : option (list string)) :
  Forall well_formed_food available_foods ->
  predictor_returns self ->
  let types := default ["breakfast"; "lunch"; "dinner"]%string meal_types in
  exists allowed r,
    try_filter (is_food_allowed profile) available_foods = Ok allowed
    /\ (forall food, food ∈ allowed
          <-> food ∈ available_foods /\ is_food_allowed profile food = Ok true)
    /\ optimize_meal_plan self profile available_foods target_calories meal_types = Ok r
    /\ (allowed = [] -> r = OptFailure "No allowed foods available")
    /\ (allowed <> [] ->
        exists meals totals cost,
          r = OptSuccess meals totals cost
          /\ length meals = length types
          /\ (forall i meal, meals !! i = Some meal ->
                complete meal /\ meal !! "meal_type" = VStr <$> types !! i)
          /\ MealPlanGenerator._calculate_total_nutrition meals = Ok totals).
Proof.
  intros Hwf Hp types.
  destruct (try_filter_returns (is_food_allowed profile) available_foods)
    as (allowed & Hfilter & Hin).
  { intros food Hfood. apply is_food_allowed_returns.
    by eapply Forall_forall in Hwf. }
  exists allowed. unfold optimize_meal_plan. rewrite Hfilter. simpl. fold types.
  destruct allowed as [| food0 allowed'] eqn:Eallowed.
  { eexists. split; [done |]. split; [done |]. split; [done |]. by split. }
  rewrite <- Eallowed in *.
  assert (Hne : allowed <> []) by (by rewrite Eallowed).
  assert (Hwfa : Forall well_formed_food allowed).
  { apply Forall_forall. intros food Hfood. apply Hin in Hfood as [Hfood _].
    by eapply Forall_forall in Hwf. }
  set (total := default (UserProfileMethods.calculate_tdee profile)
                  (target_calories !! "calories")).
  destruct (try_map_returns (plan_meal self profile allowed total) types)
    as (planned & Hplanned & Hall).
  { intros meal_type _.
    destruct (plan_meal_returns self profile allowed total meal_type Hne Hwfa Hp)
      as (? & ? & ? & ? & ? & meal & cost & Hrun & _).
    by eexists. }
  assert (Hmeals : forall i meal, map fst planned !! i = Some meal ->
            complete meal /\ meal !! "meal_type" = VStr <$> types !! i).
  { intros i meal Hi. rewrite list_lookup_fmap in Hi.
    destruct (planned !! i) as [[meal' cost] |] eqn:Ep; [| done].
    simpl in Hi. injection Hi as ->.
    destruct (Forall2_lookup_r _ _ _ _ _ Hall Ep) as (meal_type & Ht & Hrun).
    destruct (plan_meal_returns self profile allowed total meal_type Hne Hwfa Hp)
      as (? & ? & ? & ? & ? & meal'' & cost'' & Hrun' & _ & _ & _ & _ & _ & _ & Htype
          & Hcomplete & _).
    rewrite Hrun in Hrun'. injection Hrun' as <- <-.
    split; [done |]. by rewrite Ht. }
  destruct (decide (allowed = [])) as [? | _]; [done |].
  rewrite Eallowed. rewrite <- Eallowed. rewrite Hplanned. simpl.
  eexists. split; [done |]. split; [done |]. split; [reflexivity |].
  split; [done |]. intros _.
  eexists _, _, _. split; [reflexivity |].
  split; [rewrite length_map; symmetry; by eapply Forall2_length |].
  split; [exact Hmeals |].
  rewrite foldl_totals. unfold MealPlanGenerator._calculate_total_nutrition.
  apply add_meals_numeric. apply Forall_forall. intros meal Hmeal.
  apply list_elem_of_lookup in Hmeal as [i Hi].
  apply complete_numeric. by apply (Hmeals i).
Qed.

(** X30: the meal types the engine chooses for a meal count, and the part
    of the daily calorie target they are planned for: between one and five
    distinct meal types, whose shares add up to the whole target for three
    meals (and for any count outside 1..5, which falls back to three
    meals), to 40% for one meal, 60% for two, 133% for four and 166% for
    five, a snack having no entry in the distribution and taking the
    default share of 0.33. *)
Theorem meal_shares_by_count (meal_count : Z) :
  let types := PersonalizedNutritionEngine._determine_meal_types meal_count in
  (1 <= length types <= 5)%nat
  /\ NoDup types
  /\ planned_share types
     == (if (meal_count =? 1)%Z then 0.40
         else if (meal_count =? 2)%Z then 0.60
         else if (meal_count =? 3)%Z then 1
         else if (meal_count =? 4)%Z then 1.33
         else if (meal_count =? 5)%Z then 1.66
         else 1).
Proof.
  unfold PersonalizedNutritionEngine._determine_meal_types. cbv zeta.
  repeat case_match; (split; [simpl; lia |]); (split; [compute_done | reflexivity]).
Qed.

Lemma pool_well_formed : Forall well_formed_food [oatmeal; chicken_breast].
Proof.
  repeat constructor; try (by eexists); exact I.
Qed.

Lemma score_components_bounded_witness :
  exists score, score_food None scenario_profile "breakfast" oatmeal = Ok (oatmeal, score).
Proof.
  apply (proj2 (proj2 (proj2 (proj2 (score_components_bounded None scenario_profile
                                        "breakfast" oatmeal))))).
  - exact I.
  - exact (Forall_inv pool_well_formed).
Defined.

Lemma best_food_is_selected_witness :
  exists earlier food later score name meal cost,
    plan_meal None scenario_profile [oatmeal; chicken_breast] 2000 "breakfast"
      = Ok (meal, cost)
    /\ [oatmeal; chicken_breast] = earlier ++ food :: later
    /\ score_food None scenario_profile "breakfast" food = Ok (food, score)
    /\ (forall g, g ∈ earlier -> exists sg,
          score_food None scenario_profile "breakfast" g = Ok (g, sg) /\ sg < score)
    /\ (forall g, g ∈ later -> exists sg,
          score_food None scenario_profile "breakfast" g = Ok (g, sg) /\ sg <= score)
    /\ food !! "name" = Some (VStr name)
    /\ meal !! "items" = Some (VList [name])
    /\ meal !! "meal_type" = Some (VStr "breakfast").
Proof.
  apply (best_food_is_selected None scenario_profile [oatmeal; chicken_breast] 2000
           "breakfast").
  - discriminate.
  - exact pool_well_formed.
  - exact I.
Defined.


Lemma optimize_meal_plan_outcome_witness :
  exists allowed r,
    try_filter (is_food_allowed scenario_profile) [oatmeal; chicken_breast] = Ok allowed
    /\ (forall food, food ∈ allowed
          <-> food ∈ [oatmeal; chicken_breast]
              /\ is_food_allowed scenario_profile food = Ok true)
    /\ optimize_meal_plan None scenario_profile [oatmeal; chicken_breast] ∅ None = Ok r
    /\ (allowed = [] -> r = OptFailure "No allowed foods available")
    /\ (allowed <> [] ->
        exists meals totals cost,
          r = OptSuccess meals totals cost
          /\ length meals = length ["breakfast"; "lunch"; "dinner"]%string
          /\ (forall i meal, meals !! i = Some meal ->
                complete meal
                /\ meal !! "meal_type"
                   = VStr <$> ["breakfast"; "lunch"; "dinner"]%string !! i)
          /\ MealPlanGenerator._calculate_total_nutrition meals = Ok totals).
Proof.
  apply (optimize_meal_plan_outcome None scenario_profile [oatmeal; chicken_breast] ∅ None).
  - exact pool_well_formed.
  - exact I.
Defined.
End MoreOptimizer.
